(** * Catalog service: product views, serializers and cache policy

    A shallow embedding of [app/product/models.py], [serializers.py],
    [views.py] and [urls.py], together with the parts of the Python and
    Django runtime those files rely on (text stripping, [float], the
    field-level validation loop of a serializer, the key-value cache with
    expiry, and the [cache_page] response cache).

    Part I holds the definitions, Part II the theorems. *)

From Stdlib Require Import ZArith NArith List String Ascii Bool Lia.
From stdpp Require Import gmap strings list fin_maps.
Import ListNotations.

Set Default Proof Using "Type".
#[local] Set Warnings "-register-all".

(* ===================================================================== *)
(** * Part I: definitions *)
(* ===================================================================== *)

(** ** Text

    A Python [str] is a sequence of Unicode code points. Field names, cache
    keys and message constants of the source are kept as [string]. *)

Definition str := list N.

Definition text (s : string) : str :=
  List.map N_of_ascii (list_ascii_of_string s).

(** [str.isspace] for one code point (the table of CPython's
    [_PyUnicode_IsWhitespace]). *)
Definition isspace (c : N) : bool :=
  ((0x09 <=? c) && (c <=? 0x0D))%N
  || ((0x1C <=? c) && (c <=? 0x20))%N
  || (c =? 0x85)%N || (c =? 0xA0)%N || (c =? 0x1680)%N
  || ((0x2000 <=? c) && (c <=? 0x200A))%N
  || (c =? 0x2028)%N || (c =? 0x2029)%N || (c =? 0x202F)%N
  || (c =? 0x205F)%N || (c =? 0x3000)%N.

Fixpoint lstrip_by (sp : N -> bool) (s : str) : str :=
  match s with
  | c :: r => if sp c then lstrip_by sp r else s
  | [] => []
  end.

Definition strip_by (sp : N -> bool) (s : str) : str :=
  rev (lstrip_by sp (rev (lstrip_by sp s))).

(** [value.strip()] *)
Definition strip (s : str) : str := strip_by isspace s.

(** ** External collaborators

    The blob store behind [ImageField] and the Unicode database consulted
    by [float] are not part of the repository. *)

Record Upload := {
  upload_name : str;        (* file name sent by the client *)
  upload_size : N;          (* number of bytes *)
  upload_is_image : bool    (* outcome of the image decoder's verification *)
}.

(** [upload_to='product'] *)
Definition upload_to : str := text "product".

Class Platform := {
  (* storing an upload while the store holds [files]: the file name chosen
     inside the [upload_to] directory, or [None] when the store raises *)
  storage_save : list str -> Upload -> option str;
  (* [FieldFile.url]: the store URL of a stored name *)
  storage_url : str -> str;
  (* decimal value of a non-ASCII code point of category Nd *)
  unicode_decimal : N -> option N;
  (* the file-extension validator of image fields, on a file name: whether
     its extension is one the image library knows *)
  image_extension_allowed : str -> bool;
  (* the store never overwrites: the name it chooses is not taken *)
  storage_save_available :
    forall files image name,
      storage_save files image = Some name ->
      ~ In (upload_to ++ text "/" ++ name) files
}.

(** ** [float(value)]

    The result is kept as the exact decimal that was read; the double that
    Python builds is the binary64 nearest to it (ties to even), and only
    its comparison with zero is needed. *)

Inductive pyfloat :=
| FNan
| FInf (neg : bool)
| FDec (neg : bool) (m : N) (e : Z).   (* nearest double to (-1)^neg * m * 10^e *)

(** The double nearest to [m * 10^e] is zero exactly when
    [m * 10^e <= 2^-1075], half of the least subnormal. *)
Definition rounds_to_zero (m : N) (e : Z) : bool :=
  if (0 <=? e)%Z then (m =? 0)%N
  else (Z.of_N m * 2 ^ 1075 <=? 10 ^ (- e))%Z.

(** [f <= 0] *)
Definition float_le0 (f : pyfloat) : bool :=
  match f with
  | FNan => false
  | FInf neg => neg
  | FDec neg m e => neg || rounds_to_zero m e
  end.

Definition isdigit (c : N) : bool := ((48 <=? c) && (c <=? 57))%N.

(** ASCII white space, [Py_ISSPACE]. *)
Definition ascii_isspace (c : N) : bool :=
  ((9 <=? c) && (c <=? 13))%N || (c =? 32)%N.

Definition ascii_lower (c : N) : N :=
  if ((65 <=? c) && (c <=? 90))%N then (c + 32)%N else c.

Definition str_eqb (a b : str) : bool :=
  if decide (a = b) then true else false.

(** Non-ASCII white space becomes a blank, a non-ASCII decimal digit its
    ASCII digit, any other non-ASCII code point [?]. *)
Definition to_ascii `{Platform} (c : N) : N :=
  if (c <? 128)%N then c
  else if isspace c then 32%N
  else match unicode_decimal c with
       | Some d => (48 + d)%N
       | None => 63%N
       end.

(** Underscores are allowed only between two digits; they are removed. *)
Fixpoint remove_underscores (prev : N) (s : str) : option str :=
  match s with
  | [] => if (prev =? 95)%N then None else Some []
  | c :: r =>
      if (c =? 95)%N then
        if isdigit prev then remove_underscores c r else None
      else if (prev =? 95)%N && negb (isdigit c) then None
      else option_map (cons c) (remove_underscores c r)
  end.

Fixpoint span_digits (s : str) : list N * str :=
  match s with
  | c :: r =>
      if isdigit c then
        let '(ds, r') := span_digits r in ((c - 48)%N :: ds, r')
      else ([], s)
  | [] => ([], [])
  end.

Definition digits_value (ds : list N) : N :=
  fold_left (fun a d => (10 * a + d)%N) ds 0%N.

Definition read_sign (s : str) : bool * str :=
  match s with
  | c :: r =>
      if (c =? 45)%N then (true, r)
      else if (c =? 43)%N then (false, r)
      else (false, s)
  | [] => (false, [])
  end.

(** The exponent part, which must reach the end of the text. *)
Definition read_exponent (s : str) : option Z :=
  match s with
  | [] => Some 0%Z
  | c :: r =>
      if (c =? 101)%N || (c =? 69)%N then
        let '(neg, r1) := read_sign r in
        let '(ds, r2) := span_digits r1 in
        match ds, r2 with
        | _ :: _, [] =>
            let v := Z.of_N (digits_value ds) in
            Some (if neg then (- v)%Z else v)
        | _, _ => None
        end
      else None
  end.

(** [PyOS_string_to_double] on text without surrounding white space. *)
Definition strtod (s : str) : option pyfloat :=
  let '(neg, r) := read_sign s in
  let low := List.map ascii_lower r in
  if str_eqb low (text "inf") || str_eqb low (text "infinity") then
    Some (FInf neg)
  else if str_eqb low (text "nan") then Some FNan
  else
    let '(ip, r1) := span_digits r in
    let '(fp, r2) :=
      match r1 with
      | c :: r' => if (c =? 46)%N then span_digits r' else ([], r1)
      | [] => ([], [])
      end in
    match ip ++ fp with
    | [] => None
    | _ :: _ =>
        match read_exponent r2 with
        | Some e =>
            Some (FDec neg (digits_value (ip ++ fp))
                       (e - Z.of_nat (length fp))%Z)
        | None => None
        end
    end.

(** [float(value)] for a [str]; [None] stands for [ValueError]. *)
Definition float `{Platform} (value : str) : option pyfloat :=
  match remove_underscores 0%N (List.map to_ascii value) with
  | Some s => strtod (strip_by ascii_isspace s)
  | None => None
  end.

(** ** Values

    What a serializer produces, what a response carries and what the cache
    holds are Python objects; one universe covers them. *)

(** [ErrorDetail]: the framework's own failures by code, a message raised
    by a [validate_<field>] hook verbatim. *)
Inductive ErrorDetail :=
| Required                      (* code 'required' *)
| Blank                         (* code 'blank' *)
| NotValid                      (* codes 'invalid', 'null': not coercible *)
| MaxLength (n : nat)           (* code 'max_length' *)
| NullCharacters                (* code 'null_characters_not_allowed' *)
| Surrogates                    (* code 'surrogate_characters_not_allowed' *)
| DoesNotExist (pk : Z)         (* code 'does_not_exist' *)
| IncorrectType                 (* code 'incorrect_type' *)
| NotAList                      (* code 'not_a_list' *)
| NoName                        (* code 'no_name' *)
| EmptyFile                     (* code 'empty' *)
| InvalidImage                  (* code 'invalid_image' *)
| InvalidExtension              (* code 'invalid_extension' *)
| AtIndex (i : nat) (e : ErrorDetail)   (* error of the i-th list item *)
| Msg (m : string).             (* serializers.ValidationError(m) *)

Inductive pyobj :=
| ONone
| OBool (b : bool)
| OInt (z : Z)
| OStr (s : str)
| OTime (t : nat)                         (* a timestamp, in seconds *)
| OError (e : ErrorDetail)
| OList (l : list pyobj)
| ODict (d : list (string * pyobj))
| OResponse (status : nat) (data : pyobj).  (* a rendered response, as cached *)

Record Response := { status : nat; data : pyobj }.

Definition HTTP_200_OK := 200.
Definition HTTP_201_CREATED := 201.
Definition HTTP_400_BAD_REQUEST := 400.
Definition HTTP_405_METHOD_NOT_ALLOWED := 405.
Definition HTTP_500_INTERNAL_SERVER_ERROR := 500.

(** An exception that no handler catches ends the request with a 500. *)
Definition server_error : Response :=
  {| status := HTTP_500_INTERNAL_SERVER_ERROR; data := ONone |}.

Definition method_not_allowed : Response :=
  {| status := HTTP_405_METHOD_NOT_ALLOWED; data := ONone |}.

(** ** models.py *)

Module Category.
Record t := mk { id : Z; title : str; image : str; crated_at : nat }.
End Category.

Module Types.
Record t := mk {
  id : Z; title : str; description : str;
  category : Z;                 (* ForeignKey(Category) *)
  crated_at : nat }.
End Types.

Module Product.
Record t := mk {
  id : Z; title : str; description : str;
  category : Z;                 (* ForeignKey(Category) *)
  types_product : Z;            (* ForeignKey(Types) *)
  price : str;
  uuid : str;                   (* unique *)
  created_at : nat;
  is_active : bool }.
End Product.

Module ProductImage.
Record t := mk {
  id : Z;
  product : Z;                  (* ForeignKey(Product, related_name="images") *)
  image : str }.                (* stored file name *)
End ProductImage.

(** The entity store: one table per model, rows in insertion order, and
    the next primary key of the two tables the service writes. Every write
    takes effect at once (autocommit); the source opens no transaction. *)
Record DB := {
  categories : list Category.t;
  types : list Types.t;
  products : list Product.t;
  product_images : list ProductImage.t;
  product_seq : Z;
  image_seq : Z
}.

(** [Model.objects.filter(id=pk).first()] on a table with unique keys. *)
Definition get_category (db : DB) (pk : Z) : option Category.t :=
  List.find (fun c => (Category.id c =? pk)%Z) (categories db).

Definition get_type (db : DB) (pk : Z) : option Types.t :=
  List.find (fun t => (Types.id t =? pk)%Z) (types db).

(** [product.images.all()] *)
Definition images_of (db : DB) (pk : Z) : list ProductImage.t :=
  List.filter (fun i => (ProductImage.product i =? pk)%Z) (product_images db).

(** [QuerySet.first()] of a queryset without ordering: ordered by primary
    key, first row. *)
Fixpoint first_by_pk (l : list ProductImage.t) : option ProductImage.t :=
  match l with
  | [] => None
  | x :: r =>
      match first_by_pk r with
      | Some y => if (ProductImage.id y <? ProductImage.id x)%Z then Some y
                  else Some x
      | None => Some x
      end
  end.

(** A [Product] instance in memory: its row, the related objects already
    loaded, and the prefetched images when the queryset prefetched them. *)
Record ProductObj := {
  row : Product.t;
  category_obj : Category.t;
  types_obj : Types.t;
  prefetched_images : option (list ProductImage.t)
}.

(** [Product.objects.create] with the validated fields: the row gets the next primary key;
    a [uuid] already present violates the unique constraint. *)
Definition Product_objects_create (db : DB) (title description : str)
    (category : Category.t) (types_product : Types.t) (price : str)
    (is_active : bool) (uuid : str) (now : nat) : option (DB * ProductObj) :=
  if existsb (fun p => str_eqb (Product.uuid p) uuid) (products db) then None
  else
    let r := Product.mk (product_seq db) title description
               (Category.id category) (Types.id types_product)
               price uuid now is_active in
    Some ({| categories := categories db; types := types db;
             products := products db ++ [r];
             product_images := product_images db;
             product_seq := product_seq db + 1;
             image_seq := image_seq db |},
          {| row := r; category_obj := category; types_obj := types_product;
             prefetched_images := None |}).

(** The files the blob store holds inside [upload_to]: those of the image
    rows. *)
Definition stored_files (db : DB) : list str :=
  List.map ProductImage.image (product_images db).

(** [ProductImage.objects.create(product=product, image=image)]: the file
    goes to the blob store first, under a name that is not taken, then the
    row is inserted. *)
Definition ProductImage_objects_create `{Platform} (db : DB)
    (product : ProductObj) (image : Upload) : option DB :=
  match storage_save (stored_files db) image with
  | None => None
  | Some name =>
      let r := ProductImage.mk (image_seq db) (Product.id (row product))
                 (upload_to ++ text "/" ++ name) in
      Some {| categories := categories db; types := types db;
              products := products db;
              product_images := product_images db ++ [r];
              product_seq := product_seq db;
              image_seq := image_seq db + 1 |}
  end.

(** ** django.core.cache

    One process-wide key-value store; an entry carries the time at which
    it expires. *)

Record State := {
  db : DB;
  cache : gmap string (pyobj * nat)
}.

(** [cache.get(key)]: [None] for a missing or expired entry. *)
Definition cache_get (now : nat) (key : string)
    (c : gmap string (pyobj * nat)) : pyobj :=
  match c !! key with
  | Some (v, expires) => if now <? expires then v else ONone
  | None => ONone
  end.

(** [cache.set(key, value, timeout)] *)
Definition cache_set (now : nat) (key : string) (value : pyobj)
    (timeout : nat) (c : gmap string (pyobj * nat)) : gmap string (pyobj * nat) :=
  <[key := (value, now + timeout)]> c.

(** [cache.delete(key)] *)
Definition cache_delete (key : string)
    (c : gmap string (pyobj * nat)) : gmap string (pyobj * nat) :=
  delete key c.

(** ** Requests *)

(** A submitted field: missing, present but not coercible to the field's
    type, or a value. *)
Inductive Raw (A : Type) :=
| Absent
| Malformed
| Given (a : A).
Arguments Absent {A}.
Arguments Malformed {A}.
Arguments Given {A} a.

(** [request.data] of [POST product-create] *)
Module Payload.
Record t := mk {
  title : Raw str;
  description : Raw str;
  category : Raw Z;
  types_product : Raw Z;
  price : Raw str;
  is_active : Raw bool;
  images : Raw (list Upload) }.
Definition empty : t := mk Absent Absent Absent Absent Absent Absent Absent.
End Payload.

Inductive Method := GET | POST.

Record Request := {
  method : Method;
  path : string;
  (* what else identifies the request to the response cache: query
     string, host, values of the headers named by Vary *)
  vary : string;
  build_absolute_uri : str -> str;
  request_data : Payload.t;
  now : nat;        (* the clock, in seconds, while the request is served *)
  uuid4 : str       (* what uuid.uuid4() yields while it is served *)
}.

(** ** serializers.py: read representations *)

(** [FieldFile.url] *)
Definition file_url `{Platform} (name : str) : str := storage_url name.

(** A [FieldFile] is true when it has a name. *)
Definition file_bool (name : str) : bool :=
  match name with [] => false | _ :: _ => true end.

(** [ImageField.to_representation] *)
Definition ImageField_to_representation `{Platform}
    (context : option Request) (name : str) : pyobj :=
  if file_bool name then
    let url := file_url name in
    match context with
    | Some request => OStr (build_absolute_uri request url)
    | None => OStr url
    end
  else ONone.

Module CategorySerializer.
(* fields = ['id', 'title', 'image', 'crated_at'] *)
Definition to_representation `{Platform} (context : option Request)
    (obj : Category.t) : pyobj :=
  ODict [ ("id", OInt (Category.id obj));
          ("title", OStr (Category.title obj));
          ("image", ImageField_to_representation context (Category.image obj));
          ("crated_at", OTime (Category.crated_at obj)) ].
End CategorySerializer.

Module TypesSerializer.
(* fields = ['id', 'title', 'description', 'category', 'category_title',
   'crated_at']; the instance comes with its category *)
Definition to_representation (obj : Types.t * Category.t) : pyobj :=
  let '(t, c) := obj in
  ODict [ ("id", OInt (Types.id t));
          ("title", OStr (Types.title t));
          ("description", OStr (Types.description t));
          ("category", OInt (Types.category t));
          ("category_title", OStr (Category.title c));
          ("crated_at", OTime (Types.crated_at t)) ].
End TypesSerializer.

Module ProductImageSerializer.
Definition get_image_url `{Platform} (context : option Request)
    (obj : ProductImage.t) : pyobj :=
  if file_bool (ProductImage.image obj) then
    let request := context in
    let url := file_url (ProductImage.image obj) in
    match request with
    | Some request => OStr (build_absolute_uri request url)
    | None => OStr url
    end
  else ONone.

(* fields = ['id', 'image', 'image_url', 'product'] *)
Definition to_representation `{Platform} (context : option Request)
    (obj : ProductImage.t) : pyobj :=
  ODict [ ("id", OInt (ProductImage.id obj));
          ("image", ImageField_to_representation context (ProductImage.image obj));
          ("image_url", get_image_url context obj);
          ("product", OInt (ProductImage.product obj)) ].
End ProductImageSerializer.

Module ProductSerializer.
Definition get_first_image `{Platform} (context : option Request)
    (db : DB) (obj : ProductObj) : pyobj :=
  let first_img := first_by_pk (images_of db (Product.id (row obj))) in
  match first_img with
  | Some first_img =>
      if file_bool (ProductImage.image first_img) then
        let request := context in
        let url := file_url (ProductImage.image first_img) in
        match request with
        | Some request => OStr (build_absolute_uri request url)
        | None => OStr url
        end
      else ONone
  | None => ONone
  end.

(** [obj.images.all()]: the prefetched rows when there are some. *)
Definition images_all (db : DB) (obj : ProductObj) : list ProductImage.t :=
  match prefetched_images obj with
  | Some l => l
  | None => images_of db (Product.id (row obj))
  end.

(* fields = ['id', 'uuid', 'title', 'description', 'category',
   'category_title', 'types_product', 'types_title', 'created_at',
   'price', 'first_image', 'images', 'is_active'] *)
Definition to_representation `{Platform} (context : option Request)
    (db : DB) (obj : ProductObj) : pyobj :=
  let p := row obj in
  ODict [ ("id", OInt (Product.id p));
          ("uuid", OStr (Product.uuid p));
          ("title", OStr (Product.title p));
          ("description", OStr (Product.description p));
          ("category", OInt (Product.category p));
          ("category_title", OStr (Category.title (category_obj obj)));
          ("types_product", OInt (Product.types_product p));
          ("types_title", OStr (Types.title (types_obj obj)));
          ("created_at", OTime (Product.created_at p));
          ("price", OStr (Product.price p));
          ("first_image", get_first_image context db obj);
          ("images", OList (List.map
                       (ProductImageSerializer.to_representation context)
                       (images_all db obj)));
          ("is_active", OBool (Product.is_active p)) ].
End ProductSerializer.

(** ** Field validation of the framework *)

(** The outcome of validating one field: the validated value, or the
    detail of the [ValidationError] raised. *)
Inductive result (A : Type) :=
| Valid (a : A)
| Invalid (detail : list ErrorDetail).
Arguments Valid {A} a.
Arguments Invalid {A} detail.

Definition and_then {A B : Type} (r : result A) (f : A -> result B) : result B :=
  match r with
  | Valid a => f a
  | Invalid d => Invalid d
  end.

Definition is_valid_result {A : Type} (r : result A) : bool :=
  match r with Valid _ => true | Invalid _ => false end.

Definition is_surrogate (c : N) : bool := ((0xD800 <=? c) && (c <=? 0xDFFF))%N.

(** [CharField.run_validation]: white space is trimmed, a blank is
    refused, then the validators run and their errors are gathered. *)
Definition CharField_run_validation (max_length : option nat) (data : Raw str)
    : result str :=
  match data with
  | Absent => Invalid [Required]
  | Malformed => Invalid [NotValid]
  | Given s =>
      match strip s with
      | [] => Invalid [Blank]
      | value =>
          let errors :=
            (match max_length with
             | Some n => if n <? length value then [MaxLength n] else []
             | None => []
             end)
            ++ (if existsb (N.eqb 0) value then [NullCharacters] else [])
            ++ (if existsb is_surrogate value then [Surrogates] else []) in
          match errors with
          | [] => Valid value
          | _ :: _ => Invalid errors
          end
      end
  end.

(** [PrimaryKeyRelatedField.run_validation] over [queryset.get(pk=data)] *)
Definition PrimaryKeyRelatedField_run_validation {A : Type}
    (queryset_get : Z -> option A) (data : Raw Z) : result A :=
  match data with
  | Absent => Invalid [Required]
  | Malformed => Invalid [IncorrectType]
  | Given pk =>
      match queryset_get pk with
      | Some obj => Valid obj
      | None => Invalid [DoesNotExist pk]
      end
  end.

(** [BooleanField(required=False)]: a missing value is skipped. *)
Definition BooleanField_run_validation (data : Raw bool) : result (option bool) :=
  match data with
  | Absent => Valid None
  | Malformed => Invalid [NotValid]
  | Given b => Valid (Some b)
  end.

(** [ImageField.run_validation] of one upload: a name, some content, an
    image the decoder accepts, and a file extension of an image. *)
Definition ImageField_run_validation `{Platform} (data : Upload) : result Upload :=
  match upload_name data with
  | [] => Invalid [NoName]
  | _ :: _ =>
      if (upload_size data =? 0)%N then Invalid [EmptyFile]
      else if upload_is_image data then
        if image_extension_allowed (upload_name data) then Valid data
        else Invalid [InvalidExtension]
      else Invalid [InvalidImage]
  end.

(** The error of every item that fails, with its index. *)
Fixpoint run_child_validation `{Platform} (i : nat) (l : list Upload)
    : list ErrorDetail :=
  match l with
  | [] => []
  | u :: r =>
      match ImageField_run_validation u with
      | Valid _ => run_child_validation (S i) r
      | Invalid d => List.map (AtIndex i) d ++ run_child_validation (S i) r
      end
  end.

(** [ListField(child=ImageField(), required=False)] *)
Definition ListField_run_validation `{Platform} (data : Raw (list Upload))
    : result (option (list Upload)) :=
  match data with
  | Absent => Valid None
  | Malformed => Invalid [NotAList]
  | Given l =>
      match run_child_validation 0 l with
      | [] => Valid (Some l)
      | errors => Invalid errors
      end
  end.

(** The entry a field contributes to the error mapping. *)
Definition field_errors {A : Type} (name : string) (r : result A)
    : list (string * list ErrorDetail) :=
  match r with
  | Valid _ => []
  | Invalid d => [(name, d)]
  end.

(** The body of a 400: field name to list of [ErrorDetail]. *)
Definition errors_data (errors : list (string * list ErrorDetail)) : pyobj :=
  ODict (List.map (fun '(k, d) => (k, OList (List.map OError d))) errors).

(** ** serializers.py: [ProductCreateSerializer] *)

Module ProductCreateSerializer.

Record validated_data := {
  title : str;
  description : str;
  category : Category.t;
  types_product : Types.t;
  price : str;
  is_active : option bool;
  images : option (list Upload) }.

Definition validate_title (value : str) : result str :=
  if length (strip value) <? 3 then
    Invalid [Msg "Название продукта должно содержать минимум 3 символа"]
  else Valid (strip value).

Definition validate_description (value : str) : result str :=
  if length (strip value) <? 10 then
    Invalid [Msg "Описание должно содержать минимум 10 символов"]
  else Valid (strip value).

Definition validate_price `{Platform} (value : str) : result str :=
  match float value with
  | Some price_float =>
      if float_le0 price_float then
        Invalid [Msg "Цена должна быть положительным числом"]
      else Valid value
  | None => Invalid [Msg "Цена должна быть числом"]
  end.

Definition validate_category (db : DB) (value : Category.t) : result Category.t :=
  if negb (existsb (fun c => (Category.id c =? Category.id value)%Z)
             (categories db)) then
    Invalid [Msg "Указанная категория не существует"]
  else Valid value.

Definition validate_types_product (db : DB) (value : Types.t) : result Types.t :=
  if negb (existsb (fun t => (Types.id t =? Types.id value)%Z) (types db)) then
    Invalid [Msg "Указанный тип не существует"]
  else Valid value.

(** One writable field after the other, in the order of [Meta.fields]:
    the field's own validation, then its [validate_<field>] hook. *)
Definition run_title (data : Payload.t) : result str :=
  and_then (CharField_run_validation (Some 155) (Payload.title data))
           validate_title.

Definition run_description (data : Payload.t) : result str :=
  and_then (CharField_run_validation None (Payload.description data))
           validate_description.

Definition run_category (db : DB) (data : Payload.t) : result Category.t :=
  and_then (PrimaryKeyRelatedField_run_validation (get_category db)
              (Payload.category data))
           (validate_category db).

Definition run_types_product (db : DB) (data : Payload.t) : result Types.t :=
  and_then (PrimaryKeyRelatedField_run_validation (get_type db)
              (Payload.types_product data))
           (validate_types_product db).

Definition run_price `{Platform} (data : Payload.t) : result str :=
  and_then (CharField_run_validation (Some 30) (Payload.price data))
           validate_price.

Definition run_is_active (data : Payload.t) : result (option bool) :=
  BooleanField_run_validation (Payload.is_active data).

Definition run_images `{Platform} (data : Payload.t)
    : result (option (list Upload)) :=
  ListField_run_validation (Payload.images data).

(** [serializer.errors]: every field is validated, each failure is
    recorded under the field's name. *)
Definition errors `{Platform} (db : DB) (data : Payload.t)
    : list (string * list ErrorDetail) :=
  field_errors "title" (run_title data)
  ++ field_errors "description" (run_description data)
  ++ field_errors "category" (run_category db data)
  ++ field_errors "types_product" (run_types_product db data)
  ++ field_errors "price" (run_price data)
  ++ field_errors "is_active" (run_is_active data)
  ++ field_errors "images" (run_images data).

(** [serializer.is_valid()]: the validated data when no field failed,
    the error mapping otherwise. *)
Definition is_valid `{Platform} (db : DB) (data : Payload.t)
    : list (string * list ErrorDetail) + validated_data :=
  match run_title data, run_description data, run_category db data,
        run_types_product db data, run_price data, run_is_active data,
        run_images data with
  | Valid t, Valid d, Valid c, Valid ty, Valid p, Valid a, Valid i =>
      inr {| title := t; description := d; category := c;
             types_product := ty; price := p; is_active := a; images := i |}
  | _, _, _, _, _, _, _ => inl (errors db data)
  end.

(** The loop of [create] over [images_data]; [false] when a
    [ProductImage.objects.create] raised, the rows written before it
    staying in the store. *)
Fixpoint create_images `{Platform} (db : DB) (product : ProductObj)
    (images_data : list Upload) : DB * bool :=
  match images_data with
  | [] => (db, true)
  | image :: rest =>
      match ProductImage_objects_create db product image with
      | Some db' => create_images db' product rest
      | None => (db, false)
      end
  end.

(** [create(validated_data)]; [None] when a write raised. *)
Definition create `{Platform} (db : DB) (vd : validated_data)
    (uuid : str) (now : nat) : DB * option ProductObj :=
  let images_data := match images vd with Some l => l | None => [] end in
  match Product_objects_create db (title vd) (description vd) (category vd)
          (types_product vd) (price vd)
          (match is_active vd with Some b => b | None => false end)
          uuid now with
  | None => (db, None)
  | Some (db1, product) =>
      match create_images db1 product images_data with
      | (db2, true) => (db2, Some product)
      | (db2, false) => (db2, None)
      end
  end.

End ProductCreateSerializer.

(** ** The response cache, [cache_page(timeout)]

    Only [GET] requests are looked up and stored, only responses with
    status 200 are stored, under a key built from the request's identity. *)

Definition page_key (request : Request) : string :=
  "views.decorators.cache.cache_page." +:+ path request +:+ "." +:+ vary request.

Definition set_cache (st : State) (c : gmap string (pyobj * nat)) : State :=
  {| db := db st; cache := c |}.

Definition cache_page (timeout : nat)
    (view : State -> Request -> State * Response)
    (st : State) (request : Request) : State * Response :=
  match method request with
  | GET =>
      match cache_get (now request) (page_key request) (cache st) with
      | ONone =>
          let '(st', response) := view st request in
          if status response =? HTTP_200_OK then
            (set_cache st'
               (cache_set (now request) (page_key request)
                  (OResponse (status response) (data response)) timeout
                  (cache st')),
             response)
          else (st', response)
      | OResponse s d => (st, {| status := s; data := d |})
      | _ => (st, server_error)
      end
  | POST => view st request
  end.

(** ** views.py *)

Module CategoryAPIView.

(** [Category.objects.all().values('id', 'title', 'image', 'crated_at')] *)
Definition values (c : Category.t) : pyobj :=
  ODict [ ("id", OInt (Category.id c));
          ("title", OStr (Category.title c));
          ("image", OStr (Category.image c));
          ("crated_at", OTime (Category.crated_at c)) ].

Definition get_queryset (st : State) (request : Request)
    : State * list Category.t :=
  let cache_key := "category_list" in
  let cached_data := cache_get (now request) cache_key (cache st) in
  let st' :=
    match cached_data with
    | ONone =>
        let cached_data := OList (List.map values (categories (db st))) in
        set_cache st
          (cache_set (now request) cache_key cached_data (60 * 15) (cache st))
    | _ => st
    end in
  (st', categories (db st')).

(** [ListAPIView.list]: the queryset, serialized. *)
Definition list `{Platform} (st : State) (request : Request)
    : State * Response :=
  let '(st', queryset) := get_queryset st request in
  (st', {| status := HTTP_200_OK;
           data := OList (List.map
                     (CategorySerializer.to_representation (Some request))
                     queryset) |}).

Definition dispatch `{Platform} (st : State) (request : Request)
    : State * Response :=
  match method request with
  | GET => list st request
  | POST => (st, method_not_allowed)
  end.

Definition as_view `{Platform} := cache_page (60 * 15) dispatch.

End CategoryAPIView.

Module TypesAPIView.

(** [Types.objects.select_related('category').all()] *)
Definition get_queryset (db : DB) : list (Types.t * Category.t) :=
  flat_map (fun t => match get_category db (Types.category t) with
                     | Some c => [(t, c)]
                     | None => []
                     end) (types db).

Definition list (st : State) (request : Request) : State * Response :=
  (st, {| status := HTTP_200_OK;
          data := OList (List.map TypesSerializer.to_representation
                           (get_queryset (db st))) |}).

Definition dispatch (st : State) (request : Request) : State * Response :=
  match method request with
  | GET => list st request
  | POST => (st, method_not_allowed)
  end.

Definition as_view := cache_page (60 * 10) dispatch.

End TypesAPIView.

Module ProductAPIView.

(** [Product.objects.select_related('category', 'types_product')
    .prefetch_related(Prefetch('images', ...)).all()]: every product
    comes with its category, its type and its images. *)
Definition get_queryset (db : DB) : list ProductObj :=
  flat_map (fun p =>
              match get_category db (Product.category p),
                    get_type db (Product.types_product p) with
              | Some c, Some t =>
                  [ {| row := p; category_obj := c; types_obj := t;
                       prefetched_images :=
                         Some (images_of db (Product.id p)) |} ]
              | _, _ => []
              end) (products db).

(** [super().list(request)] *)
Definition super_list `{Platform} (st : State) (request : Request) : Response :=
  {| status := HTTP_200_OK;
     data := OList (List.map
               (ProductSerializer.to_representation (Some request) (db st))
               (get_queryset (db st))) |}.

Definition list `{Platform} (st : State) (request : Request)
    : State * Response :=
  let cache_key := "product_list" in
  let cached_data := cache_get (now request) cache_key (cache st) in
  match cached_data with
  | ONone =>
      let response := super_list st request in
      (set_cache st
         (cache_set (now request) cache_key (data response) (60 * 5) (cache st)),
       response)
  | _ => (st, {| status := HTTP_200_OK; data := cached_data |})
  end.

Definition dispatch `{Platform} (st : State) (request : Request)
    : State * Response :=
  match method request with
  | GET => list st request
  | POST => (st, method_not_allowed)
  end.

Definition as_view `{Platform} := cache_page (60 * 5) dispatch.

End ProductAPIView.

Module ProductCreateView.

Definition create `{Platform} (st : State) (request : Request)
    : State * Response :=
  match ProductCreateSerializer.is_valid (db st) (request_data request) with
  | inl errors =>
      (st, {| status := HTTP_400_BAD_REQUEST; data := errors_data errors |})
  | inr validated =>
      match ProductCreateSerializer.create (db st) validated
              (uuid4 request) (now request) with
      | (db', None) => ({| db := db'; cache := cache st |}, server_error)
      | (db', Some product) =>
          let st' := {| db := db';
                        cache := cache_delete "product_list" (cache st) |} in
          (st', {| status := HTTP_201_CREATED;
                   data := ProductSerializer.to_representation
                             (Some request) db' product |})
      end
  end.

Definition dispatch `{Platform} (st : State) (request : Request)
    : State * Response :=
  match method request with
  | POST => create st request
  | GET => (st, method_not_allowed)
  end.

Definition as_view `{Platform} := dispatch.

End ProductCreateView.

(** ** urls.py *)

Definition HTTP_404_NOT_FOUND := 404.

Definition urlpatterns `{Platform} (st : State) (request : Request)
    : State * Response :=
  if String.eqb (path request) "category-list" then
    CategoryAPIView.as_view st request
  else if String.eqb (path request) "type-list" then
    TypesAPIView.as_view st request
  else if String.eqb (path request) "product-list" then
    ProductAPIView.as_view st request
  else if String.eqb (path request) "product-create" then
    ProductCreateView.as_view st request
  else (st, {| status := HTTP_404_NOT_FOUND; data := ONone |}).

(** Serving requests one after the other; the responses in order. *)
Fixpoint serve `{Platform} (st : State) (requests : list Request)
    : State * list Response :=
  match requests with
  | [] => (st, [])
  | r :: rest =>
      let '(st1, resp) := urlpatterns st r in
      let '(st2, resps) := serve st1 rest in
      (st2, resp :: resps)
  end.

(** ** Reading a payload *)

Fixpoint dict_get (k : string) (d : list (string * pyobj)) : option pyobj :=
  match d with
  | [] => None
  | (k', v) :: r => if String.eqb k k' then Some v else dict_get k r
  end.

(** [data[k]] of a serialized object *)
Definition field (k : string) (o : pyobj) : option pyobj :=
  match o with
  | ODict d => dict_get k d
  | _ => None
  end.

(** The primary keys of the objects listed by a payload. *)
Definition listed_ids (payload : pyobj) : list Z :=
  match payload with
  | OList l =>
      flat_map (fun o => match field "id" o with
                         | Some (OInt z) => [z]
                         | _ => []
                         end) l
  | _ => []
  end.

Fixpoint errors_get (k : string) (errors : list (string * list ErrorDetail))
    : option (list ErrorDetail) :=
  match errors with
  | [] => None
  | (k', d) :: r => if String.eqb k k' then Some d else errors_get k r
  end.

(** ** Consistency of the store

    Primary keys come from the sequences, and every image row references
    an existing product (the foreign key). *)
Definition db_wf (db : DB) : bool :=
  forallb (fun p => (Product.id p <? product_seq db)%Z) (products db)
  && forallb (fun i => (ProductImage.id i <? image_seq db)%Z
                       && existsb (fun p => (Product.id p =? ProductImage.product i)%Z)
                            (products db))
       (product_images db).

(** ** What [create] writes

    The names under which the blob store, holding [files] at first, kept
    the leading uploads one after the other, up to the first one it
    refused. *)
Fixpoint saved_prefix `{Platform} (files : list str) (images_data : list Upload)
    : list str :=
  match images_data with
  | [] => []
  | image :: rest =>
      match storage_save files image with
      | Some name =>
          name :: saved_prefix (files ++ [upload_to ++ text "/" ++ name]) rest
      | None => []
      end
  end.

(** The image rows of product [pk] for stored names, keys from [seq] on. *)
Fixpoint image_rows (seq pk : Z) (names : list str) : list ProductImage.t :=
  match names with
  | [] => []
  | name :: rest =>
      ProductImage.mk seq pk (upload_to ++ text "/" ++ name)
      :: image_rows (seq + 1) pk rest
  end.

(** The two references of a product. *)
Inductive reference := RefCategory | RefType.

Definition reference_field (r : reference) : string :=
  match r with
  | RefCategory => "category"
  | RefType => "types_product"
  end.

(** The submitted identity [pk] of reference [r] resolves to no row. *)
Definition unresolved (r : reference) (db : DB) (data : Payload.t) (pk : Z) : Prop :=
  match r with
  | RefCategory => Payload.category data = Given pk /\ get_category db pk = None
  | RefType => Payload.types_product data = Given pk /\ get_type db pk = None
  end.

(** A strictly positive number: what the messages of [validate_price]
    ask of a price. *)
Definition positive_number (f : pyfloat) : bool :=
  match f with
  | FNan => false
  | FInf neg => negb neg
  | FDec neg m e => negb neg && negb (rounds_to_zero m e)
  end.

(** Two states that differ at most in the cache entry [key]. *)
Definition agree_off (key : string) (st1 st2 : State) : Prop :=
  db st1 = db st2 /\ forall k, k <> key -> cache st1 !! k = cache st2 !! k.

(** A view whose response, and whose effect outside the entry [key],
    do not depend on that entry. *)
Definition blind_to (key : string) (view : State -> Request -> State * Response)
    : Prop :=
  forall st1 st2 request,
    agree_off key st1 st2 ->
    snd (view st1 request) = snd (view st2 request)
    /\ agree_off key (fst (view st1 request)) (fst (view st2 request)).

(** ** Sample data *)

Module Sample.

(** Whether [s] ends with [suffix]. *)
Definition ends_with (suffix s : str) : bool :=
  str_eqb (rev (firstn (length suffix) (rev s))) suffix.

(** The names a file may get: its own, then its own after one, two, ...
    underscores. *)
Definition candidates (n : nat) (name : str) : list str :=
  List.map (fun k => repeat 95%N k ++ name) (seq 0 n).

Definition taken (files : list str) (name : str) : bool :=
  existsb (str_eqb (upload_to ++ text "/" ++ name)) files.

(** A blob store that refuses the file called [full.png] and otherwise
    keeps the client's file name, or the first candidate that is not
    taken. *)
Definition save (files : list str) (u : Upload) : option str :=
  if str_eqb (upload_name u) (text "full.png") then None
  else List.find (fun c => negb (taken files c))
         (candidates (S (length files)) (upload_name u)).

(** Media are served under [/media/]; images are [.png], [.jpg] and
    [.gif] files. *)
Definition platform : Platform :=
  {| storage_save := save;
     storage_url := fun name => text "/media/" ++ name;
     unicode_decimal := fun _ => None;
     image_extension_allowed := fun name =>
       let lower := List.map ascii_lower name in
       ends_with (text ".png") lower || ends_with (text ".jpg") lower
       || ends_with (text ".gif") lower;
     storage_save_available :=
       ltac:(intros files u name; unfold save;
             destruct (str_eqb (upload_name u) (text "full.png"));
             [discriminate|];
             intros Hfind Hin; apply find_some in Hfind as [_ Hfree];
             apply negb_true_iff in Hfree;
             apply not_true_iff_false in Hfree; apply Hfree;
             apply existsb_exists;
             exists (upload_to ++ text "/" ++ name);
             split; [exact Hin|];
             unfold str_eqb; case_decide; [reflexivity | congruence]) |}.

Definition shoes : Category.t :=
  Category.mk 1 (text "Shoes") (text "category/shoes.png") 10.

Definition boots : Types.t :=
  Types.mk 1 (text "Boots") (text "Leather boots for winter") 1 20.

Definition store : DB :=
  {| categories := [shoes]; types := [boots]; products := [];
     product_images := []; product_seq := 1; image_seq := 1 |}.

Definition start : State := {| db := store; cache := ∅ |}.

Definition upload (name : string) : Upload :=
  {| upload_name := text name; upload_size := 2048; upload_is_image := true |}.

Definition payload (price : string) (images : list Upload) : Payload.t :=
  Payload.mk (Given (text "Winter boot")) (Given (text "A warm leather boot"))
    (Given 1%Z) (Given 1%Z) (Given (text price)) (Given true) (Given images).

Definition absolute (location : str) : str :=
  text "http://testserver" ++ location.

Definition get (p : string) (t : nat) : Request :=
  {| method := GET; path := p; vary := ""; build_absolute_uri := absolute;
     request_data := Payload.empty; now := t; uuid4 := [] |}.

Definition post (data : Payload.t) (t : nat) (uuid : string) : Request :=
  {| method := POST; path := "product-create"; vary := "";
     build_absolute_uri := absolute; request_data := data; now := t;
     uuid4 := text uuid |}.

Definition three_uploads : list Upload :=
  [upload "a.png"; upload "full.png"; upload "c.png"].

(** What validation makes of [payload price images]. *)
Definition validated (price : string) (images : list Upload)
    : ProductCreateSerializer.validated_data :=
  {| ProductCreateSerializer.title := text "Winter boot";
     ProductCreateSerializer.description := text "A warm leather boot";
     ProductCreateSerializer.category := shoes;
     ProductCreateSerializer.types_product := boots;
     ProductCreateSerializer.price := text price;
     ProductCreateSerializer.is_active := Some true;
     ProductCreateSerializer.images := Some images |}.

End Sample.


(** The store after the image rows for [names] were inserted for
    product [pk]. *)
Definition with_image_rows (db : DB) (pk : Z) (names : list str) : DB :=
  {| categories := categories db; types := types db; products := products db;
     product_images := product_images db ++ image_rows (image_seq db) pk names;
     product_seq := product_seq db;
     image_seq := image_seq db + Z.of_nat (length names) |}.

(** The store after a product row was inserted. *)
Definition with_product_row (db : DB) (r : Product.t) : DB :=
  {| categories := categories db; types := types db;
     products := products db ++ [r];
     product_images := product_images db;
     product_seq := product_seq db + 1;
     image_seq := image_seq db |}.

(** The images a payload submits. *)
Definition submitted_images (data : Payload.t) : list Upload :=
  match Payload.images data with
  | Given l => l
  | _ => []
  end.

(** All or nothing, in the words of the specification: between the store
    before and after a creation request that submitted [images], either
    no row was added, or the product row and one image row per submitted
    image were. *)
Definition all_or_nothing (before after : DB) (images : list Upload) : Prop :=
  (products after = products before
   /\ product_images after = product_images before)
  \/ (length (products after) = S (length (products before))
      /\ length (product_images after)
         = length (product_images before) + length images).

(** The row and the instance [create] makes of validated data. *)
Definition new_row (db : DB) (vd : ProductCreateSerializer.validated_data)
    (uuid : str) (now : nat) : Product.t :=
  Product.mk (product_seq db)
    (ProductCreateSerializer.title vd) (ProductCreateSerializer.description vd)
    (Category.id (ProductCreateSerializer.category vd))
    (Types.id (ProductCreateSerializer.types_product vd))
    (ProductCreateSerializer.price vd) uuid now
    (match ProductCreateSerializer.is_active vd with
     | Some b => b
     | None => false
     end).

Definition new_obj (db : DB) (vd : ProductCreateSerializer.validated_data)
    (uuid : str) (now : nat) : ProductObj :=
  {| row := new_row db vd uuid now;
     category_obj := ProductCreateSerializer.category vd;
     types_obj := ProductCreateSerializer.types_product vd;
     prefetched_images := None |}.

(** [validated_data.pop('images', [])] *)
Definition images_data (vd : ProductCreateSerializer.validated_data) : list Upload :=
  match ProductCreateSerializer.images vd with Some l => l | None => [] end.

(** The unique constraint on [uuid] would be violated. *)
Definition uuid_taken (db : DB) (uuid : str) : bool :=
  existsb (fun p => str_eqb (Product.uuid p) uuid) (products db).

(** The detail a field's validation raised, if it raised. *)
Definition detail_of {A : Type} (r : result A) : option (list ErrorDetail) :=
  match r with
  | Valid _ => None
  | Invalid d => Some d
  end.

(** ** serializers.py: the hooks of the read serializers *)





Definition ProductSerializer_validate_price `{Platform} (value : str) : result str :=
  match float value with
  | Some _ => Valid value
  | None => Invalid [Msg "Цена должна быть числом"]
  end.

(** The text of a sequence of decimal digits. *)
Definition digits_text (ds : list N) : str := List.map (fun d => (48 + d)%N) ds.

(** ** A fuller consistency of the store

    Besides [db_wf]: primary keys and uuids are unique, every product
    references an existing category and an existing type, every type an
    existing category. *)

Fixpoint distinct {A : Type} (eqb : A -> A -> bool) (l : list A) : bool :=
  match l with
  | [] => true
  | x :: r => negb (existsb (eqb x) r) && distinct eqb r
  end.

Definition is_some {A : Type} (o : option A) : bool :=
  match o with Some _ => true | None => false end.

Definition store_consistent (db : DB) : bool :=
  db_wf db
  && distinct Z.eqb (List.map Product.id (products db))
  && distinct Z.eqb (List.map ProductImage.id (product_images db))
  && distinct str_eqb (List.map Product.uuid (products db))
  && forallb (fun p => is_some (get_category db (Product.category p))
                       && is_some (get_type db (Product.types_product p)))
       (products db)
  && forallb (fun t => is_some (get_category db (Types.category t))) (types db).

(** The timeout of the [cache_page] around the view of a path. *)
Definition page_timeout (p : string) : nat :=
  if String.eqb p "category-list" then 60 * 15
  else if String.eqb p "type-list" then 60 * 10
  else if String.eqb p "product-list" then 60 * 5
  else 0.

(** ** The read representation as the interface describes it

    Written after the description of the HTTP surface and of the data
    model, not after the serializers. A product object is
    [{id, uuid, title, description, category, category_title,
    types_product, types_title, created_at, price, first_image, images[],
    is_active}], an image object [{id, image, image_url, product}]. Image
    URLs are absolute when a request context is available, otherwise
    store-relative. The images of a product are taken in the order of
    their insertion; its first image is the earliest-inserted one, or
    absent. *)
Module Described.

Definition image_url `{Platform} (context : option Request) (name : str) : pyobj :=
  match name with
  | [] => ONone
  | _ :: _ =>
      OStr (match context with
            | Some request => build_absolute_uri request (storage_url name)
            | None => storage_url name
            end)
  end.

Definition images_in_order (db : DB) (pk : Z) : list ProductImage.t :=
  List.filter (fun i => Z.eqb pk (ProductImage.product i)) (product_images db).

Definition first_image (db : DB) (pk : Z) : option ProductImage.t :=
  match images_in_order db pk with
  | [] => None
  | i :: _ => Some i
  end.

Definition image_object `{Platform} (context : option Request)
    (i : ProductImage.t) : pyobj :=
  ODict [ ("id", OInt (ProductImage.id i));
          ("image", image_url context (ProductImage.image i));
          ("image_url", image_url context (ProductImage.image i));
          ("product", OInt (ProductImage.product i)) ].

(** The object of product [p], whose category is [c] and whose type is [t]. *)
Definition product_object `{Platform} (context : option Request) (db : DB)
    (p : Product.t) (c : Category.t) (t : Types.t) : pyobj :=
  ODict [ ("id", OInt (Product.id p));
          ("uuid", OStr (Product.uuid p));
          ("title", OStr (Product.title p));
          ("description", OStr (Product.description p));
          ("category", OInt (Product.category p));
          ("category_title", OStr (Category.title c));
          ("types_product", OInt (Product.types_product p));
          ("types_title", OStr (Types.title t));
          ("created_at", OTime (Product.created_at p));
          ("price", OStr (Product.price p));
          ("first_image",
           match first_image db (Product.id p) with
           | Some i => image_url context (ProductImage.image i)
           | None => ONone
           end);
          ("images",
           OList (List.map (image_object context)
                    (images_in_order db (Product.id p))));
          ("is_active", OBool (Product.is_active p)) ].

(** [c] is the category and [t] the type that product [p] references. *)
Definition references (db : DB) (p : Product.t) (c : Category.t) (t : Types.t)
    : Prop :=
  In c (categories db) /\ Category.id c = Product.category p
  /\ In t (types db) /\ Types.id t = Product.types_product p.

End Described.

(** Image rows lie in the table in the order of their primary keys. *)
Fixpoint increasing (l : list Z) : bool :=
  match l with
  | [] => true
  | x :: r =>
      match r with
      | [] => true
      | y :: _ => (x <? y)%Z
      end && increasing r
  end.

Definition images_in_key_order (db : DB) : bool :=
  increasing (List.map ProductImage.id (product_images db)).

(** ** More sample data *)

Module Sample2.

(** The sample store after a second category was added and the first
    type removed behind the service's back. *)
Definition later : DB :=
  {| categories := [Sample.shoes;
                    Category.mk 2 (text "Hats") (text "category/hats.png") 50];
     types := []; products := []; product_images := [];
     product_seq := 1; image_seq := 1 |}.

Definition two_uploads : list Upload := [Sample.upload "a.png"; Sample.upload "b.png"].

Definition create_request : Request :=
  Sample.post (Sample.payload " 19.99 " two_uploads) 7 "u1".

(** Two uploads that carry the same file name. *)
Definition same_name_request : Request :=
  Sample.post
    (Sample.payload "19.99" [Sample.upload "a.png"; Sample.upload "a.png"]) 7 "u1".

(** The product list asked for under another identity. *)
Definition other_identity : Request :=
  {| method := GET; path := "product-list"; vary := "x";
     build_absolute_uri := Sample.absolute; request_data := Payload.empty;
     now := 50; uuid4 := [] |}.

Definition between : list Request := [create_request; other_identity].

End Sample2.

(* ===================================================================== *)
(** * Part II: theorems *)
(* ===================================================================== *)

(** ** Field validation *)

Section Validation.
Context `{Platform}.

Import ProductCreateSerializer.

Lemma validate_price_valid_iff (value : str) :
  is_valid_result (validate_price value) = true <->
  exists f, float value = Some f /\ float_le0 f = false.
Proof.
  unfold validate_price. destruct (float value) as [f|] eqn:Hf.
  - destruct (float_le0 f) eqn:Hle; simpl; split.
    + discriminate.
    + intros (f' & Heq & Hle'). congruence.
    + intros _. eauto.
    + reflexivity.
  - simpl. split; [discriminate | intros (f & Hf' & _); discriminate].
Qed.

Lemma validate_price_returns_value (value v : str) :
  validate_price value = Valid v -> v = value.
Proof.
  unfold validate_price.
  destruct (float value) as [f|]; [destruct (float_le0 f)|]; congruence.
Qed.

(** [not (f <= 0)] holds of the strictly positive numbers and of NaN. *)
Lemma float_le0_positive_or_nan (f : pyfloat) :
  float_le0 f = false <-> positive_number f = true \/ f = FNan.
Proof.
  destruct f as [|neg|neg m e]; simpl.
  - split; auto.
  - destruct neg; simpl; split; auto; intros [?|?]; congruence.
  - destruct neg, (rounds_to_zero m e); simpl; split; auto;
      intros [?|?]; congruence.
Qed.

(** Each of the five rules has its own entry in the error mapping,
    whatever the other fields hold. *)
Lemma errors_get_each (db : DB) (data : Payload.t) :
  errors_get "title" (errors db data) = detail_of (run_title data)
  /\ errors_get "description" (errors db data) = detail_of (run_description data)
  /\ errors_get "category" (errors db data) = detail_of (run_category db data)
  /\ errors_get "types_product" (errors db data)
     = detail_of (run_types_product db data)
  /\ errors_get "price" (errors db data) = detail_of (run_price data).
Proof.
  unfold errors.
  destruct (run_title data), (run_description data), (run_category db data),
    (run_types_product db data), (run_price data), (run_is_active data),
    (run_images data); simpl; repeat split; reflexivity.
Qed.

Lemma is_valid_inl (db : DB) (data : Payload.t) (k : string)
    (d : list ErrorDetail) :
  errors_get k (errors db data) = Some d ->
  is_valid db data = inl (errors db data).
Proof.
  unfold is_valid, errors.
  destruct (run_title data), (run_description data), (run_category db data),
    (run_types_product db data), (run_price data), (run_is_active data),
    (run_images data); simpl; try reflexivity.
  discriminate.
Qed.

Lemma is_valid_inr (db : DB) (data : Payload.t) (vd : validated_data) :
  is_valid db data = inr vd ->
  run_title data = Valid (title vd)
  /\ run_description data = Valid (description vd)
  /\ run_category db data = Valid (category vd)
  /\ run_types_product db data = Valid (types_product vd)
  /\ run_price data = Valid (price vd)
  /\ run_is_active data = Valid (is_active vd)
  /\ run_images data = Valid (images vd).
Proof.
  unfold is_valid.
  destruct (run_title data), (run_description data), (run_category db data),
    (run_types_product db data), (run_price data), (run_is_active data),
    (run_images data); intros Heq; try discriminate.
  injection Heq as <-. simpl. repeat split; reflexivity.
Qed.

(** A failing field ends the request with a 400 that carries the error
    mapping, leaving store and cache as they were. *)
Lemma create_rejects (st : State) (request : Request) (k : string)
    (d : list ErrorDetail) :
  errors_get k (errors (db st) (request_data request)) = Some d ->
  ProductCreateView.create st request =
    (st, {| status := HTTP_400_BAD_REQUEST;
            data := errors_data (errors (db st) (request_data request)) |}).
Proof.
  intros Hk. unfold ProductCreateView.create.
  rewrite (is_valid_inl _ _ _ _ Hk). reflexivity.
Qed.

Lemma field_errors_data (k : string) (errors : list (string * list ErrorDetail)) :
  field k (errors_data errors) =
  option_map (fun d => OList (List.map OError d)) (errors_get k errors).
Proof.
  unfold errors_data. simpl.
  induction errors as [|[k' d] rest IH]; simpl; [reflexivity|].
  destruct (String.eqb k k'); [reflexivity | exact IH].
Qed.

Lemma length_lstrip_by (sp : N -> bool) (s : str) :
  length (lstrip_by sp s) <= length s.
Proof.
  induction s as [|c r IH]; simpl; [lia|].
  destruct (sp c); simpl; lia.
Qed.

Lemma length_strip_by (sp : N -> bool) (s : str) :
  length (strip_by sp s) <= length s.
Proof.
  unfold strip_by. rewrite length_rev.
  etransitivity; [apply length_lstrip_by|].
  rewrite length_rev. apply length_lstrip_by.
Qed.

(** A title shorter than three code points once trimmed fails the
    title rule, by the framework's blank or character checks or by
    [validate_title]. *)
Lemma run_title_short (data : Payload.t) (s : str) :
  Payload.title data = Given s ->
  length (strip s) < 3 ->
  exists d, d <> [] /\ run_title data = Invalid d.
Proof.
  intros Ht Hlen. unfold run_title, CharField_run_validation. rewrite Ht.
  destruct (strip s) as [|c r] eqn:Hs.
  - exists [Blank]. split; [discriminate | reflexivity].
  - match goal with
    | |- context [match ?e with [] => Valid _ | _ :: _ => Invalid _ end] =>
        destruct e as [|x xs] eqn:He
    end.
    + simpl. unfold validate_title.
      pose proof (length_strip_by isspace (c :: r)) as Hle.
      fold (strip (c :: r)) in Hle.
      destruct (length (strip (c :: r)) <? 3) eqn:Hlt.
      * eexists. split; [|reflexivity]. discriminate.
      * apply Nat.ltb_ge in Hlt. lia.
    + simpl. eexists. split; [|reflexivity]. discriminate.
Qed.

Lemma run_reference_unresolved (r : reference) (db : DB) (data : Payload.t)
    (pk : Z) :
  unresolved r db data pk ->
  errors_get (reference_field r) (errors db data) = Some [DoesNotExist pk].
Proof.
  destruct (errors_get_each db data) as (_ & _ & Hc & Ht & _).
  destruct r; simpl; intros [Hgiven Hnone].
  - rewrite Hc. unfold run_category, PrimaryKeyRelatedField_run_validation.
    rewrite Hgiven, Hnone. reflexivity.
  - rewrite Ht. unfold run_types_product, PrimaryKeyRelatedField_run_validation.
    rewrite Hgiven, Hnone. reflexivity.
Qed.

(** C5. The price validator at the price [nan]: it is accepted although
    it parses to NaN, which is no strictly positive number; the prices
    [-5], [abc] and [0] are refused with an error under the [price] key
    and a 400, [19.99] is accepted; in general the accepted prices are
    those that parse to a strictly positive number or to NaN. *)
Theorem validate_price_accepts_nan :
  (validate_price (text "nan") = Valid (text "nan")
   /\ float (text "nan") = Some FNan
   /\ positive_number FNan = false)
  /\ (validate_price (text "-5")
        = Invalid [Msg "Цена должна быть положительным числом"]
      /\ validate_price (text "abc") = Invalid [Msg "Цена должна быть числом"]
      /\ validate_price (text "0")
        = Invalid [Msg "Цена должна быть положительным числом"]
      /\ validate_price (text "19.99") = Valid (text "19.99"))
  /\ (List.map
        (fun price =>
           let response :=
             snd (ProductCreateView.create Sample.start
                    (Sample.post (Sample.payload price []) 1 "u")) in
           (status response, field "price" (data response)))
        ["-5"; "abc"; "0"; "19.99"; "nan"]
      = [ (400, Some (OList [OError (Msg "Цена должна быть положительным числом")]));
          (400, Some (OList [OError (Msg "Цена должна быть числом")]));
          (400, Some (OList [OError (Msg "Цена должна быть положительным числом")]));
          (201, Some (OStr (text "19.99")));
          (201, Some (OStr (text "nan"))) ])
  /\ (forall value,
        is_valid_result (validate_price value) = true <->
        exists f, float value = Some f
                  /\ (positive_number f = true \/ f = FNan)).
Proof.
  split; [|split; [|split]].
  - repeat split; vm_compute; reflexivity.
  - repeat split; vm_compute; reflexivity.
  - vm_compute. reflexivity.
  - intros value. rewrite validate_price_valid_iff.
    split; intros (f & Hf & Hp); exists f; split; auto;
      apply float_le0_positive_or_nan; exact Hp.
Qed.

(** C9. [validate_price] accepts exactly the strings that [float]
    parses to a value for which [<= 0] is false; [nan], [inf] and
    [Infinity] are among them, NaN because it fails the [<= 0] test, and
    a product is created with such a price. *)
Theorem validate_price_non_finite :
  (forall value,
      is_valid_result (validate_price value) = true <->
      exists f, float value = Some f /\ float_le0 f = false)
  /\ (float (text "nan") = Some FNan /\ float_le0 FNan = false
      /\ validate_price (text "nan") = Valid (text "nan"))
  /\ (float (text "inf") = Some (FInf false)
      /\ validate_price (text "inf") = Valid (text "inf"))
  /\ (float (text "Infinity") = Some (FInf false)
      /\ validate_price (text "Infinity") = Valid (text "Infinity"))
  /\ (List.map
        (fun price =>
           let '(st, response) :=
             ProductCreateView.create Sample.start
               (Sample.post (Sample.payload price []) 1 "u") in
           (status response, List.map Product.price (products (db st))))
        ["nan"; "inf"; "Infinity"]
      = [ (201, [text "nan"]); (201, [text "inf"]); (201, [text "Infinity"]) ]).
Proof.
  split; [exact validate_price_valid_iff|].
  repeat split; vm_compute; reflexivity.
Qed.

(** C6. A category identity, or a type identity, that resolves to no
    existing row ends the creation with a 400 whose error mapping has,
    under that field, the does-not-exist error; store and cache stay as
    they were, whatever the other fields hold. *)
Theorem unresolved_reference_rejected (st : State) (request : Request)
    (r : reference) (pk : Z) :
  unresolved r (db st) (request_data request) pk ->
  fst (ProductCreateView.create st request) = st
  /\ status (snd (ProductCreateView.create st request)) = HTTP_400_BAD_REQUEST
  /\ field (reference_field r) (data (snd (ProductCreateView.create st request)))
     = Some (OList [OError (DoesNotExist pk)]).
Proof.
  intros Hun. pose proof (run_reference_unresolved _ _ _ _ Hun) as Hget.
  rewrite (create_rejects _ _ _ _ Hget). cbn [fst snd status data].
  rewrite field_errors_data, Hget. auto.
Qed.

(** C7. A title whose trimmed length is below 3 ends the creation with
    a 400 whose error mapping has an entry under [title], whatever the
    other fields hold; the mapping holds, for each of the five rules,
    the outcome of that rule alone. *)
Theorem short_title_rejected (st : State) (request : Request) (s : str) :
  Payload.title (request_data request) = Given s ->
  length (strip s) < 3 ->
  let response := snd (ProductCreateView.create st request) in
  let payload := request_data request in
  fst (ProductCreateView.create st request) = st
  /\ status response = HTTP_400_BAD_REQUEST
  /\ (exists d, d <> []
                /\ field "title" (data response)
                   = Some (OList (List.map OError d)))
  /\ (forall k r, In (k, r) [ ("title", detail_of (run_title payload));
                             ("description", detail_of (run_description payload));
                             ("category", detail_of (run_category (db st) payload));
                             ("types_product",
                              detail_of (run_types_product (db st) payload));
                             ("price", detail_of (run_price payload)) ] ->
                  field k (data response)
                  = option_map (fun d => OList (List.map OError d)) r).
Proof.
  intros Ht Hlen.
  destruct (run_title_short _ _ Ht Hlen) as (d & Hd & Hrun).
  destruct (errors_get_each (db st) (request_data request))
    as (Htitle & Hdesc & Hcat & Hty & Hprice).
  assert (Hget : errors_get "title" (errors (db st) (request_data request))
                 = Some d) by (rewrite Htitle, Hrun; reflexivity).
  rewrite (create_rejects _ _ _ _ Hget). cbn [fst snd status data].
  split; [reflexivity|]. split; [reflexivity|]. split.
  - exists d. split; [exact Hd|]. rewrite field_errors_data, Hget. reflexivity.
  - intros k r Hin. rewrite field_errors_data.
    repeat (destruct Hin as [Heq|Hin]; [injection Heq as <- <-; congruence|]).
    destruct Hin.
Qed.

End Validation.

(** ** The store under [create] *)

Section Store.
Context `{Platform}.

Import ProductCreateSerializer.

Lemma create_images_eq (db : DB) (product : ProductObj) (images_data : list Upload) :
  create_images db product images_data =
    (with_image_rows db (Product.id (row product))
       (saved_prefix (stored_files db) images_data),
     length (saved_prefix (stored_files db) images_data) =? length images_data).
Proof.
  revert db. induction images_data as [|image rest IH]; intros db.
  - simpl. unfold with_image_rows. simpl. rewrite app_nil_r, Z.add_0_r.
    destruct db; reflexivity.
  - cbn [create_images saved_prefix]. unfold ProductImage_objects_create.
    destruct (storage_save (stored_files db) image) as [name|] eqn:Hsave.
    + rewrite IH. unfold stored_files. cbn [product_images].
      rewrite !map_app. cbn [List.map ProductImage.image].
      cbn [length Nat.eqb]. f_equal.
      unfold with_image_rows.
      cbn [categories types products product_images product_seq image_seq
           image_rows length].
      rewrite <- app_assoc. cbn [app]. f_equal.
      unfold str. lia.
    + simpl. unfold with_image_rows. simpl. rewrite app_nil_r, Z.add_0_r.
      destruct db; reflexivity.
Qed.

Lemma create_eq (db : DB) (vd : validated_data) (uuid : str) (now : nat) :
  create db vd uuid now =
    if uuid_taken db uuid then (db, None)
    else
      (with_image_rows (with_product_row db (new_row db vd uuid now))
         (product_seq db) (saved_prefix (stored_files db) (images_data vd)),
       if length (saved_prefix (stored_files db) (images_data vd))
          =? length (images_data vd)
       then Some (new_obj db vd uuid now) else None).
Proof.
  unfold create, Product_objects_create, uuid_taken.
  destruct (existsb _ (products db)); [reflexivity|].
  rewrite create_images_eq. fold (images_data vd).
  fold (new_row db vd uuid now). fold (with_product_row db (new_row db vd uuid now)).
  change (stored_files (with_product_row db (new_row db vd uuid now)))
    with (stored_files db).
  destruct (length (saved_prefix (stored_files db) (images_data vd))
            =? length (images_data vd)); reflexivity.
Qed.

Lemma length_saved_prefix (files : list str) (l : list Upload) :
  length (saved_prefix files l) <= length l.
Proof.
  revert files. induction l as [|u r IH]; intros files; simpl; [lia|].
  destruct (storage_save files u) as [name|]; simpl; [|lia].
  apply le_n_S. apply IH.
Qed.

Lemma length_image_rows (seq pk : Z) (names : list str) :
  length (image_rows seq pk names) = length names.
Proof.
  revert seq. induction names as [|n r IH]; intros seq; simpl; [reflexivity|].
  rewrite IH. reflexivity.
Qed.

Lemma run_images_valid (data : Payload.t) (l : option (list Upload)) :
  run_images data = Valid l ->
  match l with Some x => x | None => [] end = submitted_images data.
Proof.
  unfold run_images, ListField_run_validation, submitted_images.
  destruct (Payload.images data) as [| |l0]; try discriminate.
  - intros [= <-]. reflexivity.
  - destruct (run_child_validation 0 l0); [|discriminate].
    intros [= <-]. reflexivity.
Qed.

Lemma images_data_submitted (db : DB) (data : Payload.t) (vd : validated_data) :
  is_valid db data = inr vd -> images_data vd = submitted_images data.
Proof.
  intros Hv. apply is_valid_inr in Hv.
  destruct Hv as (_ & _ & _ & _ & _ & _ & Hi).
  unfold images_data. apply run_images_valid. exact Hi.
Qed.

(** What the creation view does with validated data. *)
Lemma view_create_eq (st : State) (request : Request) (vd : validated_data) :
  is_valid (db st) (request_data request) = inr vd ->
  ProductCreateView.create st request =
    if uuid_taken (db st) (uuid4 request) then
      ({| db := db st; cache := cache st |}, server_error)
    else
      let db' :=
        with_image_rows
          (with_product_row (db st)
             (new_row (db st) vd (uuid4 request) (now request)))
          (product_seq (db st)) (saved_prefix (stored_files (db st)) (images_data vd)) in
      if length (saved_prefix (stored_files (db st)) (images_data vd)) =? length (images_data vd) then
        ({| db := db'; cache := cache_delete "product_list" (cache st) |},
         {| status := HTTP_201_CREATED;
            data := ProductSerializer.to_representation (Some request) db'
                      (new_obj (db st) vd (uuid4 request) (now request)) |})
      else ({| db := db'; cache := cache st |}, server_error).
Proof.
  intros Hv. unfold ProductCreateView.create. rewrite Hv, create_eq.
  destruct (uuid_taken (db st) (uuid4 request)); [reflexivity|].
  cbv zeta.
  destruct (length (saved_prefix (stored_files (db st)) (images_data vd)) =? length (images_data vd));
    reflexivity.
Qed.

(** C2, as the code has it. A creation with valid fields and a fresh
    uuid inserts the product row, then one image row per submitted image
    in submission order, each write staying in the store: when the blob
    store refuses an image, the product row and the rows of the images
    before it remain and the request ends with a 500; when it refuses
    none, every row is stored and the request ends with a 201. *)
Theorem create_keeps_rows_written (st : State) (request : Request)
    (vd : validated_data) :
  is_valid (db st) (request_data request) = inr vd ->
  uuid_taken (db st) (uuid4 request) = false ->
  let images := submitted_images (request_data request) in
  let st' := fst (ProductCreateView.create st request) in
  let response := snd (ProductCreateView.create st request) in
  products (db st')
    = products (db st) ++ [new_row (db st) vd (uuid4 request) (now request)]
  /\ product_images (db st')
     = product_images (db st)
       ++ image_rows (image_seq (db st)) (product_seq (db st))
            (saved_prefix (stored_files (db st)) images)
  /\ (length (saved_prefix (stored_files (db st)) images) = length images ->
      status response = HTTP_201_CREATED)
  /\ (length (saved_prefix (stored_files (db st)) images) < length images ->
      response = server_error).
Proof.
  intros Hv Hfresh. cbv zeta.
  rewrite (view_create_eq _ _ _ Hv), Hfresh.
  rewrite <- (images_data_submitted _ _ _ Hv). cbv zeta.
  destruct (length (saved_prefix (stored_files (db st)) (images_data vd)) =? length (images_data vd))
    eqn:Hlen; cbn [fst snd db status products product_images
                   with_image_rows with_product_row].
  - apply Nat.eqb_eq in Hlen. repeat split; auto. lia.
  - apply Nat.eqb_neq in Hlen. repeat split; auto. congruence.
Qed.

(** In a consistent store no image row references the next product key. *)
Lemma db_wf_image_product (db : DB) (i : ProductImage.t) :
  db_wf db = true -> In i (product_images db) ->
  (ProductImage.product i < product_seq db)%Z.
Proof.
  unfold db_wf. intros Hwf Hin. apply andb_prop in Hwf as [Hp Hi].
  rewrite forallb_forall in Hp, Hi.
  specialize (Hi i Hin). apply andb_prop in Hi as [_ Hex].
  apply existsb_exists in Hex as (p & Hpin & Heq).
  specialize (Hp p Hpin). lia.
Qed.

Lemma filter_image_rows (seq pk : Z) (names : list str) :
  List.filter (fun i => (ProductImage.product i =? pk)%Z)
    (image_rows seq pk names) = image_rows seq pk names.
Proof.
  revert seq. induction names as [|n r IH]; intros seq; simpl; [reflexivity|].
  rewrite Z.eqb_refl, IH. reflexivity.
Qed.

Lemma filter_none {A : Type} (f : A -> bool) (l : list A) :
  (forall x, In x l -> f x = false) -> List.filter f l = [].
Proof.
  induction l as [|x r IH]; intros Hall; simpl; [reflexivity|].
  rewrite (Hall x (or_introl eq_refl)). apply IH.
  intros y Hy. apply Hall. right. exact Hy.
Qed.

Lemma images_of_created (db : DB) (r : Product.t) (names : list str) :
  db_wf db = true ->
  images_of (with_image_rows (with_product_row db r) (product_seq db) names)
    (product_seq db)
  = image_rows (image_seq db) (product_seq db) names.
Proof.
  intros Hwf. unfold images_of. cbn [product_images with_image_rows
    with_product_row image_seq].
  rewrite List.filter_app, filter_image_rows.
  rewrite filter_none; [reflexivity|].
  intros i Hin. pose proof (db_wf_image_product db i Hwf Hin). lia.
Qed.

Lemma first_by_pk_lower (pk : Z) (names : list str) (seq : Z)
    (y : ProductImage.t) :
  first_by_pk (image_rows seq pk names) = Some y ->
  (seq <= ProductImage.id y)%Z.
Proof.
  revert seq y. induction names as [|n r IH]; intros seq y; simpl;
    [discriminate|].
  destruct (first_by_pk (image_rows (seq + 1) pk r)) as [z|] eqn:Hz.
  - specialize (IH _ _ Hz). cbn [ProductImage.id].
    destruct (ProductImage.id z <? seq)%Z eqn:Hlt; intros [= <-].
    + lia.
    + cbn. lia.
  - intros [= <-]. cbn. lia.
Qed.

(** [first()] of the rows of one creation is the row of the first name. *)
Lemma first_by_pk_image_rows (seq pk : Z) (name : str) (names : list str) :
  first_by_pk (image_rows seq pk (name :: names))
  = Some (ProductImage.mk seq pk (upload_to ++ text "/" ++ name)).
Proof.
  simpl. destruct (first_by_pk (image_rows (seq + 1) pk names)) as [z|] eqn:Hz;
    [|reflexivity].
  apply first_by_pk_lower in Hz. cbn [ProductImage.id].
  destruct (ProductImage.id z <? seq)%Z eqn:Hlt; [lia | reflexivity].
Qed.

Lemma saved_prefix_full (files : list str) (image : Upload) (rest : list Upload) :
  length (saved_prefix files (image :: rest)) = length (image :: rest) ->
  exists name, storage_save files image = Some name
               /\ saved_prefix files (image :: rest)
                  = name :: saved_prefix (files ++ [upload_to ++ text "/" ++ name])
                              rest.
Proof.
  simpl. destruct (storage_save files image) as [name|]; [eauto | discriminate].
Qed.

(** A 201 means that validation passed, the uuid was fresh and every
    image was stored. *)
Lemma created_inv (st : State) (request : Request) :
  status (snd (ProductCreateView.create st request)) = HTTP_201_CREATED ->
  exists vd,
    is_valid (db st) (request_data request) = inr vd
    /\ uuid_taken (db st) (uuid4 request) = false
    /\ length (saved_prefix (stored_files (db st)) (images_data vd)) = length (images_data vd).
Proof.
  destruct (is_valid (db st) (request_data request)) as [e|vd] eqn:Hv.
  - unfold ProductCreateView.create. rewrite Hv. discriminate.
  - rewrite (view_create_eq _ _ _ Hv). exists vd.
    destruct (uuid_taken (db st) (uuid4 request)); [discriminate|].
    cbv zeta.
    destruct (length (saved_prefix (stored_files (db st)) (images_data vd)) =? length (images_data vd))
      eqn:Hlen; [|discriminate].
    apply Nat.eqb_eq in Hlen. auto.
Qed.

Lemma described_images_of (db : DB) (pk : Z) :
  Described.images_in_order db pk = images_of db pk.
Proof.
  unfold Described.images_in_order, images_of.
  induction (product_images db) as [|i r IH]; [reflexivity|]. simpl.
  rewrite IH, (Z.eqb_sym pk). reflexivity.
Qed.

Lemma image_of_image_rows (seq pk : Z) (names : list str) :
  List.map ProductImage.image (image_rows seq pk names)
  = List.map (fun name => upload_to ++ text "/" ++ name) names.
Proof.
  revert seq. induction names as [|n r IH]; intros seq; [reflexivity|].
  simpl. rewrite IH. reflexivity.
Qed.

(** C3. On a store that satisfies its foreign keys, a creation answered
    201 has persisted one image per submitted upload in submission order;
    the earliest-inserted image of the created product is the one of the
    first upload, and the response's [first_image] is the store URL of
    that image, made absolute by the request as every image URL of a
    response with a request context is; it is null when no image was
    submitted. *)
Theorem first_image_of_created (st : State) (request : Request) :
  db_wf (db st) = true ->
  status (snd (ProductCreateView.create st request)) = HTTP_201_CREATED ->
  let st' := fst (ProductCreateView.create st request) in
  let response := snd (ProductCreateView.create st request) in
  let pk := product_seq (db st) in
  let submitted := submitted_images (request_data request) in
  let names := saved_prefix (stored_files (db st)) submitted in
  length names = length submitted
  /\ List.map ProductImage.image (Described.images_in_order (db st') pk)
     = List.map (fun name => upload_to ++ text "/" ++ name) names
  /\ match submitted with
     | [] =>
         Described.first_image (db st') pk = None
         /\ field "first_image" (data response) = Some ONone
     | image :: _ =>
         exists name first,
           storage_save (stored_files (db st)) image = Some name
           /\ Described.first_image (db st') pk = Some first
           /\ ProductImage.image first = upload_to ++ text "/" ++ name
           /\ field "first_image" (data response)
              = Some (OStr (build_absolute_uri request
                              (storage_url (ProductImage.image first))))
     end.
Proof.
  intros Hwf Hst. cbv zeta.
  destruct (created_inv _ _ Hst) as (vd & Hv & Hfresh & Hlen).
  rewrite (view_create_eq _ _ _ Hv), Hfresh. cbv zeta.
  rewrite Hlen, Nat.eqb_refl. cbn [fst snd data db].
  rewrite <- (images_data_submitted _ _ _ Hv).
  split; [exact Hlen|].
  unfold Described.first_image.
  rewrite described_images_of, (images_of_created _ _ _ Hwf).
  split; [apply image_of_image_rows|].
  unfold ProductSerializer.to_representation, field.
  cbn [dict_get String.eqb Ascii.eqb Bool.eqb].
  unfold ProductSerializer.get_first_image.
  cbn [row new_obj new_row Product.id].
  rewrite (images_of_created _ _ _ Hwf).
  destruct (images_data vd) as [|image rest].
  - split; reflexivity.
  - destruct (saved_prefix_full _ _ _ Hlen) as (name & Hsave & Hpre).
    exists name. eexists. split; [exact Hsave|].
    rewrite Hpre, first_by_pk_image_rows. cbn [image_rows ProductImage.image].
    split; [reflexivity|]. split; reflexivity.
Qed.

Lemma image_rows_in (pk : Z) (names : list str) (seq : Z) (i : ProductImage.t) :
  In i (image_rows seq pk names) ->
  (seq <= ProductImage.id i < seq + Z.of_nat (length names))%Z
  /\ ProductImage.product i = pk.
Proof.
  revert seq. induction names as [|n r IH]; intros seq; simpl; [tauto|].
  intros [<-|Hin].
  - cbn. split; [lia | reflexivity].
  - destruct (IH _ Hin) as [Hid Hpk]. split; [lia | exact Hpk].
Qed.

(** Consistency is kept by the writes of a creation. *)
Lemma db_wf_created (db : DB) (r : Product.t) (names : list str) :
  Product.id r = product_seq db ->
  db_wf db = true ->
  db_wf (with_image_rows (with_product_row db r) (product_seq db) names) = true.
Proof.
  intros Hid Hwf. unfold db_wf in *.
  apply andb_prop in Hwf as [Hp Hi]. rewrite forallb_forall in Hp, Hi.
  cbn [products product_images product_seq image_seq with_image_rows
       with_product_row].
  apply andb_true_intro. split; apply forallb_forall.
  - intros p Hin. apply Z.ltb_lt. apply in_app_iff in Hin as [Hin|[<-|[]]].
    + specialize (Hp p Hin). apply Z.ltb_lt in Hp. lia.
    + lia.
  - intros i Hin. apply in_app_iff in Hin as [Hin|Hin].
    + specialize (Hi i Hin). apply andb_prop in Hi as [Hlt Hex].
      apply Z.ltb_lt in Hlt.
      apply andb_true_intro. split; [apply Z.ltb_lt; lia|].
      apply existsb_exists in Hex as (p & Hpin & Heq).
      apply existsb_exists. exists p. split; [|exact Heq].
      apply in_app_iff. left. exact Hpin.
    + apply image_rows_in in Hin as [Hrange Hpk].
      apply andb_true_intro. split; [apply Z.ltb_lt; lia|].
      apply existsb_exists. exists r. split.
      * apply in_app_iff. right. left. reflexivity.
      * apply Z.eqb_eq. congruence.
Qed.

Lemma create_preserves_db_wf (st : State) (request : Request) :
  db_wf (db st) = true ->
  db_wf (db (fst (ProductCreateView.create st request))) = true.
Proof.
  intros Hwf.
  destruct (is_valid (db st) (request_data request)) as [e|vd] eqn:Hv.
  - unfold ProductCreateView.create. rewrite Hv. exact Hwf.
  - rewrite (view_create_eq _ _ _ Hv).
    destruct (uuid_taken (db st) (uuid4 request)); [exact Hwf|].
    cbv zeta.
    destruct (length (saved_prefix (stored_files (db st)) (images_data vd)) =? length (images_data vd));
      cbn [fst db]; apply db_wf_created; auto.
Qed.

Lemma run_category_valid (db : DB) (data : Payload.t) (c : Category.t) :
  run_category db data = Valid c ->
  exists pk, Payload.category data = Given pk /\ get_category db pk = Some c.
Proof.
  unfold run_category, PrimaryKeyRelatedField_run_validation.
  destruct (Payload.category data) as [| |pk]; try discriminate.
  destruct (get_category db pk) as [obj|] eqn:Hget; [|discriminate].
  cbn [and_then]. unfold validate_category.
  destruct (negb _); [discriminate|]. intros [= <-]. eauto.
Qed.

Lemma run_types_product_valid (db : DB) (data : Payload.t) (t : Types.t) :
  run_types_product db data = Valid t ->
  exists pk, Payload.types_product data = Given pk /\ get_type db pk = Some t.
Proof.
  unfold run_types_product, PrimaryKeyRelatedField_run_validation.
  destruct (Payload.types_product data) as [| |pk]; try discriminate.
  destruct (get_type db pk) as [obj|] eqn:Hget; [|discriminate].
  cbn [and_then]. unfold validate_types_product.
  destruct (negb _); [discriminate|]. intros [= <-]. eauto.
Qed.

(** The hook [validate_category] never refuses what the field resolved. *)
Lemma validate_category_resolved (db : DB) (pk : Z) (c : Category.t) :
  get_category db pk = Some c -> validate_category db c = Valid c.
Proof.
  unfold get_category, validate_category. intros Hfind.
  apply find_some in Hfind as [Hin _].
  replace (existsb _ (categories db)) with true; [reflexivity|].
  symmetry. apply existsb_exists. exists c. split; [exact Hin|].
  apply Z.eqb_refl.
Qed.

(** *** The serializers against the described representation *)

Lemma image_repr_described (context : option Request) (i : ProductImage.t) :
  ProductImageSerializer.to_representation context i
  = Described.image_object context i.
Proof.
  unfold ProductImageSerializer.to_representation, Described.image_object,
    ProductImageSerializer.get_image_url, ImageField_to_representation,
    Described.image_url, file_bool, file_url.
  destruct (ProductImage.image i), context; reflexivity.
Qed.

Lemma first_by_pk_in (l : list ProductImage.t) (y : ProductImage.t) :
  first_by_pk l = Some y -> In y l.
Proof.
  revert y. induction l as [|x r IH]; intros y; simpl; [discriminate|].
  destruct (first_by_pk r) as [z|].
  - destruct (ProductImage.id z <? ProductImage.id x)%Z; intros [= <-];
      [right; apply IH; reflexivity | left; reflexivity].
  - intros [= <-]. left. reflexivity.
Qed.

Lemma increasing_cons (x : Z) (r : list Z) :
  increasing (x :: r) = true <->
  (forall y, In y r -> (x < y)%Z) /\ increasing r = true.
Proof.
  revert x. induction r as [|y r IH]; intros x.
  - simpl. split; [intros _; split; [tauto | reflexivity] | reflexivity].
  - change (increasing (x :: y :: r)) with ((x <? y)%Z && increasing (y :: r)).
    rewrite andb_true_iff, Z.ltb_lt. split.
    + intros [Hxy Hr]. split; [|exact Hr].
      apply IH in Hr as [Hall _].
      intros z [<-|Hz]; [exact Hxy | specialize (Hall z Hz); lia].
    + intros [Hall Hr]. split; [apply Hall; left; reflexivity | exact Hr].
Qed.

Lemma increasing_filter (f : ProductImage.t -> bool) (l : list ProductImage.t) :
  increasing (List.map ProductImage.id l) = true ->
  increasing (List.map ProductImage.id (List.filter f l)) = true.
Proof.
  induction l as [|x r IH]; [reflexivity|].
  cbn [List.map List.filter]. rewrite increasing_cons. intros [Hall Hr].
  specialize (IH Hr). destruct (f x); [|exact IH].
  cbn [List.map]. apply increasing_cons. split; [|exact IH].
  intros y Hy. apply Hall. apply in_map_iff in Hy as (i & <- & Hi).
  apply filter_In in Hi as [Hi _]. apply in_map. exact Hi.
Qed.

(** Among rows in key order, [first()] is the first row. *)
Lemma first_by_pk_increasing (l : list ProductImage.t) :
  increasing (List.map ProductImage.id l) = true ->
  first_by_pk l = match l with [] => None | x :: _ => Some x end.
Proof.
  destruct l as [|x r]; [reflexivity|].
  cbn [List.map]. rewrite increasing_cons. intros [Hall _].
  simpl. destruct (first_by_pk r) as [y|] eqn:Hy; [|reflexivity].
  apply first_by_pk_in in Hy.
  specialize (Hall (ProductImage.id y) (in_map _ _ _ Hy)).
  replace (ProductImage.id y <? ProductImage.id x)%Z with false; [reflexivity|].
  symmetry. apply Z.ltb_ge. lia.
Qed.

Lemma increasing_image_rows (pk : Z) (names : list str) (seq : Z) :
  increasing (List.map ProductImage.id (image_rows seq pk names)) = true.
Proof.
  revert seq. induction names as [|n r IH]; intros seq; [reflexivity|].
  cbn [image_rows List.map ProductImage.id]. apply increasing_cons.
  split; [|apply IH].
  intros y Hy. apply in_map_iff in Hy as (i & <- & Hi).
  apply image_rows_in in Hi as [Hrange _]. lia.
Qed.

(** The representation the serializer builds is the described object,
    when the instance's images are those of the store and [first()] finds
    the earliest-inserted one. *)
Lemma to_representation_described (context : option Request) (db : DB)
    (obj : ProductObj) :
  ProductSerializer.images_all db obj = images_of db (Product.id (row obj)) ->
  first_by_pk (images_of db (Product.id (row obj)))
  = Described.first_image db (Product.id (row obj)) ->
  ProductSerializer.to_representation context db obj
  = Described.product_object context db (row obj) (category_obj obj)
      (types_obj obj).
Proof.
  intros Hall Hfirst.
  unfold ProductSerializer.to_representation, Described.product_object.
  rewrite Hall. unfold ProductSerializer.get_first_image. rewrite Hfirst.
  rewrite described_images_of.
  rewrite (map_ext _ _ (image_repr_described context)).
  destruct (Described.first_image db (Product.id (row obj))) as [i|];
    [|reflexivity].
  unfold Described.image_url, file_bool, file_url.
  destruct (ProductImage.image i), context; reflexivity.
Qed.

Lemma first_by_pk_created (db : DB) (r : Product.t) (names : list str) :
  db_wf db = true ->
  let db' := with_image_rows (with_product_row db r) (product_seq db) names in
  first_by_pk (images_of db' (product_seq db))
  = Described.first_image db' (product_seq db).
Proof.
  intros Hwf. cbv zeta. unfold Described.first_image.
  rewrite described_images_of, (images_of_created _ _ _ Hwf).
  apply first_by_pk_increasing, increasing_image_rows.
Qed.

(** C8. A creation that answers 201 deletes the cache entry
    [product_list] and touches no other entry; its body is computed from
    the store, whatever the cache holds. The created product references
    the category and the type the payload names, and on a store that
    satisfies its foreign keys the body is the described object of the
    created product: the fields of its row, the titles of that category
    and that type, as first image the absolute URL of the first submitted
    image (null without images), and one image object per submitted
    image. *)
Theorem create_invalidates_product_list_only (st : State) (request : Request) :
  status (snd (ProductCreateView.create st request)) = HTTP_201_CREATED ->
  let st' := fst (ProductCreateView.create st request) in
  let response := snd (ProductCreateView.create st request) in
  let submitted := submitted_images (request_data request) in
  cache st' = cache_delete "product_list" (cache st)
  /\ cache st' !! "product_list" = None
  /\ (forall k : string, k <> "product_list" -> cache st' !! k = cache st !! k)
  /\ (exists product pk_category pk_type,
         In (row product) (products (db st'))
         /\ Payload.category (request_data request) = Given pk_category
         /\ get_category (db st) pk_category = Some (category_obj product)
         /\ Payload.types_product (request_data request) = Given pk_type
         /\ get_type (db st) pk_type = Some (types_obj product)
         /\ Described.references (db st') (row product) (category_obj product)
              (types_obj product)
         /\ Product.category (row product) = pk_category
         /\ Product.types_product (row product) = pk_type
         /\ data response
            = ProductSerializer.to_representation (Some request) (db st') product
         /\ field "category_title" (data response)
            = Some (OStr (Category.title (category_obj product)))
         /\ field "types_title" (data response)
            = Some (OStr (Types.title (types_obj product)))
         /\ (db_wf (db st) = true ->
             data response
             = Described.product_object (Some request) (db st') (row product)
                 (category_obj product) (types_obj product)
             /\ length (Described.images_in_order (db st')
                          (Product.id (row product)))
                = length submitted
             /\ match submitted with
                | [] => field "first_image" (data response) = Some ONone
                | image :: _ =>
                    exists name,
                      storage_save (stored_files (db st)) image = Some name
                      /\ field "first_image" (data response)
                         = Some (OStr (build_absolute_uri request
                                         (storage_url
                                            (upload_to ++ text "/" ++ name))))
                end))
  /\ (forall c, snd (ProductCreateView.create {| db := db st; cache := c |} request)
                = response).
Proof.
  intros Hst. cbv zeta.
  destruct (created_inv _ _ Hst) as (vd & Hv & Hfresh & Hlen).
  assert (Hother : forall c,
             snd (ProductCreateView.create {| db := db st; cache := c |} request)
             = snd (ProductCreateView.create st request)).
  { intros c. rewrite (view_create_eq st _ _ Hv).
    rewrite (view_create_eq {| db := db st; cache := c |} _ vd Hv).
    cbn [db]. rewrite Hfresh. cbv zeta. rewrite Hlen, Nat.eqb_refl.
    reflexivity. }
  rewrite (view_create_eq _ _ _ Hv), Hfresh in *. cbv zeta in *.
  rewrite Hlen, Nat.eqb_refl in *. cbn [fst snd cache db data].
  split; [reflexivity|]. split; [apply lookup_delete_eq|].
  split; [intros k Hk; apply lookup_delete_ne; congruence|].
  split; [|exact Hother].
  pose proof (is_valid_inr _ _ _ Hv) as (_ & _ & Hc & Ht & _).
  apply run_category_valid in Hc as (pkc & Hgc & Hc).
  apply run_types_product_valid in Ht as (pkt & Hgt & Ht).
  pose proof Hc as Hcf. pose proof Ht as Htf.
  unfold get_category in Hcf. apply find_some in Hcf as [Hcin Hcid].
  unfold get_type in Htf. apply find_some in Htf as [Htin Htid].
  apply Z.eqb_eq in Hcid, Htid.
  exists (new_obj (db st) vd (uuid4 request) (now request)), pkc, pkt.
  cbn [new_obj row category_obj types_obj products with_image_rows
       with_product_row new_row Product.category Product.types_product
       Product.id].
  split; [apply in_app_iff; right; left; reflexivity|].
  do 4 (split; [assumption|]).
  split; [repeat split; assumption|].
  do 2 (split; [assumption|]).
  do 3 (split; [reflexivity|]).
  intros Hwf.
  rewrite <- (images_data_submitted _ _ _ Hv). split; [|split].
  - apply (to_representation_described (Some request) _
             (new_obj (db st) vd (uuid4 request) (now request))).
    + reflexivity.
    + apply (first_by_pk_created _ _ _ Hwf).
  - rewrite described_images_of, (images_of_created _ _ _ Hwf),
      length_image_rows. exact Hlen.
  - unfold ProductSerializer.to_representation, field.
    cbn [dict_get String.eqb Ascii.eqb Bool.eqb].
    unfold ProductSerializer.get_first_image.
    cbn [row new_obj new_row Product.id].
    rewrite (images_of_created _ _ _ Hwf).
    destruct (images_data vd) as [|image rest]; [reflexivity|].
    destruct (saved_prefix_full _ _ _ Hlen) as (name & Hsave & Hpre).
    exists name. split; [exact Hsave|].
    rewrite Hpre, first_by_pk_image_rows. reflexivity.
Qed.

End Store.

(** ** The list handlers and the cache *)

Section Views.
Context `{Platform}.

Lemma cache_get_live (c : gmap string (pyobj * nat)) (key : string)
    (t expires : nat) (v : pyobj) :
  c !! key = Some (v, expires) -> t < expires -> cache_get t key c = v.
Proof.
  intros Hk Hlt. unfold cache_get. rewrite Hk.
  apply Nat.ltb_lt in Hlt. rewrite Hlt. reflexivity.
Qed.

Lemma cache_get_expired (c : gmap string (pyobj * nat)) (key : string)
    (t expires : nat) (v : pyobj) :
  c !! key = Some (v, expires) -> expires <= t -> cache_get t key c = ONone.
Proof.
  intros Hk Hle. unfold cache_get. rewrite Hk.
  apply Nat.ltb_ge in Hle. rewrite Hle. reflexivity.
Qed.

Lemma cache_get_missing (c : gmap string (pyobj * nat)) (key : string) (t : nat) :
  c !! key = None -> cache_get t key c = ONone.
Proof. intros Hk. unfold cache_get. rewrite Hk. reflexivity. Qed.

(** Two live reads of one entry yield the same value. *)
Lemma cache_get_stable (c : gmap string (pyobj * nat)) (key : string)
    (t1 t2 : nat) :
  cache_get t1 key c <> ONone -> cache_get t2 key c <> ONone ->
  cache_get t1 key c = cache_get t2 key c.
Proof.
  unfold cache_get. destruct (c !! key) as [[v e]|]; [|congruence].
  destruct (t1 <? e), (t2 <? e); congruence.
Qed.

Lemma product_list_hit (st : State) (request : Request) :
  cache_get (now request) "product_list" (cache st) <> ONone ->
  ProductAPIView.list st request =
    (st, {| status := HTTP_200_OK;
            data := cache_get (now request) "product_list" (cache st) |}).
Proof.
  intros Hhit. unfold ProductAPIView.list. cbv zeta.
  destruct (cache_get (now request) "product_list" (cache st));
    congruence.
Qed.

Lemma product_list_miss (st : State) (request : Request) :
  cache_get (now request) "product_list" (cache st) = ONone ->
  ProductAPIView.list st request =
    (set_cache st
       (<["product_list" :=
            (data (ProductAPIView.super_list st request), now request + 300)]>
          (cache st)),
     ProductAPIView.super_list st request).
Proof.
  intros Hmiss. unfold ProductAPIView.list. cbv zeta. rewrite Hmiss.
  reflexivity.
Qed.

(** Every instance of the queryset carries its category, its type and
    its images, as the store holds them. *)
Lemma get_queryset_loaded (db : DB) (obj : ProductObj) :
  In obj (ProductAPIView.get_queryset db) ->
  In (row obj) (products db)
  /\ get_category db (Product.category (row obj)) = Some (category_obj obj)
  /\ get_type db (Product.types_product (row obj)) = Some (types_obj obj)
  /\ prefetched_images obj = Some (images_of db (Product.id (row obj))).
Proof.
  unfold ProductAPIView.get_queryset. intros Hin.
  apply in_flat_map in Hin as (p & Hp & Hin).
  destruct (get_category db (Product.category p)) as [c|] eqn:Hc; [|destruct Hin].
  destruct (get_type db (Product.types_product p)) as [t|] eqn:Ht; [|destruct Hin].
  destruct Hin as [<-|[]]. cbn. auto.
Qed.

Lemma product_queryset_rows (db : DB) :
  sublist (List.map row (ProductAPIView.get_queryset db)) (products db)
  /\ ((forall p, In p (products db) ->
         is_some (get_category db (Product.category p)) = true
         /\ is_some (get_type db (Product.types_product p)) = true) ->
      List.map row (ProductAPIView.get_queryset db) = products db).
Proof.
  unfold ProductAPIView.get_queryset.
  induction (products db) as [|p r [IHs IHe]]; [split; [constructor | reflexivity]|].
  cbn [flat_map]. split.
  - destruct (get_category db (Product.category p)),
             (get_type db (Product.types_product p)); cbn [app List.map row];
      first [apply sublist_skip; exact IHs | apply sublist_cons; exact IHs].
  - intros Hall. destruct (Hall p (or_introl eq_refl)) as [Hc Ht].
    destruct (get_category db (Product.category p)); [|discriminate Hc].
    destruct (get_type db (Product.types_product p)); [|discriminate Ht].
    cbn [app List.map row]. f_equal. apply IHe.
    intros q Hq. apply Hall. right. exact Hq.
Qed.

Lemma store_consistent_references (db : DB) (p : Product.t) :
  store_consistent db = true -> In p (products db) ->
  is_some (get_category db (Product.category p)) = true
  /\ is_some (get_type db (Product.types_product p)) = true.
Proof.
  unfold store_consistent. rewrite !andb_true_iff.
  intros [[_ Hfk] _] Hp.
  rewrite forallb_forall in Hfk. apply andb_true_iff, Hfk, Hp.
Qed.

(** With the image table in key order, [first()] finds the image of a
    product that was inserted first. *)
Lemma first_by_pk_described (db : DB) (pk : Z) :
  images_in_key_order db = true ->
  first_by_pk (images_of db pk) = Described.first_image db pk.
Proof.
  intros Hord. unfold Described.first_image. rewrite described_images_of.
  apply first_by_pk_increasing. unfold images_of.
  apply increasing_filter. exact Hord.
Qed.

(** C4. The product-list handler over the key [product_list]: on a live
    entry it answers 200 with the cached value itself and changes
    nothing, so two requests meeting the same cache with the entry live
    get the same payload; on a missing or expired entry it serializes
    the queryset, whose instances carry category, type and images,
    stores that payload under the key with expiry 300 seconds ahead,
    where it is read back until then, and answers with it. On a
    consistent store whose image table is in key order that payload is
    the list, in table order, of the described objects of all products of
    the store, each with the category and the type it references. *)
Theorem product_list_read_through (st : State) (request : Request) :
  let key := "product_list" in
  let cached := cache_get (now request) key (cache st) in
  let fresh :=
    OList (List.map (ProductSerializer.to_representation (Some request) (db st))
             (ProductAPIView.get_queryset (db st))) in
  (forall v expires,
      cache st !! key = Some (v, expires) -> now request < expires ->
      v <> ONone ->
      ProductAPIView.list st request = (st, {| status := 200; data := v |}))
  /\ (cache st !! key = None
      \/ (exists v expires, cache st !! key = Some (v, expires)
                            /\ expires <= now request)
      \/ (exists expires, cache st !! key = Some (ONone, expires)) ->
      ProductAPIView.list st request
      = (set_cache st (<[key := (fresh, now request + 60 * 5)]> (cache st)),
         {| status := 200; data := fresh |})
      /\ forall t, t < now request + 60 * 5 ->
           cache_get t key (cache (fst (ProductAPIView.list st request))) = fresh)
  /\ (forall obj, In obj (ProductAPIView.get_queryset (db st)) ->
        In (row obj) (products (db st))
        /\ get_category (db st) (Product.category (row obj))
           = Some (category_obj obj)
        /\ get_type (db st) (Product.types_product (row obj))
           = Some (types_obj obj)
        /\ prefetched_images obj
           = Some (images_of (db st) (Product.id (row obj))))
  /\ (forall st2 request2,
        cache st2 = cache st ->
        cached <> ONone ->
        cache_get (now request2) key (cache st2) <> ONone ->
        data (snd (ProductAPIView.list st2 request2))
        = data (snd (ProductAPIView.list st request)))
  /\ (store_consistent (db st) = true ->
      images_in_key_order (db st) = true ->
      List.map row (ProductAPIView.get_queryset (db st)) = products (db st)
      /\ exists joined : list (Product.t * Category.t * Types.t),
           List.map (fun j => fst (fst j)) joined = products (db st)
           /\ (forall p c t, In (p, c, t) joined ->
                 Described.references (db st) p c t)
           /\ fresh
              = OList (List.map
                         (fun j => Described.product_object (Some request)
                                     (db st) (fst (fst j)) (snd (fst j)) (snd j))
                         joined)).
Proof.
  cbv zeta. split; [|split; [|split; [|split]]].
  - intros v expires Hk Hlt Hv.
    pose proof (cache_get_live _ _ _ _ _ Hk Hlt) as Hget.
    rewrite product_list_hit; rewrite Hget; [reflexivity | exact Hv].
  - intros Hmiss.
    assert (Hget : cache_get (now request) "product_list" (cache st) = ONone).
    { destruct Hmiss as [Hnone|[(v & e & Hk & Hle)|(e & Hk)]].
      - apply cache_get_missing. exact Hnone.
      - eapply cache_get_expired; eauto.
      - unfold cache_get. rewrite Hk. destruct (now request <? e); reflexivity. }
    rewrite (product_list_miss _ _ Hget). split; [reflexivity|].
    intros t Ht. cbn [fst set_cache cache].
    eapply cache_get_live; [apply lookup_insert_eq|].
    exact Ht.
  - intros obj. apply get_queryset_loaded.
  - intros st2 request2 Hc Hhit Hhit2.
    rewrite (product_list_hit _ _ Hhit), (product_list_hit _ _ Hhit2).
    cbn [snd data]. rewrite Hc in *. apply cache_get_stable; assumption.
  - intros Hcons Hord.
    assert (Hrows : List.map row (ProductAPIView.get_queryset (db st))
                    = products (db st)).
    { apply product_queryset_rows. intros p Hp.
      apply store_consistent_references; assumption. }
    split; [exact Hrows|].
    exists (List.map (fun obj => (row obj, category_obj obj, types_obj obj))
              (ProductAPIView.get_queryset (db st))).
    split; [|split].
    + rewrite List.map_map. exact Hrows.
    + intros p c t Hin. apply in_map_iff in Hin as (obj & [= <- <- <-] & Hobj).
      apply get_queryset_loaded in Hobj as (_ & Hc & Ht & _).
      unfold get_category in Hc. apply find_some in Hc as [Hcin Hcid].
      unfold get_type in Ht. apply find_some in Ht as [Htin Htid].
      apply Z.eqb_eq in Hcid, Htid. repeat split; assumption.
    + f_equal. rewrite List.map_map. apply map_ext_in. intros obj Hobj.
      cbn [fst snd].
      apply get_queryset_loaded in Hobj as (_ & _ & _ & Hpre).
      apply to_representation_described.
      * unfold ProductSerializer.images_all. rewrite Hpre. reflexivity.
      * apply first_by_pk_described. exact Hord.
Qed.

(** *** The entry [category_list] is never read back *)

Lemma page_key_not_category_list (request : Request) :
  page_key request <> "category_list".
Proof. unfold page_key. cbn. discriminate. Qed.

Lemma page_key_not_product_list (request : Request) :
  page_key request <> "product_list".
Proof. unfold page_key. cbn. discriminate. Qed.

Lemma agree_off_refl (key : string) (st : State) : agree_off key st st.
Proof. split; auto. Qed.

Lemma agree_off_get (key k : string) (st1 st2 : State) (t : nat) :
  agree_off key st1 st2 -> k <> key ->
  cache_get t k (cache st1) = cache_get t k (cache st2).
Proof.
  intros [_ Hc] Hk. unfold cache_get. rewrite (Hc k Hk). reflexivity.
Qed.

(** The same write on both sides keeps the agreement. *)
Lemma agree_off_set (key k : string) (st1 st2 : State) (t n : nat) (v : pyobj) :
  agree_off key st1 st2 ->
  agree_off key (set_cache st1 (cache_set t k v n (cache st1)))
                (set_cache st2 (cache_set t k v n (cache st2))).
Proof.
  intros [Hdb Hc]. split; [exact Hdb|]. intros k' Hk'.
  cbn [set_cache cache]. unfold cache_set.
  destruct (decide (k = k')) as [<-|Hne].
  - rewrite !lookup_insert_eq. reflexivity.
  - rewrite !lookup_insert_ne by exact Hne. apply Hc. exact Hk'.
Qed.

(** A write to the entry itself, on one side only, keeps it too. *)
Lemma agree_off_set_key_l (key : string) (st1 st2 : State) (t n : nat)
    (v : pyobj) :
  agree_off key st1 st2 ->
  agree_off key (set_cache st1 (cache_set t key v n (cache st1))) st2.
Proof.
  intros [Hdb Hc]. split; [exact Hdb|]. intros k Hk.
  cbn [set_cache cache]. unfold cache_set.
  rewrite lookup_insert_ne by congruence. apply Hc. exact Hk.
Qed.

Lemma agree_off_sym (key : string) (st1 st2 : State) :
  agree_off key st1 st2 -> agree_off key st2 st1.
Proof.
  intros [Hdb Hc]. split; [congruence|]. intros k Hk. symmetry. auto.
Qed.

Lemma cache_page_blind (key : string) (timeout : nat)
    (view : State -> Request -> State * Response) :
  (forall request, page_key request <> key) ->
  blind_to key view -> blind_to key (cache_page timeout view).
Proof.
  intros Hkey Hview st1 st2 request Hag. unfold cache_page.
  destruct (method request); [|apply Hview; exact Hag].
  rewrite <- (agree_off_get key _ st1 st2 _ Hag (Hkey request)).
  destruct (cache_get (now request) (page_key request) (cache st1));
    try (split; [reflexivity | exact Hag]).
  destruct (Hview st1 st2 request Hag) as [Hresp Hst].
  destruct (view st1 request) as [st1' r1], (view st2 request) as [st2' r2].
  cbn [fst snd] in *. subst r2.
  destruct (status r1 =? HTTP_200_OK); cbn [fst snd].
  - split; [reflexivity|]. apply agree_off_set. exact Hst.
  - split; [reflexivity | exact Hst].
Qed.

Lemma category_get_queryset_blind (st1 st2 : State) (request : Request) :
  agree_off "category_list" st1 st2 ->
  snd (CategoryAPIView.get_queryset st1 request)
  = snd (CategoryAPIView.get_queryset st2 request)
  /\ agree_off "category_list" (fst (CategoryAPIView.get_queryset st1 request))
                               (fst (CategoryAPIView.get_queryset st2 request)).
Proof.
  intros Hag. unfold CategoryAPIView.get_queryset. cbv zeta. cbn [fst snd].
  assert (Hdb : forall (a b : State), agree_off "category_list" a b ->
                  categories (db a) = categories (db b)).
  { intros a b [Hd _]. rewrite Hd. reflexivity. }
  assert (Hl : forall st, agree_off "category_list"
             (set_cache st
                (cache_set (now request) "category_list"
                   (OList (List.map CategoryAPIView.values (categories (db st))))
                   (60 * 15) (cache st))) st).
  { intros st. apply agree_off_set_key_l. apply agree_off_refl. }
  assert (Htrans : forall a b c, agree_off "category_list" a b ->
                     agree_off "category_list" b c ->
                     agree_off "category_list" a c).
  { intros a b c [Hd1 Hc1] [Hd2 Hc2]. split; [congruence|].
    intros k Hk. rewrite Hc1, Hc2; auto. }
  split.
  - apply Hdb.
    destruct (cache_get (now request) "category_list" (cache st1)),
             (cache_get (now request) "category_list" (cache st2));
      eauto using agree_off_sym.
  - destruct (cache_get (now request) "category_list" (cache st1)),
             (cache_get (now request) "category_list" (cache st2));
      eauto using agree_off_sym.
Qed.

Lemma category_dispatch_blind : blind_to "category_list" CategoryAPIView.dispatch.
Proof.
  intros st1 st2 request Hag. unfold CategoryAPIView.dispatch.
  destruct (method request); [|split; [reflexivity | exact Hag]].
  unfold CategoryAPIView.list.
  destruct (category_get_queryset_blind st1 st2 request Hag) as [Hq Hst].
  destruct (CategoryAPIView.get_queryset st1 request) as [st1' q1],
           (CategoryAPIView.get_queryset st2 request) as [st2' q2].
  cbn [fst snd] in *. subst q2. split; [reflexivity | exact Hst].
Qed.

Lemma types_dispatch_blind : blind_to "category_list" TypesAPIView.dispatch.
Proof.
  intros st1 st2 request Hag. unfold TypesAPIView.dispatch, TypesAPIView.list.
  destruct Hag as [Hdb Hc].
  destruct (method request); cbn [fst snd]; rewrite ?Hdb;
    (split; [reflexivity | split; assumption]).
Qed.

Lemma product_dispatch_blind : blind_to "category_list" ProductAPIView.dispatch.
Proof.
  intros st1 st2 request Hag. unfold ProductAPIView.dispatch.
  destruct (method request); [|split; [reflexivity | exact Hag]].
  unfold ProductAPIView.list. cbv zeta.
  rewrite <- (agree_off_get "category_list" "product_list" st1 st2 _ Hag)
    by discriminate.
  destruct (cache_get (now request) "product_list" (cache st1));
    try (split; [reflexivity | exact Hag]).
  unfold ProductAPIView.super_list. cbn [fst snd data].
  destruct Hag as [Hdb Hc]. rewrite Hdb. split; [reflexivity|].
  apply agree_off_set. split; assumption.
Qed.

Lemma create_dispatch_blind : blind_to "category_list" ProductCreateView.dispatch.
Proof.
  intros st1 st2 request Hag. unfold ProductCreateView.dispatch.
  destruct (method request); [split; [reflexivity | exact Hag]|].
  unfold ProductCreateView.create. destruct Hag as [Hdb Hc]. rewrite Hdb.
  destruct (ProductCreateSerializer.is_valid (db st2) (request_data request))
    as [e|vd]; [split; [reflexivity | split; assumption]|].
  destruct (ProductCreateSerializer.create (db st2) vd (uuid4 request)
              (now request)) as [db' [product|]]; cbn [fst snd].
  - split; [reflexivity|]. split; [reflexivity|].
    intros k Hk. cbn [cache]. unfold cache_delete.
    destruct (decide (k = "product_list")) as [->|Hne].
    + rewrite !lookup_delete_eq. reflexivity.
    + rewrite !lookup_delete_ne by congruence. apply Hc. exact Hk.
  - split; [reflexivity|]. split; [reflexivity | exact Hc].
Qed.

Lemma urlpatterns_blind : blind_to "category_list" urlpatterns.
Proof.
  intros st1 st2 request Hag. unfold urlpatterns.
  destruct (String.eqb (path request) "category-list").
  { apply cache_page_blind;
      [exact page_key_not_category_list | exact category_dispatch_blind | exact Hag]. }
  destruct (String.eqb (path request) "type-list").
  { apply cache_page_blind;
      [exact page_key_not_category_list | exact types_dispatch_blind | exact Hag]. }
  destruct (String.eqb (path request) "product-list").
  { apply cache_page_blind;
      [exact page_key_not_category_list | exact product_dispatch_blind | exact Hag]. }
  destruct (String.eqb (path request) "product-create").
  { apply create_dispatch_blind. exact Hag. }
  split; [reflexivity | exact Hag].
Qed.

(** C10. Two states with the same store whose caches differ at most in
    the entry [category_list], in its value or its presence, give the
    same category-list response, and the same responses to any sequence
    of requests to the service: the entry that
    [CategoryAPIView.get_queryset] writes is never read into a response,
    the queryset it returns being the categories of the store. *)
Theorem category_list_entry_is_dead (st1 st2 : State) :
  agree_off "category_list" st1 st2 ->
  (forall request,
      snd (CategoryAPIView.as_view st1 request)
      = snd (CategoryAPIView.as_view st2 request))
  /\ (forall request,
        snd (CategoryAPIView.get_queryset st1 request) = categories (db st1))
  /\ (forall requests, snd (serve st1 requests) = snd (serve st2 requests)).
Proof.
  intros Hag. split; [|split].
  - intros request.
    apply (cache_page_blind "category_list" (60 * 15) CategoryAPIView.dispatch
             page_key_not_category_list category_dispatch_blind st1 st2 request Hag).
  - intros request. unfold CategoryAPIView.get_queryset. cbv zeta.
    destruct (cache_get (now request) "category_list" (cache st1)); reflexivity.
  - intros requests. revert st1 st2 Hag.
    induction requests as [|r rest IH]; intros st1 st2 Hag; [reflexivity|].
    cbn [serve].
    destruct (urlpatterns_blind st1 st2 r Hag) as [Hresp Hst].
    destruct (urlpatterns st1 r) as [st1' r1], (urlpatterns st2 r) as [st2' r2].
    cbn [fst snd] in *. subst r2.
    specialize (IH st1' st2' Hst).
    destruct (serve st1' rest) as [s1 l1], (serve st2' rest) as [s2 l2].
    cbn [snd] in *. subst l2. reflexivity.
Qed.

(** *** The product list after a creation *)

Lemma listed_ids_products (context : option Request) (db : DB)
    (objs : list ProductObj) :
  listed_ids (OList (List.map (ProductSerializer.to_representation context db) objs))
  = List.map (fun obj => Product.id (row obj)) objs.
Proof.
  unfold listed_ids. induction objs as [|obj rest IH]; [reflexivity|].
  cbn [List.map flat_map]. rewrite IH. reflexivity.
Qed.

Lemma get_category_id (db : DB) (pk : Z) (c : Category.t) :
  get_category db pk = Some c -> get_category db (Category.id c) = Some c.
Proof.
  intros Hget. pose proof Hget as Hf. unfold get_category in Hf.
  apply find_some in Hf as [_ Heq]. apply Z.eqb_eq in Heq.
  rewrite Heq. exact Hget.
Qed.

Lemma get_type_id (db : DB) (pk : Z) (t : Types.t) :
  get_type db pk = Some t -> get_type db (Types.id t) = Some t.
Proof.
  intros Hget. pose proof Hget as Hf. unfold get_type in Hf.
  apply find_some in Hf as [_ Heq]. apply Z.eqb_eq in Heq.
  rewrite Heq. exact Hget.
Qed.

(** The handler, run on the state a successful creation leaves, lists
    the created product. *)
Lemma list_after_create (st : State) (request request2 : Request) :
  status (snd (ProductCreateView.create st request)) = HTTP_201_CREATED ->
  In (product_seq (db st))
     (listed_ids
        (data (snd (ProductAPIView.list
                      (fst (ProductCreateView.create st request)) request2)))).
Proof.
  intros Hst.
  destruct (created_inv _ _ Hst) as (vd & Hv & Hfresh & Hlen).
  pose proof (is_valid_inr _ _ _ Hv) as (_ & _ & Hc & Ht & _).
  apply run_category_valid in Hc as (pkc & _ & Hc). apply get_category_id in Hc.
  apply run_types_product_valid in Ht as (pkt & _ & Ht). apply get_type_id in Ht.
  rewrite (view_create_eq _ _ _ Hv), Hfresh. cbv zeta.
  rewrite Hlen, Nat.eqb_refl. cbn [fst].
  rewrite product_list_miss.
  2:{ apply cache_get_missing. cbn [cache]. apply lookup_delete_eq. }
  cbn [snd]. unfold ProductAPIView.super_list. cbn [data db].
  rewrite listed_ids_products. apply in_map_iff.
  eexists {| row := new_row (db st) vd (uuid4 request) (now request) |}.
  split; [reflexivity|].
  unfold ProductAPIView.get_queryset. apply in_flat_map.
  exists (new_row (db st) vd (uuid4 request) (now request)). split.
  - cbn [products with_image_rows with_product_row].
    apply in_app_iff. right. left. reflexivity.
  - unfold get_category, get_type in *.
    cbn [categories types with_image_rows with_product_row new_row
         Product.category Product.types_product].
    rewrite Hc, Ht. left. reflexivity.
Qed.

(** X13. When the response cache holds no live entry for a [GET
    product-list] request, the endpoint, asked right after a creation
    answered 201, lists the created product. *)
Lemma product_list_after_create (st : State) (request request2 : Request) :
  status (snd (ProductCreateView.create st request)) = HTTP_201_CREATED ->
  method request2 = GET ->
  cache_get (now request2) (page_key request2) (cache st) = ONone ->
  In (product_seq (db st))
     (listed_ids
        (data (snd (ProductAPIView.as_view
                      (fst (ProductCreateView.create st request)) request2)))).
Proof.
  intros Hst Hget Hpage.
  pose proof (list_after_create st request request2 Hst) as Hlist.
  unfold ProductAPIView.as_view, cache_page. rewrite Hget.
  replace (cache_get (now request2) (page_key request2)
             (cache (fst (ProductCreateView.create st request)))) with ONone.
  - unfold ProductAPIView.dispatch. rewrite Hget.
    destruct (ProductAPIView.list (fst (ProductCreateView.create st request))
                request2) as [st' response].
    cbn [snd] in Hlist.
    destruct (status response =? HTTP_200_OK); exact Hlist.
  - rewrite <- Hpage.
    destruct (created_inv _ _ Hst) as (vd & Hv & Hfresh & Hlen).
    rewrite (view_create_eq _ _ _ Hv), Hfresh. cbv zeta.
    rewrite Hlen, Nat.eqb_refl. cbn [fst cache].
    unfold cache_get, cache_delete.
    rewrite lookup_delete_ne; [reflexivity|].
    intros Heq. symmetry in Heq. exact (page_key_not_product_list _ Heq).
Qed.

End Views.

(** ** Text and the length validators *)

Section Validators.
Context `{Platform}.

Lemma lstrip_by_idem (sp : N -> bool) (s : str) :
  lstrip_by sp (lstrip_by sp s) = lstrip_by sp s.
Proof.
  induction s as [|c r IH]; simpl; [reflexivity|].
  destruct (sp c) eqn:Hc; [exact IH|]. simpl. rewrite Hc. reflexivity.
Qed.

Lemma lstrip_by_head (sp : N -> bool) (s : str) (c : N) (r : str) :
  lstrip_by sp s = c :: r -> sp c = false.
Proof.
  induction s as [|x xs IH]; simpl; [discriminate|].
  destruct (sp x) eqn:Hx; [exact IH|]. intros [= <- <-]. exact Hx.
Qed.

Lemma lstrip_by_snoc (sp : N -> bool) (s : str) (c : N) :
  sp c = false -> lstrip_by sp (s ++ [c]) = lstrip_by sp s ++ [c].
Proof.
  intros Hc. induction s as [|x xs IH]; simpl; [rewrite Hc; reflexivity|].
  destruct (sp x); [exact IH | reflexivity].
Qed.

(** Stripping what was stripped changes nothing. *)
Lemma strip_by_idem (sp : N -> bool) (s : str) :
  strip_by sp (strip_by sp s) = strip_by sp s.
Proof.
  unfold strip_by.
  destruct (lstrip_by sp s) as [|c t] eqn:Ht; [reflexivity|].
  pose proof (lstrip_by_head _ _ _ _ Ht) as Hc.
  simpl rev at 3. simpl rev at 5.
  rewrite (lstrip_by_snoc sp (rev t) c Hc).
  rewrite rev_app_distr. simpl. rewrite Hc. simpl.
  rewrite rev_involutive.
  rewrite (lstrip_by_snoc sp _ c Hc), lstrip_by_idem.
  rewrite rev_app_distr. reflexivity.
Qed.

Lemma strip_idem (s : str) : strip (strip s) = strip s.
Proof. apply strip_by_idem. Qed.



Lemma float_of_valid_price (value : str) :
  is_valid_result (ProductCreateSerializer.validate_price value) = true ->
  float value <> None.
Proof.
  unfold ProductCreateSerializer.validate_price.
  destruct (float value); [discriminate | simpl; discriminate].
Qed.

(** X2. The price hook of the read serializer accepts exactly the
    strings [float] parses and returns them unchanged: it accepts every
    price the creation serializer accepts, and also the parsed prices
    that are zero or negative, which the creation serializer refuses. *)
Theorem read_price_hook_weaker (value : str) :
  (is_valid_result (ProductSerializer_validate_price value) = true
   <-> float value <> None)
  /\ (forall v, ProductSerializer_validate_price value = Valid v -> v = value)
  /\ (is_valid_result (ProductCreateSerializer.validate_price value) = true ->
      is_valid_result (ProductSerializer_validate_price value) = true)
  /\ (forall f, float value = Some f -> float_le0 f = true ->
        is_valid_result (ProductSerializer_validate_price value) = true
        /\ is_valid_result (ProductCreateSerializer.validate_price value) = false).
Proof.
  unfold ProductSerializer_validate_price, ProductCreateSerializer.validate_price.
  destruct (float value) as [f|]; simpl.
  - split; [split; [discriminate | reflexivity]|].
    split; [intros v [= <-]; reflexivity|].
    split; [reflexivity|].
    intros f' [= <-] Hle. rewrite Hle. auto.
  - split; [split; [discriminate | congruence]|].
    split; [discriminate|]. split; [discriminate|]. discriminate.
Qed.

(** *** Prices written with digits only *)

Lemma digit_char (d : N) :
  (d < 10)%N ->
  isdigit (48 + d) = true
  /\ ((48 + d =? 95) = false)%N
  /\ ascii_isspace (48 + d) = false
  /\ ascii_lower (48 + d) = (48 + d)%N
  /\ ((48 + d =? 45) = false)%N /\ ((48 + d =? 43) = false)%N
  /\ ((48 + d =? 46) = false)%N
  /\ (48 + d - 48 = d)%N.
Proof.
  intros Hd. unfold isdigit, ascii_isspace, ascii_lower.
  assert (H2 : (48 <=? 48 + d)%N = true) by (apply N.leb_le; lia).
  assert (H3 : (48 + d <=? 57)%N = true) by (apply N.leb_le; lia).
  assert (H4 : (48 + d <=? 13)%N = false) by (apply N.leb_gt; lia).
  assert (H5 : (65 <=? 48 + d)%N = false) by (apply N.leb_gt; lia).
  assert (H6 : forall k, (k < 48 \/ 57 < k)%N -> (48 + d =? k)%N = false)
    by (intros k Hk; apply N.eqb_neq; lia).
  rewrite H2, H3, H4, H5, !H6 by lia.
  rewrite andb_false_r. repeat split; try reflexivity. lia.
Qed.

Lemma to_ascii_digit (d : N) : (d < 10)%N -> to_ascii (48 + d) = (48 + d)%N.
Proof.
  intros Hd. unfold to_ascii.
  replace (48 + d <? 128)%N with true; [reflexivity|].
  symmetry. apply N.ltb_lt. lia.
Qed.

Lemma map_to_ascii_digits (ds : list N) :
  Forall (fun d => (d < 10)%N) ds ->
  List.map to_ascii (digits_text ds) = digits_text ds.
Proof.
  induction 1 as [|d r Hd _ IH]; [reflexivity|].
  unfold digits_text in *. simpl. rewrite IH, (to_ascii_digit d Hd).
  reflexivity.
Qed.

Lemma remove_underscores_digits (prev : N) (ds : list N) :
  (prev =? 95)%N = false ->
  Forall (fun d => (d < 10)%N) ds ->
  remove_underscores prev (digits_text ds) = Some (digits_text ds).
Proof.
  intros Hprev Hall. revert prev Hprev.
  induction Hall as [|d r Hd _ IH]; intros prev Hprev; simpl.
  - rewrite Hprev. reflexivity.
  - destruct (digit_char d Hd) as (_ & H95 & _).
    rewrite H95, Hprev. simpl. fold (digits_text r).
    rewrite (IH _ H95). reflexivity.
Qed.

Lemma lstrip_digits (ds : list N) (tail : str) :
  Forall (fun d => (d < 10)%N) ds -> ds <> [] ->
  lstrip_by ascii_isspace (digits_text ds ++ tail) = digits_text ds ++ tail.
Proof.
  intros Hall Hne. destruct Hall as [|d r Hd _]; [congruence|].
  simpl. destruct (digit_char d Hd) as (_ & _ & -> & _). reflexivity.
Qed.

Lemma rev_digits_text (ds : list N) : rev (digits_text ds) = digits_text (rev ds).
Proof. unfold digits_text. symmetry. apply map_rev. Qed.

Lemma strip_digits (ds : list N) :
  Forall (fun d => (d < 10)%N) ds -> ds <> [] ->
  strip_by ascii_isspace (digits_text ds) = digits_text ds
  /\ strip_by ascii_isspace (45%N :: digits_text ds) = 45%N :: digits_text ds.
Proof.
  intros Hall Hne.
  assert (Hrev : Forall (fun d => (d < 10)%N) (rev ds)).
  { apply List.Forall_forall. intros d Hd. apply in_rev in Hd.
    revert d Hd. apply List.Forall_forall. exact Hall. }
  assert (Hrne : rev ds <> []).
  { intros Heq. apply Hne. rewrite <- (rev_involutive ds), Heq. reflexivity. }
  pose proof (lstrip_digits ds [] Hall Hne) as H1. rewrite app_nil_r in H1.
  unfold strip_by. split.
  - rewrite H1, rev_digits_text.
    pose proof (lstrip_digits (rev ds) [] Hrev Hrne) as H2.
    rewrite app_nil_r in H2. rewrite H2, <- rev_digits_text.
    apply rev_involutive.
  - change (lstrip_by ascii_isspace (45%N :: digits_text ds))
      with (45%N :: digits_text ds).
    change (rev (45%N :: digits_text ds)) with (rev (digits_text ds) ++ [45%N]).
    rewrite rev_digits_text, (lstrip_digits (rev ds) [45%N] Hrev Hrne).
    rewrite rev_app_distr, <- rev_digits_text, rev_involutive. reflexivity.
Qed.

Lemma span_digits_text (ds : list N) :
  Forall (fun d => (d < 10)%N) ds -> span_digits (digits_text ds) = (ds, []).
Proof.
  induction 1 as [|d r Hd _ IH]; [reflexivity|].
  simpl. fold (digits_text r).
  destruct (digit_char d Hd) as (-> & _ & _ & _ & _ & _ & _ & ->).
  rewrite IH. reflexivity.
Qed.

Lemma lower_digits (ds : list N) :
  Forall (fun d => (d < 10)%N) ds ->
  List.map ascii_lower (digits_text ds) = digits_text ds.
Proof.
  induction 1 as [|d r Hd _ IH]; [reflexivity|].
  unfold digits_text in *. simpl. rewrite IH.
  destruct (digit_char d Hd) as (_ & _ & _ & -> & _). reflexivity.
Qed.

Lemma digits_not_word (ds : list N) (w : string) (c : N) (r : str) :
  Forall (fun d => (d < 10)%N) ds ->
  text w = c :: r -> (57 < c)%N ->
  str_eqb (digits_text ds) (text w) = false.
Proof.
  intros Hall Hw Hc. unfold str_eqb.
  destruct (decide (digits_text ds = text w)) as [Heq|]; [|reflexivity].
  rewrite Hw in Heq. destruct Hall as [|d l Hd _]; [discriminate|].
  cbn in Heq. injection Heq as Heq _. lia.
Qed.

(** The digits after an optional sign are read as a decimal integer. *)
Lemma strtod_digits (neg : bool) (ds : list N) :
  Forall (fun d => (d < 10)%N) ds -> ds <> [] ->
  strtod ((if neg then [45%N] else []) ++ digits_text ds)
  = Some (FDec neg (digits_value ds) 0).
Proof.
  intros Hall Hne. unfold strtod.
  assert (Hsign : read_sign ((if neg then [45%N] else []) ++ digits_text ds)
                  = (neg, digits_text ds)).
  { destruct neg; [reflexivity|]. simpl.
    destruct Hall as [|d r Hd _]; [congruence|]. simpl.
    destruct (digit_char d Hd) as (_ & _ & _ & _ & -> & -> & _).
    reflexivity. }
  rewrite Hsign, (lower_digits _ Hall).
  rewrite (digits_not_word ds "inf" 105 (text "nf") Hall eq_refl) by lia.
  rewrite (digits_not_word ds "infinity" 105 (text "nfinity") Hall eq_refl) by lia.
  rewrite (digits_not_word ds "nan" 110 (text "an") Hall eq_refl) by lia.
  cbn [orb]. rewrite (span_digits_text _ Hall). rewrite app_nil_r.
  destruct ds as [|d r]; [congruence|]. reflexivity.
Qed.

Lemma float_digits (neg : bool) (ds : list N) :
  Forall (fun d => (d < 10)%N) ds -> ds <> [] ->
  float ((if neg then [45%N] else []) ++ digits_text ds)
  = Some (FDec neg (digits_value ds) 0).
Proof.
  intros Hall Hne. unfold float.
  destruct (strip_digits ds Hall Hne) as [Hs1 Hs2].
  destruct neg.
  - cbn [app List.map]. change (to_ascii 45) with 45%N.
    rewrite (map_to_ascii_digits _ Hall).
    cbn [remove_underscores]. change (45 =? 95)%N with false.
    change (0 =? 95)%N with false. cbn [andb].
    rewrite (remove_underscores_digits 45 ds eq_refl Hall). cbn [option_map].
    rewrite Hs2. apply (strtod_digits true ds Hall Hne).
  - cbn [app]. rewrite (map_to_ascii_digits _ Hall).
    rewrite (remove_underscores_digits 0 ds eq_refl Hall), Hs1.
    apply (strtod_digits false ds Hall Hne).
Qed.

(** X3. A price written with decimal digits only is accepted by the
    creation serializer exactly when one of the digits is not zero, and
    returned as submitted; the same digits after a minus sign are always
    refused, with the message asking for a positive number. *)
Theorem digit_prices (ds : list N) :
  Forall (fun d => (d < 10)%N) ds -> ds <> [] ->
  ProductCreateSerializer.validate_price (digits_text ds)
  = (if (digits_value ds =? 0)%N then
       Invalid [Msg "Цена должна быть положительным числом"]
     else Valid (digits_text ds))
  /\ ProductCreateSerializer.validate_price (45%N :: digits_text ds)
     = Invalid [Msg "Цена должна быть положительным числом"]
  /\ ((digits_value ds =? 0)%N = forallb (N.eqb 0) ds).
Proof.
  intros Hall Hne. unfold ProductCreateSerializer.validate_price.
  pose proof (float_digits false ds Hall Hne) as Hpos.
  pose proof (float_digits true ds Hall Hne) as Hneg.
  cbn [app] in Hpos, Hneg. rewrite Hpos, Hneg.
  cbn [float_le0 orb]. unfold rounds_to_zero. cbn [Z.leb Z.compare].
  split; [reflexivity|]. split; [reflexivity|].
  clear. unfold digits_value.
  assert (Hgen : forall a : N,
             N.eqb (fold_left (fun a d => (10 * a + d)%N) ds a) 0%N
             = N.eqb a 0%N && forallb (N.eqb 0) ds).
  { induction ds as [|d r IH]; intros a; cbn [fold_left forallb].
    - rewrite andb_true_r. reflexivity.
    - rewrite IH.
      destruct (N.eqb_spec a 0), (N.eqb_spec 0 d),
        (N.eqb_spec (10 * a + d) 0); cbn [andb]; try reflexivity; lia. }
  rewrite Hgen. reflexivity.
Qed.

End Validators.

(** ** More on the creation endpoint *)

Section Creation.
Context `{Platform}.

Import ProductCreateSerializer.

Lemma validate_types_product_resolved (db : DB) (pk : Z) (t : Types.t) :
  get_type db pk = Some t -> validate_types_product db t = Valid t.
Proof.
  unfold get_type, validate_types_product. intros Hfind.
  apply find_some in Hfind as [Hin _].
  replace (existsb _ (types db)) with true; [reflexivity|].
  symmetry. apply existsb_exists. exists t. split; [exact Hin|].
  apply Z.eqb_refl.
Qed.

Lemma run_category_field (db : DB) (data : Payload.t) :
  run_category db data
  = PrimaryKeyRelatedField_run_validation (get_category db) (Payload.category data).
Proof.
  unfold run_category, PrimaryKeyRelatedField_run_validation.
  destruct (Payload.category data) as [| |pk]; try reflexivity.
  destruct (get_category db pk) as [c|] eqn:Hget; [|reflexivity].
  cbn [and_then]. apply (validate_category_resolved _ _ _ Hget).
Qed.

Lemma run_types_product_field (db : DB) (data : Payload.t) :
  run_types_product db data
  = PrimaryKeyRelatedField_run_validation (get_type db) (Payload.types_product data).
Proof.
  unfold run_types_product, PrimaryKeyRelatedField_run_validation.
  destruct (Payload.types_product data) as [| |pk]; try reflexivity.
  destruct (get_type db pk) as [t|] eqn:Hget; [|reflexivity].
  cbn [and_then]. apply (validate_types_product_resolved _ _ _ Hget).
Qed.

(** X4. The hooks [validate_category] and [validate_types_product] never
    refuse anything at the creation endpoint: the outcome of each
    reference rule is that of the field's own lookup, and the hooks'
    messages occur in no error mapping. *)
Theorem reference_hooks_never_refuse (db : DB) (data : Payload.t) :
  run_category db data
  = PrimaryKeyRelatedField_run_validation (get_category db) (Payload.category data)
  /\ run_types_product db data
     = PrimaryKeyRelatedField_run_validation (get_type db)
         (Payload.types_product data)
  /\ (forall d, errors_get "category" (errors db data) = Some d ->
        ~ In (Msg "Указанная категория не существует") d)
  /\ (forall d, errors_get "types_product" (errors db data) = Some d ->
        ~ In (Msg "Указанный тип не существует") d).
Proof.
  split; [apply run_category_field|]. split; [apply run_types_product_field|].
  destruct (errors_get_each db data) as (_ & _ & Hc & Ht & _).
  rewrite Hc, Ht, run_category_field, run_types_product_field.
  unfold PrimaryKeyRelatedField_run_validation. split; intros d.
  - destruct (Payload.category data) as [| |pk];
      [| |destruct (get_category db pk)]; simpl; intros [= <-];
      intros [Hin|[]]; discriminate Hin.
  - destruct (Payload.types_product data) as [| |pk];
      [| |destruct (get_type db pk)]; simpl; intros [= <-];
      intros [Hin|[]]; discriminate Hin.
Qed.

(** *** The shape of the error mapping *)

Lemma CharField_detail (max_length : option nat) (data : Raw str)
    (d : list ErrorDetail) :
  CharField_run_validation max_length data = Invalid d -> d <> [].
Proof.
  unfold CharField_run_validation.
  destruct data as [| |s]; try (intros [= <-]; discriminate).
  destruct (strip s) as [|c r]; [intros [= <-]; discriminate|].
  match goal with
  | |- context [match ?e with [] => Valid _ | _ :: _ => Invalid _ end] =>
      destruct e as [|x xs]
  end; [discriminate|]. intros [= <-]. discriminate.
Qed.

Lemma and_then_detail {A B : Type} (r : result A) (f : A -> result B)
    (d : list ErrorDetail) :
  and_then r f = Invalid d ->
  r = Invalid d \/ exists a, r = Valid a /\ f a = Invalid d.
Proof.
  destruct r as [a|d']; simpl; intros Heq.
  - right. exists a. split; [reflexivity | exact Heq].
  - left. injection Heq as ->. reflexivity.
Qed.

Lemma field_details_nonempty (db : DB) (data : Payload.t) (d : list ErrorDetail) :
  run_title data = Invalid d \/ run_description data = Invalid d
  \/ run_category db data = Invalid d \/ run_types_product db data = Invalid d
  \/ run_price data = Invalid d \/ run_is_active data = Invalid d
  \/ run_images data = Invalid d ->
  d <> [].
Proof.
  intros [Hr|[Hr|[Hr|[Hr|[Hr|[Hr|Hr]]]]]].
  - apply and_then_detail in Hr as [Hr|(a & _ & Hr)].
    + exact (CharField_detail _ _ _ Hr).
    + unfold validate_title in Hr.
      destruct (_ <? _); [injection Hr as <-|]; discriminate.
  - apply and_then_detail in Hr as [Hr|(a & _ & Hr)].
    + exact (CharField_detail _ _ _ Hr).
    + unfold validate_description in Hr.
      destruct (_ <? _); [injection Hr as <-|]; discriminate.
  - rewrite run_category_field in Hr.
    unfold PrimaryKeyRelatedField_run_validation in Hr.
    destruct (Payload.category data) as [| |pk];
      [| |destruct (get_category db pk)]; try discriminate Hr;
      injection Hr as <-; discriminate.
  - rewrite run_types_product_field in Hr.
    unfold PrimaryKeyRelatedField_run_validation in Hr.
    destruct (Payload.types_product data) as [| |pk];
      [| |destruct (get_type db pk)]; try discriminate Hr;
      injection Hr as <-; discriminate.
  - apply and_then_detail in Hr as [Hr|(a & _ & Hr)].
    + exact (CharField_detail _ _ _ Hr).
    + unfold validate_price in Hr.
      destruct (float a) as [f|]; [destruct (float_le0 f)|];
        try discriminate Hr; injection Hr as <-; discriminate.
  - unfold run_is_active, BooleanField_run_validation in Hr.
    destruct (Payload.is_active data); try discriminate Hr.
    injection Hr as <-. discriminate.
  - unfold run_images, ListField_run_validation in Hr.
    destruct (Payload.images data) as [| |l]; try discriminate Hr.
    + injection Hr as <-. discriminate.
    + destruct (run_child_validation 0 l); [discriminate Hr|].
      injection Hr as <-. discriminate.
Qed.

(** X5. The error mapping of the creation serializer lists its keys in
    the order of [Meta.fields], each at most once, and every key it lists
    carries at least one error; validation fails exactly when the
    mapping is not empty. *)
Theorem error_mapping_shape (db : DB) (data : Payload.t) :
  sublist (List.map fst (errors db data))
    ["title"; "description"; "category"; "types_product"; "price";
     "is_active"; "images"]
  /\ NoDup (List.map fst (errors db data))
  /\ (forall k d, In (k, d) (errors db data) -> d <> [])
  /\ (errors db data <> [] <-> is_valid db data = inl (errors db data))
  /\ (errors db data = [] <-> exists vd, is_valid db data = inr vd).
Proof.
  assert (Hsub : sublist (List.map fst (errors db data))
                   ["title"; "description"; "category"; "types_product";
                    "price"; "is_active"; "images"]).
  { unfold errors.
    destruct (run_title data), (run_description data), (run_category db data),
      (run_types_product db data), (run_price data), (run_is_active data),
      (run_images data); cbn;
      repeat first [apply sublist_nil | apply sublist_skip | apply sublist_cons]. }
  split; [exact Hsub|]. split.
  { eapply sublist_NoDup; [|exact Hsub].
    repeat (constructor;
            [rewrite ?elem_of_cons, elem_of_nil; intros Hx;
             repeat (destruct Hx as [Hx|Hx]; [discriminate Hx|]); exact Hx|]).
    constructor. }
  split.
  { intros k d Hin. apply (field_details_nonempty db data).
    unfold errors in Hin.
    repeat (apply in_app_iff in Hin as [Hin|Hin];
            [match type of Hin with
             | In _ (field_errors _ ?r) =>
                 destruct r; [destruct Hin | destruct Hin as [[= <- <-]|[]]]
             end; tauto|]).
    match type of Hin with
    | In _ (field_errors _ ?r) =>
        destruct r; [destruct Hin | destruct Hin as [[= <- <-]|[]]]
    end; tauto. }
  unfold is_valid, errors.
  destruct (run_title data), (run_description data), (run_category db data),
    (run_types_product db data), (run_price data), (run_is_active data),
    (run_images data); cbn; split; split;
    solve [ reflexivity | discriminate | congruence | eauto
          | intros (vd & Hvd); discriminate Hvd ].
Qed.

Lemma is_valid_cases (db : DB) (data : Payload.t) :
  (errors db data <> [] /\ is_valid db data = inl (errors db data))
  \/ (errors db data = [] /\ exists vd, is_valid db data = inr vd).
Proof.
  unfold is_valid, errors.
  destruct (run_title data), (run_description data), (run_category db data),
    (run_types_product db data), (run_price data), (run_is_active data),
    (run_images data); cbn;
    solve [ left; split; [discriminate | reflexivity]
          | right; split; [reflexivity | eauto] ].
Qed.

(** X6. The four outcomes of a creation request. Failed validation: a
    400 with the error mapping, state unchanged. A uuid already in the
    store: a server error, state unchanged. An image the blob store
    refuses: a server error with the cache untouched, although the
    product row was written. Otherwise a 201 with the entry
    [product_list] deleted. *)
Theorem create_outcomes (st : State) (request : Request) :
  let st' := fst (ProductCreateView.create st request) in
  let response := snd (ProductCreateView.create st request) in
  let errs := errors (db st) (request_data request) in
  let images := submitted_images (request_data request) in
  (errs <> []
   /\ response = {| status := HTTP_400_BAD_REQUEST; data := errors_data errs |}
   /\ st' = st)
  \/ (errs = [] /\ uuid_taken (db st) (uuid4 request) = true
      /\ response = server_error /\ st' = st)
  \/ (errs = [] /\ uuid_taken (db st) (uuid4 request) = false
      /\ length (saved_prefix (stored_files (db st)) images) < length images
      /\ response = server_error
      /\ cache st' = cache st
      /\ length (products (db st')) = S (length (products (db st))))
  \/ (errs = [] /\ uuid_taken (db st) (uuid4 request) = false
      /\ length (saved_prefix (stored_files (db st)) images) = length images
      /\ status response = HTTP_201_CREATED
      /\ cache st' = cache_delete "product_list" (cache st)
      /\ length (products (db st')) = S (length (products (db st)))).
Proof.
  cbv zeta.
  destruct (is_valid_cases (db st) (request_data request))
    as [[Hne Hv]|[Hnil [vd Hv]]].
  - left. unfold ProductCreateView.create. rewrite Hv. auto.
  - right. rewrite (view_create_eq _ _ _ Hv).
    rewrite <- (images_data_submitted _ _ _ Hv).
    destruct (uuid_taken (db st) (uuid4 request)).
    { left. cbn [fst snd]. destruct st; auto. }
    right. cbv zeta.
    pose proof (length_saved_prefix (stored_files (db st)) (images_data vd)) as Hle.
    destruct (length (saved_prefix (stored_files (db st)) (images_data vd)) =? length (images_data vd))
      eqn:Hlen; cbn [fst snd db cache status products with_image_rows
                     with_product_row].
    + right. apply Nat.eqb_eq in Hlen. rewrite length_app. cbn [length].
      repeat split; auto. lia.
    + left. apply Nat.eqb_neq in Hlen. rewrite length_app. cbn [length].
      repeat split; auto; lia.
Qed.

Lemma CharField_valid (max_length : option nat) (data : Raw str) (v : str) :
  CharField_run_validation max_length data = Valid v ->
  exists s, data = Given s /\ v = strip s /\ 1 <= length v
            /\ (forall n, max_length = Some n -> length v <= n)
            /\ existsb (N.eqb 0) v = false.
Proof.
  unfold CharField_run_validation.
  destruct data as [| |s]; try discriminate.
  destruct (strip s) as [|c r] eqn:Hs; [discriminate|].
  intros Hv. exists s.
  destruct (existsb (N.eqb 0) (c :: r)) eqn:Hnul;
    [destruct max_length as [n|]; [destruct (n <? length (c :: r))|];
     discriminate Hv|].
  destruct (existsb is_surrogate (c :: r));
    [destruct max_length as [n|]; [destruct (n <? length (c :: r))|];
     discriminate Hv|].
  destruct max_length as [n|].
  - destruct (n <? length (c :: r)) eqn:Hmax; [discriminate Hv|].
    injection Hv as <-. apply Nat.ltb_ge in Hmax.
    repeat split; auto; [cbn; lia|]. intros n' [= <-]. exact Hmax.
  - injection Hv as <-. repeat split; auto; [cbn; lia|]. discriminate.
Qed.

Lemma run_title_valid (data : Payload.t) (v : str) :
  run_title data = Valid v ->
  exists s, Payload.title data = Given s /\ v = strip s
            /\ 3 <= length v <= 155.
Proof.
  unfold run_title. intros Hr.
  destruct (CharField_run_validation (Some 155) (Payload.title data))
    as [value|] eqn:Hf; [|discriminate].
  apply CharField_valid in Hf as (s & -> & -> & _ & Hmax & _).
  cbn [and_then] in Hr. unfold validate_title in Hr.
  rewrite strip_idem in Hr.
  destruct (length (strip s) <? 3) eqn:Hlt; [discriminate|].
  injection Hr as <-. apply Nat.ltb_ge in Hlt.
  exists s. specialize (Hmax 155 eq_refl). auto.
Qed.

Lemma run_description_valid (data : Payload.t) (v : str) :
  run_description data = Valid v ->
  exists s, Payload.description data = Given s /\ v = strip s
            /\ 10 <= length v.
Proof.
  unfold run_description. intros Hr.
  destruct (CharField_run_validation None (Payload.description data))
    as [value|] eqn:Hf; [|discriminate].
  apply CharField_valid in Hf as (s & -> & -> & _).
  cbn [and_then] in Hr. unfold validate_description in Hr.
  rewrite strip_idem in Hr.
  destruct (length (strip s) <? 10) eqn:Hlt; [discriminate|].
  injection Hr as <-. apply Nat.ltb_ge in Hlt. eauto.
Qed.

Lemma run_price_valid (data : Payload.t) (v : str) :
  run_price data = Valid v ->
  exists s, Payload.price data = Given s /\ v = strip s
            /\ 1 <= length v <= 30
            /\ exists f, float v = Some f /\ float_le0 f = false.
Proof.
  unfold run_price. intros Hr.
  destruct (CharField_run_validation (Some 30) (Payload.price data))
    as [value|] eqn:Hf; [|discriminate].
  apply CharField_valid in Hf as (s & -> & -> & Hpos & Hmax & _).
  cbn [and_then] in Hr.
  pose proof (validate_price_returns_value _ _ Hr) as ->.
  exists s. specialize (Hmax 30 eq_refl). repeat split; auto.
  apply validate_price_valid_iff. rewrite Hr. reflexivity.
Qed.

Lemma run_is_active_valid (data : Payload.t) (a : option bool) :
  run_is_active data = Valid a ->
  match a with Some b => b | None => false end
  = match Payload.is_active data with Given b => b | _ => false end.
Proof.
  unfold run_is_active, BooleanField_run_validation.
  destruct (Payload.is_active data); try discriminate; intros [= <-];
    reflexivity.
Qed.

(** X7. What a 201 has stored: one new product row, last in the table,
    whose key is the next of the sequence and is the [id] of the
    response; its title, description and price are the submitted texts
    trimmed, of 3 to 155, at least 10 and 1 to 30 code points; its
    references are the submitted identities, its uuid and creation time
    those of the request, and it is inactive unless the payload says
    otherwise. *)
Theorem created_row (st : State) (request : Request) :
  status (snd (ProductCreateView.create st request)) = HTTP_201_CREATED ->
  let st' := fst (ProductCreateView.create st request) in
  let response := snd (ProductCreateView.create st request) in
  let payload := request_data request in
  exists t d p pk_category pk_type,
    Payload.title payload = Given t
    /\ Payload.description payload = Given d
    /\ Payload.price payload = Given p
    /\ Payload.category payload = Given pk_category
    /\ Payload.types_product payload = Given pk_type
    /\ products (db st')
       = products (db st)
         ++ [ Product.mk (product_seq (db st)) (strip t) (strip d)
                pk_category pk_type (strip p) (uuid4 request) (now request)
                (match Payload.is_active payload with
                 | Given b => b
                 | _ => false
                 end) ]
    /\ 3 <= length (strip t) <= 155
    /\ 10 <= length (strip d)
    /\ 1 <= length (strip p) <= 30
    /\ field "id" (data response) = Some (OInt (product_seq (db st))).
Proof.
  intros Hst. cbv zeta.
  destruct (created_inv _ _ Hst) as (vd & Hv & Hfresh & Hlen).
  pose proof (is_valid_inr _ _ _ Hv) as (Ht & Hd & Hc & Hty & Hp & Ha & _).
  apply run_title_valid in Ht as (t & Ht & Htv & Htl).
  apply run_description_valid in Hd as (d & Hd & Hdv & Hdl).
  apply run_price_valid in Hp as (p & Hp & Hpv & Hpl & _).
  apply run_category_valid in Hc as (pkc & Hc & Hgc).
  apply run_types_product_valid in Hty as (pkt & Hty & Hgt).
  apply run_is_active_valid in Ha.
  exists t, d, p, pkc, pkt.
  rewrite (view_create_eq _ _ _ Hv), Hfresh. cbv zeta.
  rewrite Hlen, Nat.eqb_refl.
  cbn [fst snd db data products with_image_rows with_product_row].
  unfold new_row. rewrite Ha, <- Htv, <- Hdv, <- Hpv.
  unfold get_category in Hgc. apply find_some in Hgc as [_ Hgc].
  unfold get_type in Hgt. apply find_some in Hgt as [_ Hgt].
  apply Z.eqb_eq in Hgc, Hgt. rewrite Hgc, Hgt.
  repeat split; auto; lia.
Qed.

End Creation.

(** ** The service as a whole *)

Section Service.
Context `{Platform}.

Import ProductCreateSerializer.

Lemma cache_page_db (timeout : nat) (view : State -> Request -> State * Response) :
  (forall st request, db (fst (view st request)) = db st) ->
  forall st request, db (fst (cache_page timeout view st request)) = db st.
Proof.
  intros Hview st request. unfold cache_page.
  destruct (method request); [|apply Hview].
  destruct (cache_get (now request) (page_key request) (cache st));
    try reflexivity.
  specialize (Hview st request).
  destruct (view st request) as [st' response]. cbn [fst] in *.
  destruct (status response =? HTTP_200_OK); exact Hview.
Qed.

Lemma category_dispatch_db (st : State) (request : Request) :
  db (fst (CategoryAPIView.dispatch st request)) = db st.
Proof.
  unfold CategoryAPIView.dispatch, CategoryAPIView.list,
    CategoryAPIView.get_queryset.
  destruct (method request); [|reflexivity]. cbv zeta.
  destruct (cache_get (now request) "category_list" (cache st)); reflexivity.
Qed.

Lemma types_dispatch_db (st : State) (request : Request) :
  db (fst (TypesAPIView.dispatch st request)) = db st.
Proof.
  unfold TypesAPIView.dispatch. destruct (method request); reflexivity.
Qed.

Lemma product_dispatch_db (st : State) (request : Request) :
  db (fst (ProductAPIView.dispatch st request)) = db st.
Proof.
  unfold ProductAPIView.dispatch, ProductAPIView.list.
  destruct (method request); [|reflexivity]. cbv zeta.
  destruct (cache_get (now request) "product_list" (cache st)); reflexivity.
Qed.

(** Either the store is left as it was, or the request was handled by the
    creation view. *)
Lemma urlpatterns_db (st : State) (request : Request) :
  db (fst (urlpatterns st request)) = db st
  \/ (path request = "product-create" /\ method request = POST
      /\ urlpatterns st request = ProductCreateView.create st request).
Proof.
  unfold urlpatterns.
  destruct (String.eqb (path request) "category-list");
    [left; apply cache_page_db, category_dispatch_db|].
  destruct (String.eqb (path request) "type-list");
    [left; apply cache_page_db, types_dispatch_db|].
  destruct (String.eqb (path request) "product-list");
    [left; apply cache_page_db, product_dispatch_db|].
  destruct (String.eqb (path request) "product-create") eqn:Hp;
    [|left; reflexivity].
  apply String.eqb_eq in Hp.
  unfold ProductCreateView.as_view, ProductCreateView.dispatch.
  destruct (method request); [left; reflexivity|]. right. auto.
Qed.

(** X9. Only [POST product-create] writes to the store: a [GET], a
    request to any other path, and a creation answered 400 all leave every
    table and both sequences as they were. *)
Theorem store_written_only_by_create (st : State) (request : Request) :
  method request = GET \/ path request <> "product-create"
  \/ status (snd (urlpatterns st request)) = HTTP_400_BAD_REQUEST ->
  db (fst (urlpatterns st request)) = db st.
Proof.
  intros Hcase.
  destruct (urlpatterns_db st request) as [Hdb|(Hp & Hm & Heq)]; [exact Hdb|].
  destruct Hcase as [Hget|[Hpath|Hst]]; [congruence | congruence|].
  rewrite Heq in *. unfold ProductCreateView.create in *.
  destruct (is_valid (db st) (request_data request)) as [e|vd]; [reflexivity|].
  destruct (create (db st) vd (uuid4 request) (now request)) as [db' [p|]];
    discriminate Hst.
Qed.

(** *** Consistency of the store under the service *)

Lemma distinct_NoDup {A : Type} (eqb : A -> A -> bool) (l : list A) :
  (forall x y, eqb x y = true <-> x = y) ->
  distinct eqb l = true <-> NoDup l.
Proof.
  intros Heqb. induction l as [|x r IH]; simpl.
  - split; [constructor | reflexivity].
  - rewrite andb_true_iff, negb_true_iff, IH, NoDup_cons.
    assert (Hex : existsb (eqb x) r = false <-> x ∉ r).
    { rewrite list_elem_of_In, <- not_true_iff_false, existsb_exists.
      split; intros Hn Hin; apply Hn.
      - exists x. split; [exact Hin | apply Heqb; reflexivity].
      - destruct Hin as (y & Hy & Hxy). apply Heqb in Hxy. subst. exact Hy. }
    rewrite Hex. reflexivity.
Qed.

Lemma str_eqb_eq (a b : str) : str_eqb a b = true <-> a = b.
Proof.
  unfold str_eqb. destruct (decide (a = b)); split; congruence.
Qed.

Lemma store_consistent_unfold (db : DB) :
  store_consistent db = true <->
  db_wf db = true
  /\ NoDup (List.map Product.id (products db))
  /\ NoDup (List.map ProductImage.id (product_images db))
  /\ NoDup (List.map Product.uuid (products db))
  /\ (forall p, In p (products db) ->
        is_some (get_category db (Product.category p)) = true
        /\ is_some (get_type db (Product.types_product p)) = true)
  /\ (forall t, In t (types db) ->
        is_some (get_category db (Types.category t)) = true).
Proof.
  unfold store_consistent. rewrite !andb_true_iff, !forallb_forall.
  rewrite !(distinct_NoDup Z.eqb) by apply Z.eqb_eq.
  rewrite (distinct_NoDup str_eqb) by apply str_eqb_eq.
  split.
  - intros (((((Hwf & Hp) & Hi) & Hu) & Hfk) & Ht).
    repeat split; auto; apply Hfk in H0; apply andb_prop in H0; tauto.
  - intros (Hwf & Hp & Hi & Hu & Hfk & Ht).
    repeat split; auto. intros p Hp'. apply andb_true_intro. auto.
Qed.

Lemma db_wf_product_id (db : DB) (p : Product.t) :
  db_wf db = true -> In p (products db) -> (Product.id p < product_seq db)%Z.
Proof.
  unfold db_wf. intros Hwf Hin. apply andb_prop in Hwf as [Hp _].
  rewrite forallb_forall in Hp. specialize (Hp p Hin).
  apply Z.ltb_lt in Hp. exact Hp.
Qed.

Lemma db_wf_image_id (db : DB) (i : ProductImage.t) :
  db_wf db = true -> In i (product_images db) ->
  (ProductImage.id i < image_seq db)%Z.
Proof.
  unfold db_wf. intros Hwf Hin. apply andb_prop in Hwf as [_ Hi].
  rewrite forallb_forall in Hi. specialize (Hi i Hin).
  apply andb_prop in Hi as [Hi _]. apply Z.ltb_lt in Hi. exact Hi.
Qed.

Lemma NoDup_image_rows (pk : Z) (names : list str) (seq : Z) :
  NoDup (List.map ProductImage.id (image_rows seq pk names)).
Proof.
  revert seq. induction names as [|n r IH]; intros seq; simpl; constructor.
  - rewrite list_elem_of_In, in_map_iff. intros (i & Hid & Hin).
    apply image_rows_in in Hin as [Hrange _]. lia.
  - apply IH.
Qed.

Lemma store_consistent_created (db : DB) (r : Product.t) (names : list str) :
  store_consistent db = true ->
  Product.id r = product_seq db ->
  uuid_taken db (Product.uuid r) = false ->
  is_some (get_category db (Product.category r)) = true ->
  is_some (get_type db (Product.types_product r)) = true ->
  store_consistent
    (with_image_rows (with_product_row db r) (product_seq db) names) = true.
Proof.
  rewrite !store_consistent_unfold.
  intros (Hwf & Hp & Hi & Hu & Hfk & Ht) Hid Huuid Hc Hty.
  split; [apply db_wf_created; assumption|].
  cbn [products product_images types with_image_rows with_product_row image_seq].
  rewrite !map_app. cbn [List.map].
  split; [|split; [|split; [|split]]].
  - apply NoDup_app. split; [exact Hp|]. split; [|repeat constructor; apply not_elem_of_nil].
    intros x Hx Hx'. apply list_elem_of_In in Hx, Hx'.
    apply in_map_iff in Hx as (p & <- & Hin).
    pose proof (db_wf_product_id db p Hwf Hin).
    destruct Hx' as [Heq|[]]. lia.
  - apply NoDup_app. split; [exact Hi|]. split; [|apply NoDup_image_rows].
    intros x Hx Hx'. apply list_elem_of_In in Hx, Hx'.
    apply in_map_iff in Hx as (i & <- & Hin).
    pose proof (db_wf_image_id db i Hwf Hin).
    apply in_map_iff in Hx' as (j & Heq & Hj).
    apply image_rows_in in Hj as [Hrange _]. lia.
  - apply NoDup_app. split; [exact Hu|]. split; [|repeat constructor; apply not_elem_of_nil].
    intros x Hx Hx'. apply list_elem_of_In in Hx, Hx'.
    apply in_map_iff in Hx as (p & <- & Hin).
    destruct Hx' as [Heq|[]].
    unfold uuid_taken in Huuid. apply not_true_iff_false in Huuid.
    apply Huuid. apply existsb_exists. exists p. split; [exact Hin|].
    apply str_eqb_eq. congruence.
  - intros p Hin. unfold get_category, get_type in *.
    cbn [categories types with_image_rows with_product_row].
    apply in_app_iff in Hin as [Hin|[<-|[]]]; auto.
  - intros t Hin. unfold get_category in *.
    cbn [categories with_image_rows with_product_row]. auto.
Qed.

Lemma create_preserves_consistent (st : State) (request : Request) :
  store_consistent (db st) = true ->
  store_consistent (db (fst (ProductCreateView.create st request))) = true.
Proof.
  intros Hc.
  destruct (is_valid (db st) (request_data request)) as [e|vd] eqn:Hv.
  - unfold ProductCreateView.create. rewrite Hv. exact Hc.
  - rewrite (view_create_eq _ _ _ Hv).
    destruct (uuid_taken (db st) (uuid4 request)) eqn:Hu; [exact Hc|].
    pose proof (is_valid_inr _ _ _ Hv) as (_ & _ & Hcat & Hty & _).
    apply run_category_valid in Hcat as (pkc & _ & Hcat).
    apply run_types_product_valid in Hty as (pkt & _ & Hty).
    apply get_category_id in Hcat. apply get_type_id in Hty.
    cbv zeta.
    destruct (length (saved_prefix (stored_files (db st)) (images_data vd)) =? length (images_data vd));
      cbn [fst db]; apply store_consistent_created; auto;
      cbn [new_row Product.category Product.types_product];
      rewrite ?Hcat, ?Hty; reflexivity.
Qed.

Lemma serve_cons_state (st : State) (request : Request) (rest : list Request) :
  fst (serve st (request :: rest))
  = fst (serve (fst (urlpatterns st request)) rest).
Proof.
  cbn [serve]. destruct (urlpatterns st request) as [st1 resp]. cbn [fst].
  destruct (serve st1 rest) as [st2 resps]. reflexivity.
Qed.

(** X8. The service keeps the store consistent: whatever requests it
    serves, primary keys stay below their sequences and unique, uuids
    stay unique, every image references an existing product, every
    product an existing category and an existing type. *)
Theorem serve_keeps_store_consistent (requests : list Request) (st : State) :
  store_consistent (db st) = true ->
  store_consistent (db (fst (serve st requests))) = true.
Proof.
  revert st. induction requests as [|r rest IH]; intros st Hc; [exact Hc|].
  cbn [serve].
  assert (Hstep : store_consistent (db (fst (urlpatterns st r))) = true).
  { destruct (urlpatterns_db st r) as [Hdb|(_ & _ & Heq)].
    - rewrite Hdb. exact Hc.
    - rewrite Heq. apply create_preserves_consistent. exact Hc. }
  destruct (urlpatterns st r) as [st1 resp]. cbn [fst] in Hstep.
  specialize (IH st1 Hstep).
  destruct (serve st1 rest) as [st2 resps]. exact IH.
Qed.

(** *** The order of the image table *)

Lemma increasing_app (l r : list Z) :
  increasing l = true -> increasing r = true ->
  (forall x y, In x l -> In y r -> (x < y)%Z) ->
  increasing (l ++ r) = true.
Proof.
  intros Hl Hr Hlr. induction l as [|x l IH]; [exact Hr|].
  apply increasing_cons in Hl as [Hall Hl].
  change ((x :: l) ++ r) with (x :: (l ++ r)). apply increasing_cons. split.
  - intros y Hy. apply in_app_iff in Hy as [Hy|Hy];
      [apply Hall; exact Hy | apply Hlr; [left; reflexivity | exact Hy]].
  - apply IH; [exact Hl|]. intros a b Ha Hb. apply Hlr; [right|]; assumption.
Qed.

Lemma key_order_created (db : DB) (r : Product.t) (names : list str) :
  db_wf db = true -> images_in_key_order db = true ->
  images_in_key_order
    (with_image_rows (with_product_row db r) (product_seq db) names) = true.
Proof.
  intros Hwf Hord. unfold images_in_key_order.
  cbn [product_images with_image_rows with_product_row image_seq].
  rewrite List.map_app. apply increasing_app.
  - exact Hord.
  - apply increasing_image_rows.
  - intros x y Hx Hy.
    apply in_map_iff in Hx as (i & <- & Hi).
    apply in_map_iff in Hy as (j & <- & Hj).
    pose proof (db_wf_image_id _ _ Hwf Hi).
    apply image_rows_in in Hj as [Hrange _]. lia.
Qed.

Lemma urlpatterns_preserves_consistent (st : State) (request : Request) :
  store_consistent (db st) = true ->
  store_consistent (db (fst (urlpatterns st request))) = true.
Proof.
  intros Hc. destruct (urlpatterns_db st request) as [Hdb|(_ & _ & Heq)].
  - rewrite Hdb. exact Hc.
  - rewrite Heq. apply create_preserves_consistent. exact Hc.
Qed.

Lemma create_preserves_key_order (st : State) (request : Request) :
  db_wf (db st) = true -> images_in_key_order (db st) = true ->
  images_in_key_order (db (fst (ProductCreateView.create st request))) = true.
Proof.
  intros Hwf Hord.
  destruct (is_valid (db st) (request_data request)) as [e|vd] eqn:Hv.
  - unfold ProductCreateView.create. rewrite Hv. exact Hord.
  - rewrite (view_create_eq _ _ _ Hv).
    destruct (uuid_taken (db st) (uuid4 request)); [exact Hord|].
    cbv zeta.
    destruct (length (saved_prefix (stored_files (db st)) (images_data vd))
              =? length (images_data vd));
      cbn [fst db]; apply key_order_created; assumption.
Qed.

(** The service keeps the image table in the order of its primary keys,
    which is the order in which the rows were inserted. *)
Lemma serve_keeps_key_order (requests : list Request) (st : State) :
  store_consistent (db st) = true -> images_in_key_order (db st) = true ->
  images_in_key_order (db (fst (serve st requests))) = true.
Proof.
  revert st. induction requests as [|r rest IH]; intros st Hc Hord;
    [exact Hord|].
  rewrite serve_cons_state.
  apply IH; [apply urlpatterns_preserves_consistent; exact Hc|].
  destruct (urlpatterns_db st r) as [Hdb|(_ & _ & Heq)].
  - rewrite Hdb. exact Hord.
  - rewrite Heq. apply create_preserves_key_order; [|exact Hord].
    apply store_consistent_unfold in Hc. apply Hc.
Qed.

(** *** The querysets *)

Lemma sublist_map {A B : Type} (f : A -> B) (l k : list A) :
  sublist l k -> sublist (List.map f l) (List.map f k).
Proof.
  induction 1; simpl; [constructor | apply sublist_skip | apply sublist_cons];
    assumption.
Qed.

(** X12. On a missing or expired entry the product-list handler lists
    products of the store in table order, leaving out those whose
    category or type does not resolve; on a consistent store it lists
    every product exactly once. *)
Theorem product_list_lists_products (st : State) (request : Request) :
  cache_get (now request) "product_list" (cache st) = ONone ->
  let listed := listed_ids (data (snd (ProductAPIView.list st request))) in
  sublist listed (List.map Product.id (products (db st)))
  /\ (store_consistent (db st) = true ->
      listed = List.map Product.id (products (db st)) /\ NoDup listed).
Proof.
  intros Hmiss. cbv zeta. rewrite (product_list_miss _ _ Hmiss).
  cbn [snd]. unfold ProductAPIView.super_list. cbn [data].
  rewrite listed_ids_products.
  destruct (product_queryset_rows (db st)) as [Hsub Heq].
  rewrite <- (map_map row Product.id). split.
  - apply sublist_map. exact Hsub.
  - intros Hc. apply store_consistent_unfold in Hc
      as (_ & Hnd & _ & _ & Hfk & _).
    rewrite (Heq Hfk). split; [reflexivity | exact Hnd].
Qed.

Lemma types_queryset_rows (db : DB) :
  sublist (List.map fst (TypesAPIView.get_queryset db)) (types db)
  /\ ((forall t, In t (types db) ->
         is_some (get_category db (Types.category t)) = true) ->
      List.map fst (TypesAPIView.get_queryset db) = types db).
Proof.
  unfold TypesAPIView.get_queryset.
  induction (types db) as [|t r [IHs IHe]]; [split; [constructor | reflexivity]|].
  cbn [flat_map]. split.
  - destruct (get_category db (Types.category t)); cbn [app List.map fst];
      first [apply sublist_skip; exact IHs | apply sublist_cons; exact IHs].
  - intros Hall. pose proof (Hall t (or_introl eq_refl)) as Hc.
    destruct (get_category db (Types.category t)); [|discriminate Hc].
    cbn [app List.map fst]. f_equal. apply IHe.
    intros q Hq. apply Hall. right. exact Hq.
Qed.

(** X15. The type-list handler changes nothing and answers 200 with one
    object per type of its queryset; every type of the queryset comes
    with the category row its foreign key names, whose title is the
    [category_title] shown; types whose category does not resolve are
    left out, and on a consistent store every type is listed, in table
    order. *)
Theorem types_list_joined (st : State) (request : Request) :
  TypesAPIView.list st request
  = (st, {| status := HTTP_200_OK;
            data := OList (List.map TypesSerializer.to_representation
                             (TypesAPIView.get_queryset (db st))) |})
  /\ (forall t c, In (t, c) (TypesAPIView.get_queryset (db st)) ->
        In t (types (db st)) /\ In c (categories (db st))
        /\ Category.id c = Types.category t
        /\ field "category_title" (TypesSerializer.to_representation (t, c))
           = Some (OStr (Category.title c)))
  /\ sublist (List.map fst (TypesAPIView.get_queryset (db st))) (types (db st))
  /\ (store_consistent (db st) = true ->
      List.map fst (TypesAPIView.get_queryset (db st)) = types (db st)).
Proof.
  split; [reflexivity|]. split.
  - intros t c Hin. unfold TypesAPIView.get_queryset in Hin.
    apply in_flat_map in Hin as (t' & Ht & Hin).
    destruct (get_category (db st) (Types.category t')) as [c'|] eqn:Hc;
      [|destruct Hin].
    destruct Hin as [[= <- <-]|[]].
    unfold get_category in Hc. apply find_some in Hc as [Hc Hid].
    apply Z.eqb_eq in Hid. auto.
  - destruct (types_queryset_rows (db st)) as [Hsub Heq].
    split; [exact Hsub|]. intros Hc.
    apply store_consistent_unfold in Hc as (_ & _ & _ & _ & _ & Ht).
    apply Heq. exact Ht.
Qed.

(** *** The first image among the images *)

Lemma first_by_pk_least (l : list ProductImage.t) :
  match first_by_pk l with
  | Some x => In x l /\ forall y, In y l -> (ProductImage.id x <= ProductImage.id y)%Z
  | None => l = []
  end.
Proof.
  induction l as [|x r IH]; [reflexivity|]. simpl.
  destruct (first_by_pk r) as [y|].
  - destruct IH as [Hin Hmin].
    destruct (ProductImage.id y <? ProductImage.id x)%Z eqn:Hlt.
    + apply Z.ltb_lt in Hlt. split; [right; exact Hin|].
      intros z [<-|Hz]; [lia | apply Hmin; exact Hz].
    + apply Z.ltb_ge in Hlt. split; [left; reflexivity|].
      intros z [<-|Hz]; [lia | specialize (Hmin z Hz); lia].
  - subst r. split; [left; reflexivity|]. intros z [<-|[]]. lia.
Qed.

Lemma get_queryset_loaded_images (db : DB) (obj : ProductObj) :
  ProductAPIView.get_queryset db = [obj] ->
  ProductSerializer.images_all db obj = images_of db (Product.id (row obj)).
Proof.
  intros Hq. unfold ProductSerializer.images_all.
  destruct (get_queryset_loaded db obj) as (_ & _ & _ & ->); [|reflexivity].
  rewrite Hq. left. reflexivity.
Qed.

(** X14. In a product's representation whose images are those of the
    store, [first_image] is null when the product has no image, and
    otherwise is the [image_url] of the listed image with the least
    primary key; in every image's representation the fields [image] and
    [image_url] hold the same value. *)
Theorem first_image_among_images (context : option Request) (db : DB)
    (obj : ProductObj) :
  ProductSerializer.images_all db obj = images_of db (Product.id (row obj)) ->
  let r := ProductSerializer.to_representation context db obj in
  let shown :=
    List.map (ProductImageSerializer.to_representation context)
      (images_of db (Product.id (row obj))) in
  field "images" r = Some (OList shown)
  /\ match images_of db (Product.id (row obj)) with
     | [] => field "first_image" r = Some ONone
     | _ :: _ =>
         exists img,
           In img (images_of db (Product.id (row obj)))
           /\ (forall other, In other (images_of db (Product.id (row obj))) ->
                 (ProductImage.id img <= ProductImage.id other)%Z)
           /\ In (ProductImageSerializer.to_representation context img) shown
           /\ field "first_image" r
              = field "image_url"
                  (ProductImageSerializer.to_representation context img)
     end
  /\ (forall img,
        field "image" (ProductImageSerializer.to_representation context img)
        = field "image_url" (ProductImageSerializer.to_representation context img)).
Proof.
  intros Hall. cbv zeta. split; [|split].
  - unfold ProductSerializer.to_representation, field.
    cbn [dict_get String.eqb Ascii.eqb Bool.eqb]. rewrite Hall. reflexivity.
  - unfold ProductSerializer.to_representation, field.
    cbn [dict_get String.eqb Ascii.eqb Bool.eqb].
    unfold ProductSerializer.get_first_image.
    pose proof (first_by_pk_least (images_of db (Product.id (row obj)))) as Hf.
    destruct (images_of db (Product.id (row obj))) as [|i l] eqn:Himgs.
    + reflexivity.
    + destruct (first_by_pk (i :: l)) as [img|]; [|discriminate Hf].
      destruct Hf as [Hin Hmin]. exists img.
      split; [exact Hin|]. split; [exact Hmin|].
      split; [apply in_map; exact Hin|]. reflexivity.
  - intros img. reflexivity.
Qed.

(** *** Requests the views do not serve *)

(** X16. A request to an unknown path is answered 404, a [POST] to a
    list path and a [GET] to the creation path are answered 405; in each
    case store and cache stay as they were, so nothing enters the
    response cache. *)
Theorem unserved_requests_change_nothing (st : State) (request : Request) :
  (~ In (path request)
        ["category-list"; "type-list"; "product-list"; "product-create"] ->
   fst (urlpatterns st request) = st
   /\ status (snd (urlpatterns st request)) = HTTP_404_NOT_FOUND)
  /\ (In (path request) ["category-list"; "type-list"; "product-list"] ->
      method request = POST ->
      fst (urlpatterns st request) = st
      /\ status (snd (urlpatterns st request)) = HTTP_405_METHOD_NOT_ALLOWED)
  /\ (path request = "product-create" -> method request = GET ->
      fst (urlpatterns st request) = st
      /\ status (snd (urlpatterns st request)) = HTTP_405_METHOD_NOT_ALLOWED).
Proof.
  unfold urlpatterns. split; [|split].
  - intros Hnot.
    repeat match goal with
    | |- context [String.eqb (path request) ?p] =>
        destruct (String.eqb_spec (path request) p) as [Heq|_];
        [exfalso; apply Hnot; rewrite Heq; simpl; tauto|]
    end. auto.
  - intros Hin Hm.
    unfold CategoryAPIView.as_view, TypesAPIView.as_view, ProductAPIView.as_view,
      cache_page, CategoryAPIView.dispatch, TypesAPIView.dispatch,
      ProductAPIView.dispatch.
    rewrite Hm.
    repeat (destruct Hin as [<-|Hin]; [cbn; auto|]). destruct Hin.
  - intros -> Hm. cbn.
    unfold ProductCreateView.as_view, ProductCreateView.dispatch.
    rewrite Hm. auto.
Qed.

(** *** The response cache around the list views *)

Lemma cache_page_miss (timeout : nat) (view : State -> Request -> State * Response)
    (st : State) (request : Request) :
  method request = GET ->
  cache_get (now request) (page_key request) (cache st) = ONone ->
  status (snd (view st request)) = HTTP_200_OK ->
  cache_page timeout view st request
  = (set_cache (fst (view st request))
       (<[page_key request :=
            (OResponse (status (snd (view st request)))
               (data (snd (view st request))), now request + timeout)]>
          (cache (fst (view st request)))),
     snd (view st request)).
Proof.
  intros Hm Hmiss Hst. unfold cache_page. rewrite Hm, Hmiss.
  destruct (view st request) as [st' response]. cbn [fst snd] in *.
  rewrite Hst. reflexivity.
Qed.

Lemma cache_page_hit (timeout : nat) (view : State -> Request -> State * Response)
    (st : State) (request : Request) (s : nat) (d : pyobj) :
  method request = GET ->
  cache_get (now request) (page_key request) (cache st) = OResponse s d ->
  cache_page timeout view st request = (st, {| status := s; data := d |}).
Proof. intros Hm Hhit. unfold cache_page. rewrite Hm, Hhit. reflexivity. Qed.

Lemma cache_page_replay (timeout : nat)
    (view : State -> Request -> State * Response)
    (st : State) (request request2 : Request) (db2 : DB) :
  method request = GET -> method request2 = GET ->
  page_key request2 = page_key request ->
  cache_get (now request) (page_key request) (cache st) = ONone ->
  status (snd (view st request)) = HTTP_200_OK ->
  now request2 < now request + timeout ->
  cache_page timeout view
    {| db := db2; cache := cache (fst (cache_page timeout view st request)) |}
    request2
  = ({| db := db2; cache := cache (fst (cache_page timeout view st request)) |},
     snd (cache_page timeout view st request)).
Proof.
  intros Hm Hm2 Hkey Hmiss Hst Hlt.
  rewrite (cache_page_miss _ _ _ _ Hm Hmiss Hst). cbn [fst snd set_cache cache].
  destruct (snd (view st request)) as [s d] eqn:Hresp. cbn [status data].
  apply cache_page_hit; [exact Hm2|]. cbn [cache]. rewrite Hkey.
  eapply cache_get_live; [apply lookup_insert_eq | exact Hlt].
Qed.

Lemma category_dispatch_get (st : State) (request : Request) :
  method request = GET ->
  snd (CategoryAPIView.dispatch st request)
  = {| status := HTTP_200_OK;
       data := OList (List.map (CategorySerializer.to_representation (Some request))
                        (categories (db st))) |}.
Proof.
  intros Hm. unfold CategoryAPIView.dispatch, CategoryAPIView.list,
    CategoryAPIView.get_queryset. rewrite Hm. cbv zeta.
  destruct (cache_get (now request) "category_list" (cache st)); reflexivity.
Qed.

Lemma types_dispatch_get (st : State) (request : Request) :
  method request = GET ->
  snd (TypesAPIView.dispatch st request)
  = {| status := HTTP_200_OK;
       data := OList (List.map TypesSerializer.to_representation
                        (TypesAPIView.get_queryset (db st))) |}.
Proof. intros Hm. unfold TypesAPIView.dispatch. rewrite Hm. reflexivity. Qed.

Lemma product_dispatch_get_status (st : State) (request : Request) :
  method request = GET ->
  status (snd (ProductAPIView.dispatch st request)) = HTTP_200_OK.
Proof.
  intros Hm. unfold ProductAPIView.dispatch, ProductAPIView.list.
  rewrite Hm. cbv zeta.
  destruct (cache_get (now request) "product_list" (cache st)); reflexivity.
Qed.

Lemma page_key_eq (request request2 : Request) :
  path request2 = path request -> vary request2 = vary request ->
  page_key request2 = page_key request.
Proof. intros Hp Hv. unfold page_key. rewrite Hp, Hv. reflexivity. Qed.

(** **** What a request leaves of the other entries *)

Lemma cache_page_keeps (timeout : nat)
    (view : State -> Request -> State * Response)
    (st : State) (request : Request) (k : string) :
  cache (fst (view st request)) !! k = cache st !! k ->
  (method request = GET -> page_key request = k ->
   cache_get (now request) k (cache st) <> ONone) ->
  cache (fst (cache_page timeout view st request)) !! k = cache st !! k.
Proof.
  intros Hview Hlive. unfold cache_page.
  destruct (method request) eqn:Hm; [|exact Hview].
  destruct (cache_get (now request) (page_key request) (cache st)) eqn:Hget;
    try reflexivity.
  destruct (view st request) as [st' response]. cbn [fst] in Hview.
  destruct (status response =? HTTP_200_OK); [|exact Hview].
  cbn [fst set_cache cache]. unfold cache_set.
  destruct (decide (page_key request = k)) as [Hk|Hk].
  - subst k. destruct (Hlive eq_refl eq_refl Hget).
  - rewrite lookup_insert_ne by exact Hk. exact Hview.
Qed.

Lemma category_dispatch_cache (st : State) (request : Request) (k : string) :
  k <> "category_list" ->
  cache (fst (CategoryAPIView.dispatch st request)) !! k = cache st !! k.
Proof.
  intros Hk. unfold CategoryAPIView.dispatch, CategoryAPIView.list,
    CategoryAPIView.get_queryset.
  destruct (method request); [|reflexivity]. cbv zeta.
  destruct (cache_get (now request) "category_list" (cache st));
    try reflexivity.
  cbn [fst set_cache cache]. unfold cache_set.
  apply lookup_insert_ne. congruence.
Qed.

Lemma types_dispatch_cache (st : State) (request : Request) :
  cache (fst (TypesAPIView.dispatch st request)) = cache st.
Proof.
  unfold TypesAPIView.dispatch. destruct (method request); reflexivity.
Qed.

Lemma product_dispatch_cache (st : State) (request : Request) (k : string) :
  k <> "product_list" ->
  cache (fst (ProductAPIView.dispatch st request)) !! k = cache st !! k.
Proof.
  intros Hk. unfold ProductAPIView.dispatch, ProductAPIView.list.
  destruct (method request); [|reflexivity]. cbv zeta.
  destruct (cache_get (now request) "product_list" (cache st));
    try reflexivity.
  cbn [fst set_cache cache]. unfold cache_set.
  apply lookup_insert_ne. congruence.
Qed.

(** The creation view deletes [product_list] or leaves the cache alone. *)
Lemma create_dispatch_cache (st : State) (request : Request) :
  cache (fst (ProductCreateView.dispatch st request)) = cache st
  \/ cache (fst (ProductCreateView.dispatch st request))
     = cache_delete "product_list" (cache st).
Proof.
  unfold ProductCreateView.dispatch, ProductCreateView.create.
  destruct (method request); [left; reflexivity|].
  destruct (is_valid (db st) (request_data request)) as [e|vd];
    [left; reflexivity|].
  destruct (create (db st) vd (uuid4 request) (now request)) as [db' [p|]];
    [right | left]; reflexivity.
Qed.

(** A request leaves the entry of a response-cache key as it found it,
    unless it is a [GET] with that key that finds no live entry. *)
Lemma urlpatterns_keeps_page_entry (st : State) (request q : Request) :
  (method request = GET -> page_key request = page_key q ->
   cache_get (now request) (page_key q) (cache st) <> ONone) ->
  cache (fst (urlpatterns st request)) !! page_key q = cache st !! page_key q.
Proof.
  intros Hlive. unfold urlpatterns.
  destruct (String.eqb (path request) "category-list").
  { apply cache_page_keeps; [|exact Hlive].
    apply category_dispatch_cache, page_key_not_category_list. }
  destruct (String.eqb (path request) "type-list").
  { apply cache_page_keeps; [|exact Hlive].
    rewrite types_dispatch_cache. reflexivity. }
  destruct (String.eqb (path request) "product-list").
  { apply cache_page_keeps; [|exact Hlive].
    apply product_dispatch_cache, page_key_not_product_list. }
  destruct (String.eqb (path request) "product-create"); [|reflexivity].
  unfold ProductCreateView.as_view.
  destruct (create_dispatch_cache st request) as [-> | ->]; [reflexivity|].
  apply lookup_delete_ne. intros Heq. symmetry in Heq.
  exact (page_key_not_product_list _ Heq).
Qed.

(** A live entry of the response cache outlasts every sequence of
    requests in which the [GET]s with its key come before it expires. *)
Lemma serve_keeps_page_entry (between : list Request) (st : State)
    (q : Request) (v : pyobj) (expires : nat) :
  cache st !! page_key q = Some (v, expires) -> v <> ONone ->
  Forall (fun r => method r = GET -> page_key r = page_key q ->
                   now r < expires) between ->
  cache (fst (serve st between)) !! page_key q = Some (v, expires).
Proof.
  intros Hk Hv. revert st Hk.
  induction between as [|r rest IH]; intros st Hk Hall; [exact Hk|].
  rewrite serve_cons_state. apply Forall_cons in Hall as [Hr Hrest].
  apply IH; [|exact Hrest].
  rewrite urlpatterns_keeps_page_entry; [exact Hk|].
  intros Hm Hkey. rewrite (cache_get_live _ _ _ _ _ Hk (Hr Hm Hkey)).
  exact Hv.
Qed.

(** The entry a list endpoint writes when it answers from its view. *)
Lemma list_entry_written (st : State) (request : Request) :
  In (path request) ["category-list"; "type-list"; "product-list"] ->
  method request = GET ->
  cache_get (now request) (page_key request) (cache st) = ONone ->
  cache (fst (urlpatterns st request)) !! page_key request
  = Some (OResponse (status (snd (urlpatterns st request)))
            (data (snd (urlpatterns st request))),
          now request + page_timeout (path request)).
Proof.
  intros Hin Hm Hmiss. unfold urlpatterns.
  destruct Hin as [Hpath|[Hpath|[Hpath|[]]]]; rewrite <- Hpath in *;
    cbn [String.eqb Ascii.eqb Bool.eqb] in *.
  - unfold CategoryAPIView.as_view.
    rewrite (cache_page_miss _ _ st request Hm Hmiss)
      by (rewrite (category_dispatch_get _ _ Hm); reflexivity).
    apply lookup_insert_eq.
  - unfold TypesAPIView.as_view.
    rewrite (cache_page_miss _ _ st request Hm Hmiss)
      by (rewrite (types_dispatch_get _ _ Hm); reflexivity).
    apply lookup_insert_eq.
  - unfold ProductAPIView.as_view.
    rewrite (cache_page_miss _ _ st request Hm Hmiss)
      by (apply product_dispatch_get_status; exact Hm).
    apply lookup_insert_eq.
Qed.

(** The entry [product_list] is left alone or deleted by every request
    to another path than the product list. *)
Lemma urlpatterns_product_list_entry (st : State) (request : Request) :
  path request <> "product-list" ->
  cache (fst (urlpatterns st request)) !! "product_list"
  = cache st !! "product_list"
  \/ cache (fst (urlpatterns st request)) !! "product_list" = None.
Proof.
  intros Hpath. unfold urlpatterns.
  destruct (String.eqb (path request) "category-list").
  { left. apply cache_page_keeps.
    - apply category_dispatch_cache. discriminate.
    - intros _ Hk. destruct (page_key_not_product_list _ Hk). }
  destruct (String.eqb (path request) "type-list").
  { left. apply cache_page_keeps.
    - rewrite types_dispatch_cache. reflexivity.
    - intros _ Hk. destruct (page_key_not_product_list _ Hk). }
  destruct (String.eqb (path request) "product-list") eqn:Hp.
  { apply String.eqb_eq in Hp. contradiction. }
  destruct (String.eqb (path request) "product-create");
    [|left; reflexivity].
  unfold ProductCreateView.as_view.
  destruct (create_dispatch_cache st request) as [-> | ->];
    [left; reflexivity|].
  right. apply lookup_delete_eq.
Qed.

Lemma serve_product_list_entry (between : list Request) (st : State)
    (t : nat) :
  Forall (fun r => path r <> "product-list") between ->
  (forall v expires,
      cache st !! "product_list" = Some (v, expires) -> expires <= t) ->
  cache_get t "product_list" (cache (fst (serve st between))) = ONone.
Proof.
  revert st. induction between as [|r rest IH]; intros st Hall Hold.
  - cbn [serve fst]. unfold cache_get.
    destruct (cache st !! "product_list") as [[v e]|] eqn:Hk; [|reflexivity].
    specialize (Hold v e eq_refl). apply Nat.ltb_ge in Hold.
    rewrite Hold. reflexivity.
  - rewrite serve_cons_state. apply Forall_cons in Hall as [Hr Hrest].
    apply IH; [exact Hrest|]. intros v e Hk.
    destruct (urlpatterns_product_list_entry st r Hr) as [Heq|Heq];
      rewrite Heq in Hk; [exact (Hold v e Hk) | discriminate Hk].
Qed.


(** X11. Once that timeout has passed, the next [GET] for the same path
    and identity is answered by the view again, whatever requests were
    served in between: with the categories of the store as it is then,
    with its types and their categories, or, for the products, with the
    live entry [product_list] when there is one and the products of the
    store as it is then otherwise. There is no such entry when it was
    missing at the first request and no request in between was for the
    product list. *)
Theorem list_response_recomputed (st : State) (request request2 : Request)
    (between : list Request) (db2 : DB) :
  In (path request) ["category-list"; "type-list"; "product-list"] ->
  method request = GET -> method request2 = GET ->
  path request2 = path request -> vary request2 = vary request ->
  cache_get (now request) (page_key request) (cache st) = ONone ->
  Forall (fun r => method r = GET -> page_key r = page_key request ->
                   now r < now request + page_timeout (path request))
    between ->
  now request + page_timeout (path request) <= now request2 ->
  let st1 := fst (urlpatterns st request) in
  let st2 := {| db := db2; cache := cache (fst (serve st1 between)) |} in
  snd (urlpatterns st2 request2)
  = {| status := HTTP_200_OK;
       data :=
         if String.eqb (path request) "category-list" then
           OList (List.map (CategorySerializer.to_representation (Some request2))
                    (categories db2))
         else if String.eqb (path request) "type-list" then
           OList (List.map TypesSerializer.to_representation
                    (TypesAPIView.get_queryset db2))
         else
           match cache_get (now request2) "product_list" (cache st2) with
           | ONone =>
               OList (List.map
                        (ProductSerializer.to_representation (Some request2) db2)
                        (ProductAPIView.get_queryset db2))
           | cached => cached
           end |}
  /\ (path request = "product-list" ->
      cache_get (now request) "product_list" (cache st) = ONone ->
      Forall (fun r => path r <> "product-list") between ->
      cache_get (now request2) "product_list" (cache st2) = ONone).
Proof.
  intros Hin Hm Hm2 Hp Hv Hmiss Hall Hle. cbv zeta.
  pose proof (page_key_eq _ _ Hp Hv) as Hkey.
  pose proof (list_entry_written _ _ Hin Hm Hmiss) as Hentry.
  pose proof (serve_keeps_page_entry between _ request _ _ Hentry
                ltac:(discriminate) Hall) as Hkept.
  assert (Hget : cache_get (now request2) (page_key request2)
                   (cache {| db := db2;
                             cache := cache (fst (serve (fst (urlpatterns st request))
                                                    between)) |})
                 = ONone).
  { cbn [cache]. rewrite Hkey.
    eapply cache_get_expired; [exact Hkept | exact Hle]. }
  split.
  - unfold urlpatterns at 1. rewrite Hp.
    destruct Hin as [Hpath|[Hpath|[Hpath|[]]]]; rewrite <- Hpath;
      cbn [String.eqb Ascii.eqb Bool.eqb].
    + unfold CategoryAPIView.as_view.
      rewrite (cache_page_miss _ _ _ _ Hm2 Hget)
        by (rewrite (category_dispatch_get _ _ Hm2); reflexivity).
      cbn [snd]. apply category_dispatch_get. exact Hm2.
    + unfold TypesAPIView.as_view.
      rewrite (cache_page_miss _ _ _ _ Hm2 Hget)
        by (rewrite (types_dispatch_get _ _ Hm2); reflexivity).
      cbn [snd]. apply types_dispatch_get. exact Hm2.
    + unfold ProductAPIView.as_view.
      rewrite (cache_page_miss _ _ _ _ Hm2 Hget)
        by (apply product_dispatch_get_status; exact Hm2).
      cbn [snd]. unfold ProductAPIView.dispatch, ProductAPIView.list.
      rewrite Hm2. cbv zeta. cbn [cache db].
      destruct (cache_get (now request2) "product_list"
                  (cache (fst (serve (fst (urlpatterns st request)) between))));
        reflexivity.
  - intros Hpath Hinner Hothers. cbn [cache].
    apply serve_product_list_entry; [exact Hothers|].
    intros v e. unfold urlpatterns. rewrite Hpath.
    cbn [String.eqb Ascii.eqb Bool.eqb]. unfold ProductAPIView.as_view.
    rewrite (cache_page_miss _ _ st request Hm Hmiss)
      by (apply product_dispatch_get_status; exact Hm).
    cbn [fst set_cache cache].
    rewrite lookup_insert_ne
      by (intros Heq; exact (page_key_not_product_list _ Heq)).
    unfold ProductAPIView.dispatch. rewrite Hm.
    rewrite (product_list_miss _ _ Hinner).
    cbn [fst set_cache cache]. rewrite lookup_insert_eq.
    intros [= _ <-]. rewrite Hpath in Hle. exact Hle.
Qed.

(** *** The entry written by the category view *)

(** X17. [CategoryAPIView.get_queryset] returns the categories of the
    store and writes nothing but the cache entry [category_list]: a live
    entry is left alone; a missing or expired one is replaced by the
    column values of all categories with expiry 15 minutes ahead, after
    which further calls within that time change nothing. *)
Theorem category_queryset_effect (st : State) (request : Request) :
  let st' := fst (CategoryAPIView.get_queryset st request) in
  snd (CategoryAPIView.get_queryset st request) = categories (db st)
  /\ db st' = db st
  /\ (forall k : string, k <> "category_list" -> cache st' !! k = cache st !! k)
  /\ (cache_get (now request) "category_list" (cache st) <> ONone -> st' = st)
  /\ (cache_get (now request) "category_list" (cache st) = ONone ->
      cache st' !! "category_list"
      = Some (OList (List.map CategoryAPIView.values (categories (db st))),
              now request + 60 * 15)
      /\ forall request2,
           now request2 < now request + 60 * 15 ->
           CategoryAPIView.get_queryset st' request2 = (st', categories (db st))).
Proof.
  cbv zeta.
  assert (Heq : CategoryAPIView.get_queryset st request
                = (match cache_get (now request) "category_list" (cache st) with
                   | ONone =>
                       set_cache st
                         (<["category_list" :=
                              (OList (List.map CategoryAPIView.values
                                        (categories (db st))),
                               now request + 60 * 15)]> (cache st))
                   | _ => st
                   end, categories (db st))).
  { unfold CategoryAPIView.get_queryset. cbv zeta.
    destruct (cache_get (now request) "category_list" (cache st)); reflexivity. }
  rewrite Heq. clear Heq.
  destruct (cache_get (now request) "category_list" (cache st)) eqn:Hget;
    cbn [fst snd db cache set_cache];
    try (repeat split; solve [ reflexivity | congruence | discriminate ]).
  split; [reflexivity|]. split; [reflexivity|]. split.
  { intros k Hk. apply lookup_insert_ne. congruence. }
  split; [congruence|]. intros _.
  split; [apply lookup_insert_eq|].
  intros request2 Hlt. unfold CategoryAPIView.get_queryset. cbv zeta.
  cbn [cache set_cache db].
  rewrite (cache_get_live _ _ _ _ _ (lookup_insert_eq _ _ _) Hlt).
  reflexivity.
Qed.

(** *** What a creation adds to the product list *)

Lemma images_of_other (db : DB) (r : Product.t) (names : list str) (pk : Z) :
  pk <> product_seq db ->
  images_of (with_image_rows (with_product_row db r) (product_seq db) names) pk
  = images_of db pk.
Proof.
  intros Hne. unfold images_of.
  cbn [product_images with_image_rows with_product_row image_seq].
  rewrite List.filter_app. rewrite (filter_none _ (image_rows _ _ _)).
  - apply app_nil_r.
  - intros i Hin. apply image_rows_in in Hin as [_ Hpk]. lia.
Qed.

Lemma flat_map_ext_in {A B : Type} (f g : A -> list B) (l : list A) :
  (forall a, In a l -> f a = g a) -> flat_map f l = flat_map g l.
Proof.
  induction l as [|a r IH]; intros Hext; [reflexivity|]. simpl.
  rewrite (Hext a (or_introl eq_refl)), IH; [reflexivity|].
  intros b Hb. apply Hext. right. exact Hb.
Qed.

Lemma map_ext_in' {A B : Type} (f g : A -> B) (l : list A) :
  (forall a, In a l -> f a = g a) -> List.map f l = List.map g l.
Proof.
  induction l as [|a r IH]; intros Hext; [reflexivity|]. simpl.
  rewrite (Hext a (or_introl eq_refl)), IH; [reflexivity|].
  intros b Hb. apply Hext. right. exact Hb.
Qed.

(** X18. On a consistent store, a creation answered 201 adds exactly one
    item to what the product-list handler computes from the store: the
    items of the products that were there are unchanged, and the
    representation of the created product comes last. *)
Theorem create_appends_to_list (st : State) (request request2 : Request) :
  db_wf (db st) = true ->
  status (snd (ProductCreateView.create st request)) = HTTP_201_CREATED ->
  let st' := fst (ProductCreateView.create st request) in
  exists items product,
    data (ProductAPIView.super_list st request2) = OList items
    /\ last (products (db st')) = Some (row product)
    /\ Product.id (row product) = product_seq (db st)
    /\ data (snd (ProductCreateView.create st request))
       = ProductSerializer.to_representation (Some request) (db st') product
    /\ data (ProductAPIView.super_list st' request2)
       = OList (items
                ++ [ProductSerializer.to_representation (Some request2) (db st')
                      product]).
Proof.
  intros Hwf Hst. cbv zeta.
  destruct (created_inv _ _ Hst) as (vd & Hv & Hfresh & Hlen).
  pose proof (is_valid_inr _ _ _ Hv) as (_ & _ & Hc & Ht & _).
  apply run_category_valid in Hc as (pkc & _ & Hc). apply get_category_id in Hc.
  apply run_types_product_valid in Ht as (pkt & _ & Ht). apply get_type_id in Ht.
  rewrite (view_create_eq _ _ _ Hv), Hfresh. cbv zeta.
  rewrite Hlen, Nat.eqb_refl. cbn [fst snd data].
  set (r := new_row (db st) vd (uuid4 request) (now request)).
  set (db' := with_image_rows (with_product_row (db st) r) (product_seq (db st))
                (saved_prefix (stored_files (db st)) (images_data vd))).
  eexists _, (new_obj (db st) vd (uuid4 request) (now request)).
  split; [reflexivity|].
  split; [cbn [db' products with_image_rows with_product_row new_obj row];
          apply last_snoc|].
  split; [reflexivity|]. split; [reflexivity|].
  unfold ProductAPIView.super_list. cbn [data db]. f_equal.
  unfold ProductAPIView.get_queryset.
  replace (products db') with (products (db st) ++ [r]) by reflexivity.
  rewrite flat_map_app, map_app. f_equal.
  - assert (Hold : forall p, In p (products (db st)) ->
                     images_of db' (Product.id p) = images_of (db st) (Product.id p)).
    { intros p Hp. apply images_of_other.
      pose proof (db_wf_product_id _ _ Hwf Hp). lia. }
    rewrite (flat_map_ext_in _
               (fun p =>
                  match get_category (db st) (Product.category p),
                        get_type (db st) (Product.types_product p) with
                  | Some c, Some t =>
                      [ {| row := p; category_obj := c; types_obj := t;
                           prefetched_images :=
                             Some (images_of (db st) (Product.id p)) |} ]
                  | _, _ => []
                  end)).
    2:{ intros p Hp. rewrite (Hold p Hp). reflexivity. }
    apply map_ext_in'. intros obj Hobj.
    apply get_queryset_loaded in Hobj as (Hrow & _ & _ & Hpre).
    unfold ProductSerializer.to_representation, ProductSerializer.get_first_image,
      ProductSerializer.images_all.
    rewrite Hpre, (Hold _ Hrow). reflexivity.
  - cbn [flat_map app]. unfold get_category, get_type in *.
    cbn [db' categories types with_image_rows with_product_row r new_row
         Product.category Product.types_product].
    rewrite Hc, Ht. reflexivity.
Qed.

(** The names the store chooses are free: none is among the files held
    before, no two are equal. *)
Lemma saved_prefix_fresh (l : list Upload) (files : list str) :
  NoDup (List.map (fun name => upload_to ++ text "/" ++ name)
           (saved_prefix files l))
  /\ forall n, In n (List.map (fun name => upload_to ++ text "/" ++ name)
                       (saved_prefix files l)) ->
               ~ In n files.
Proof.
  revert files. induction l as [|u r IH]; intros files; simpl.
  - split; [constructor | tauto].
  - destruct (storage_save files u) as [name|] eqn:Hsave; simpl;
      [|split; [constructor | tauto]].
    destruct (IH (files ++ [upload_to ++ text "/" ++ name])) as [Hnd Hfree].
    split.
    + constructor; [|exact Hnd].
      rewrite list_elem_of_In. intros Hin. apply (Hfree _ Hin).
      apply in_app_iff. right. left. reflexivity.
    + intros n [<-|Hin].
      * exact (storage_save_available _ _ _ Hsave).
      * intros Hn. apply (Hfree _ Hin). apply in_app_iff. left. exact Hn.
Qed.

(** Each name is the one the store chose for the upload of the same rank
    while holding the files held before and those of the earlier uploads. *)
Lemma saved_prefix_lookup (l : list Upload) (files : list str) (i : nat)
    (u : Upload) :
  length (saved_prefix files l) = length l ->
  l !! i = Some u ->
  exists name,
    saved_prefix files l !! i = Some name
    /\ storage_save
         (files ++ take i (List.map (fun name => upload_to ++ text "/" ++ name)
                             (saved_prefix files l))) u
       = Some name.
Proof.
  revert files i. induction l as [|x r IH]; intros files i Hlen Hi;
    [discriminate|].
  simpl in Hlen |- *.
  destruct (storage_save files x) as [name|] eqn:Hsave; [|discriminate].
  destruct i as [|i]; simpl in Hi |- *.
  - injection Hi as <-. exists name. rewrite app_nil_r. auto.
  - injection Hlen as Hlen. destruct (IH _ i Hlen Hi) as (name' & Hl & Hs).
    exists name'. split; [exact Hl|].
    rewrite <- app_assoc in Hs. exact Hs.
Qed.

(** X19. On a consistent store, the [images] of a 201 show one image per
    submitted upload, in submission order: the rows have consecutive
    primary keys from the image sequence on and reference the created
    product; each holds, inside [product/], the name the blob store chose
    for its upload while holding the files of the image rows before it,
    a name no earlier file has. *)
Theorem created_images_in_order (st : State) (request : Request) :
  db_wf (db st) = true ->
  status (snd (ProductCreateView.create st request)) = HTTP_201_CREATED ->
  let st' := fst (ProductCreateView.create st request) in
  let submitted := submitted_images (request_data request) in
  let names := saved_prefix (stored_files (db st)) submitted in
  let stored := List.map (fun name => upload_to ++ text "/" ++ name) names in
  length names = length submitted
  /\ (forall i u, submitted !! i = Some u ->
        exists name,
          names !! i = Some name
          /\ storage_save (stored_files (db st) ++ take i stored) u = Some name)
  /\ NoDup stored
  /\ (forall n, In n stored -> ~ In n (stored_files (db st)))
  /\ images_of (db st') (product_seq (db st))
     = image_rows (image_seq (db st)) (product_seq (db st)) names
  /\ stored_files (db st') = stored_files (db st) ++ stored
  /\ field "images" (data (snd (ProductCreateView.create st request)))
     = Some (OList (List.map
                      (ProductImageSerializer.to_representation (Some request))
                      (image_rows (image_seq (db st)) (product_seq (db st))
                         names))).
Proof.
  intros Hwf Hst. cbv zeta.
  destruct (created_inv _ _ Hst) as (vd & Hv & Hfresh & Hlen).
  rewrite <- (images_data_submitted _ _ _ Hv).
  split; [exact Hlen|].
  split; [intros i u Hi; apply saved_prefix_lookup; assumption|].
  destruct (saved_prefix_fresh (images_data vd) (stored_files (db st)))
    as [Hnd Hfree].
  split; [exact Hnd|]. split; [exact Hfree|].
  rewrite (view_create_eq _ _ _ Hv), Hfresh. cbv zeta.
  rewrite Hlen, Nat.eqb_refl. cbn [fst snd db data].
  split; [apply images_of_created; exact Hwf|].
  split.
  { unfold stored_files.
    cbn [product_images with_image_rows with_product_row image_seq].
    rewrite map_app, image_of_image_rows. reflexivity. }
  unfold ProductSerializer.to_representation, field.
  cbn [dict_get String.eqb Ascii.eqb Bool.eqb].
  unfold ProductSerializer.images_all.
  cbn [new_obj prefetched_images row new_row Product.id].
  rewrite (images_of_created _ _ _ Hwf). reflexivity.
Qed.

End Service.

(** ** The theorems at sample data *)

Section AtSample.
#[local] Existing Instance Sample.platform.
Import ProductCreateSerializer.

(** C1. A product list read before a creation keeps the response cache of
    [cache_page] filled for five minutes; the creation deletes the entry
    [product_list] only, so the list request that follows it is answered
    from the response cache and does not list the created product. *)
Theorem stale_product_list_after_create :
  let requests :=
    [ Sample.get "product-list" 0;
      Sample.post (Sample.payload "19.99" [Sample.upload "a.png"]) 1 "u1";
      Sample.get "product-list" 2 ] in
  let st := fst (serve Sample.start requests) in
  let responses := snd (serve Sample.start requests) in
  List.map status responses = [200; 201; 200]
  /\ List.map Product.id (products (db st)) = [1%Z]
  /\ List.map (fun r => listed_ids (data r)) responses = [[]; []; []]
  /\ cache st !! "product_list" = None
  /\ cache_get 2 (page_key (Sample.get "product-list" 2)) (cache st)
     = OResponse 200 (OList []).
Proof. cbv zeta. repeat split; vm_compute; reflexivity. Qed.

(** C2 fails as stated: the blob store refuses the second of three
    images; the request ends with a 500, the product row and the row of
    the first image stay in the store, and the product list shows the
    product with that one image. *)
Lemma partial_creation_observable :
  let request := Sample.post (Sample.payload "19.99" Sample.three_uploads) 1 "u" in
  let requests := [request; Sample.get "product-list" 2] in
  let st := fst (serve Sample.start requests) in
  let responses := snd (serve Sample.start requests) in
  List.map status responses = [500; 200]
  /\ ~ all_or_nothing (db Sample.start) (db st)
         (submitted_images (request_data request))
  /\ List.map (fun r => listed_ids (data r)) responses = [[]; [1%Z]]
  /\ List.map ProductImage.image (images_of (db st) 1)
     = [text "product/a.png"].
Proof.
  cbv zeta. split; [vm_compute; reflexivity|]. split.
  - intros [[Hp _]|[_ Hi]].
    + vm_compute in Hp. discriminate Hp.
    + vm_compute in Hi. discriminate Hi.
  - split; vm_compute; reflexivity.
Qed.

Lemma create_keeps_rows_written_witness :
  let st := Sample.start in
  let request := Sample.post (Sample.payload "19.99" Sample.three_uploads) 1 "u" in
  let vd := Sample.validated "19.99" Sample.three_uploads in
  is_valid (db st) (request_data request) = inr vd
  /\ uuid_taken (db st) (uuid4 request) = false
  /\ products (db (fst (ProductCreateView.create st request)))
     = products (db st) ++ [new_row (db st) vd (uuid4 request) (now request)]
  /\ product_images (db (fst (ProductCreateView.create st request)))
     = product_images (db st)
       ++ image_rows (image_seq (db st)) (product_seq (db st))
            (saved_prefix (stored_files (db st))
               (submitted_images (request_data request))).
Proof.
  cbv zeta.
  split; [vm_compute; reflexivity|]. split; [vm_compute; reflexivity|].
  pose proof (@create_keeps_rows_written Sample.platform Sample.start
                (Sample.post (Sample.payload "19.99" Sample.three_uploads) 1 "u")
                (Sample.validated "19.99" Sample.three_uploads)
                ltac:(vm_compute; reflexivity) ltac:(vm_compute; reflexivity))
    as (Hp & Hi & _).
  split; [exact Hp | exact Hi].
Defined.

Lemma first_image_of_created_witness :
  let st := Sample.start in
  let request := Sample2.same_name_request in
  let st' := fst (ProductCreateView.create st request) in
  db_wf (db st) = true
  /\ status (snd (ProductCreateView.create st request)) = HTTP_201_CREATED
  /\ List.map ProductImage.image
       (Described.images_in_order (db st') (product_seq (db st)))
     = List.map (fun name => upload_to ++ text "/" ++ name)
         (saved_prefix (stored_files (db st))
            (submitted_images (request_data request)))
  /\ List.map ProductImage.image
       (Described.images_in_order (db st') (product_seq (db st)))
     = [text "product/a.png"; text "product/_a.png"]
  /\ field "first_image" (data (snd (ProductCreateView.create st request)))
     = Some (OStr (text "http://testserver/media/product/a.png")).
Proof.
  cbv zeta.
  split; [vm_compute; reflexivity|]. split; [vm_compute; reflexivity|].
  destruct (@first_image_of_created Sample.platform Sample.start
              Sample2.same_name_request
              ltac:(vm_compute; reflexivity) ltac:(vm_compute; reflexivity))
    as (_ & Horder & _).
  split; [exact Horder|]. split; vm_compute; reflexivity.
Defined.

Lemma product_list_read_through_witness :
  let st := fst (ProductCreateView.create Sample.start Sample2.create_request) in
  let miss := Sample.get "product-list" 10 in
  let hit := Sample.get "product-list" 20 in
  let st' := fst (ProductAPIView.list st miss) in
  let product :=
    Product.mk 1 (text "Winter boot") (text "A warm leather boot") 1 1
      (text "19.99") (text "u1") 7 true in
  let payload :=
    OList [Described.product_object (Some miss) (db st) product
             Sample.shoes Sample.boots] in
  products (db st) = [product]
  /\ store_consistent (db st) = true
  /\ images_in_key_order (db st) = true
  /\ cache st !! "product_list" = None
  /\ ProductAPIView.list st miss
     = (set_cache st (<["product_list" := (payload, 310)]> (cache st)),
        {| status := 200; data := payload |})
  /\ List.map (field "first_image") [Described.product_object (Some miss) (db st)
                                       product Sample.shoes Sample.boots]
     = [Some (OStr (text "http://testserver/media/product/a.png"))]
  /\ List.map (field "category_title") [Described.product_object (Some miss) (db st)
                                          product Sample.shoes Sample.boots]
     = [Some (OStr (text "Shoes"))]
  /\ ProductAPIView.list st' hit = (st', {| status := 200; data := payload |}).
Proof.
  cbv zeta.
  split; [vm_compute; reflexivity|]. split; [vm_compute; reflexivity|].
  split; [vm_compute; reflexivity|]. split; [vm_compute; reflexivity|].
  destruct (@product_list_read_through Sample.platform
              (fst (@ProductCreateView.create Sample.platform Sample.start
                      Sample2.create_request))
              (Sample.get "product-list" 10))
    as (_ & Hmiss & _ & _ & Hpin).
  assert (Hnone : cache (fst (ProductCreateView.create Sample.start
                                Sample2.create_request)) !! "product_list"
                  = None) by (vm_compute; reflexivity).
  destruct (Hmiss (or_introl Hnone)) as [Heq _].
  destruct (Hpin ltac:(vm_compute; reflexivity) ltac:(vm_compute; reflexivity))
    as (_ & joined & Hrows & _ & Hfresh).
  assert (Hpayload :
            OList (List.map
                     (ProductSerializer.to_representation
                        (Some (Sample.get "product-list" 10))
                        (db (fst (ProductCreateView.create Sample.start
                                    Sample2.create_request))))
                     (ProductAPIView.get_queryset
                        (db (fst (ProductCreateView.create Sample.start
                                    Sample2.create_request)))))
            = OList [Described.product_object (Some (Sample.get "product-list" 10))
                       (db (fst (ProductCreateView.create Sample.start
                                   Sample2.create_request)))
                       (Product.mk 1 (text "Winter boot")
                          (text "A warm leather boot") 1 1 (text "19.99")
                          (text "u1") 7 true)
                       Sample.shoes Sample.boots])
    by (vm_compute; reflexivity).
  rewrite Hpayload in Heq.
  split; [exact Heq|]. split; [vm_compute; reflexivity|].
  split; [vm_compute; reflexivity|].
  rewrite Heq. cbn [fst].
  destruct (@product_list_read_through Sample.platform
              (set_cache
                 (fst (@ProductCreateView.create Sample.platform Sample.start
                         Sample2.create_request))
                 (<["product_list" :=
                      (OList [Described.product_object
                                (Some (Sample.get "product-list" 10))
                                (db (fst (ProductCreateView.create Sample.start
                                            Sample2.create_request)))
                                (Product.mk 1 (text "Winter boot")
                                   (text "A warm leather boot") 1 1 (text "19.99")
                                   (text "u1") 7 true)
                                Sample.shoes Sample.boots], 310)]>
                    (cache (fst (@ProductCreateView.create Sample.platform
                                   Sample.start Sample2.create_request)))))
              (Sample.get "product-list" 20)) as (Hhit & _).
  apply (Hhit _ 310).
  - apply lookup_insert_eq.
  - cbn. lia.
  - discriminate.
Defined.

Lemma unresolved_reference_rejected_witness :
  let body :=
    Payload.mk (Given (text "Winter boot")) (Given (text "A warm leather boot"))
      (Given 7%Z) (Given 1%Z) (Given (text "19.99")) (Given true) Absent in
  let request := Sample.post body 1 "u" in
  unresolved RefCategory (db Sample.start) (request_data request) 7
  /\ fst (ProductCreateView.create Sample.start request) = Sample.start
  /\ status (snd (ProductCreateView.create Sample.start request)) = 400
  /\ field "category" (data (snd (ProductCreateView.create Sample.start request)))
     = Some (OList [OError (DoesNotExist 7)]).
Proof.
  cbv zeta. split; [split; reflexivity|].
  exact (@unresolved_reference_rejected Sample.platform Sample.start
           (Sample.post
              (Payload.mk (Given (text "Winter boot"))
                 (Given (text "A warm leather boot"))
                 (Given 7%Z) (Given 1%Z) (Given (text "19.99")) (Given true) Absent)
              1 "u")
           RefCategory 7 (conj eq_refl eq_refl)).
Defined.

Lemma short_title_rejected_witness :
  let body :=
    Payload.mk (Given (text " ab ")) Absent (Given 1%Z) (Given 1%Z)
      (Given (text "19.99")) (Given true) Absent in
  let request := Sample.post body 1 "u" in
  Payload.title (request_data request) = Given (text " ab ")
  /\ length (strip (text " ab ")) < 3
  /\ status (snd (ProductCreateView.create Sample.start request)) = 400
  /\ (exists d, d <> []
                /\ field "title"
                     (data (snd (ProductCreateView.create Sample.start request)))
                   = Some (OList (List.map OError d))).
Proof.
  cbv zeta. split; [reflexivity|]. split; [vm_compute; lia|].
  pose proof (@short_title_rejected Sample.platform Sample.start
                (Sample.post
                   (Payload.mk (Given (text " ab ")) Absent (Given 1%Z) (Given 1%Z)
                      (Given (text "19.99")) (Given true) Absent) 1 "u")
                (text " ab ") eq_refl ltac:(vm_compute; lia))
    as (_ & Hs & Ht & _).
  split; [exact Hs | exact Ht].
Defined.

Lemma create_invalidates_product_list_only_witness :
  let request := Sample.post (Sample.payload "19.99" [Sample.upload "a.png"]) 400 "u" in
  let st := fst (ProductAPIView.list Sample.start (Sample.get "product-list" 0)) in
  let st' := fst (ProductCreateView.create st request) in
  let response := snd (ProductCreateView.create st request) in
  status response = HTTP_201_CREATED
  /\ db_wf (db st) = true
  /\ cache st !! "product_list" = Some (OList [], 300)
  /\ cache st' !! "product_list" = None
  /\ field "first_image" (data response)
     = Some (OStr (text "http://testserver/media/product/a.png"))
  /\ field "category_title" (data response) = Some (OStr (text "Shoes"))
  /\ field "types_title" (data response) = Some (OStr (text "Boots"))
  /\ field "images" (data response)
     = Some (OList [ODict [("id", OInt 1);
                           ("image", OStr (text "http://testserver/media/product/a.png"));
                           ("image_url", OStr (text "http://testserver/media/product/a.png"));
                           ("product", OInt 1)]])
  /\ data response
     = Described.product_object (Some request) (db st')
         (Product.mk 1 (text "Winter boot") (text "A warm leather boot") 1 1
            (text "19.99") (text "u") 400 true)
         Sample.shoes Sample.boots.
Proof.
  cbv zeta. split; [vm_compute; reflexivity|]. split; [vm_compute; reflexivity|].
  split; [vm_compute; reflexivity|].
  pose proof (@create_invalidates_product_list_only Sample.platform
                (fst (ProductAPIView.list Sample.start (Sample.get "product-list" 0)))
                (Sample.post (Sample.payload "19.99" [Sample.upload "a.png"]) 400 "u")
                ltac:(vm_compute; reflexivity)) as H.
  cbv zeta in H.
  destruct H as (_ & Hnone & _ & (product & pkc & pkt & _ & Hpkc & Hc & Hpkt
                                   & Ht & _ & _ & _ & _ & Hct & Htt & Hbody) & _).
  destruct (Hbody ltac:(vm_compute; reflexivity)) as (_ & _ & Hfirst).
  change (submitted_images
            (request_data
               (Sample.post (Sample.payload "19.99" [Sample.upload "a.png"]) 400 "u")))
    with [Sample.upload "a.png"] in Hfirst.
  destruct Hfirst as (name & Hsave & Hfirst).
  vm_compute in Hsave. injection Hsave as <-.
  injection Hpkc as <-. injection Hpkt as <-.
  assert (Hc' : get_category
                  (db (fst (ProductAPIView.list Sample.start
                              (Sample.get "product-list" 0)))) 1
                = Some Sample.shoes) by (vm_compute; reflexivity).
  assert (Ht' : get_type
                  (db (fst (ProductAPIView.list Sample.start
                              (Sample.get "product-list" 0)))) 1
                = Some Sample.boots) by (vm_compute; reflexivity).
  rewrite Hc' in Hc. injection Hc as Hc. rewrite Ht' in Ht. injection Ht as Ht.
  split; [exact Hnone|].
  split; [rewrite Hfirst; vm_compute; reflexivity|].
  split; [rewrite Hct, <- Hc; vm_compute; reflexivity|].
  split; [rewrite Htt, <- Ht; vm_compute; reflexivity|].
  split; vm_compute; reflexivity.
Defined.

Lemma category_list_entry_is_dead_witness :
  let st2 :=
    {| db := Sample.store;
       cache := {[ "category_list" := (OStr (text "stale"), 1000) ]} |} in
  agree_off "category_list" Sample.start st2
  /\ forall request,
       snd (CategoryAPIView.as_view Sample.start request)
       = snd (CategoryAPIView.as_view st2 request).
Proof.
  cbv zeta.
  assert (Hag : agree_off "category_list" Sample.start
                  {| db := Sample.store;
                     cache := {[ "category_list" := (OStr (text "stale"), 1000) ]} |}).
  { split; [reflexivity|]. intros k Hk. cbn [cache Sample.start].
    rewrite lookup_empty. symmetry. apply lookup_singleton_ne. congruence. }
  split; [exact Hag|].
  exact (proj1 (@category_list_entry_is_dead Sample.platform _ _ Hag)).
Defined.

(** ** Checks of the runtime model on literals *)

Example strip_examples :
  strip (text "  ab ") = text "ab"
  /\ strip [0x2003; 97; 0xA0; 98; 10]%N = [97; 0xA0; 98]%N
  /\ strip (text "   ") = [].
Proof. repeat split; reflexivity. Qed.

Example float_examples :
  float (text "19.99") = Some (FDec false 1999 (-2))
  /\ float (text " -5 ") = Some (FDec true 5 0)
  /\ float (text "1_000.5e-3") = Some (FDec false 10005 (-4))
  /\ float (text ".5") = Some (FDec false 5 (-1))
  /\ float (text "1.") = Some (FDec false 1 0)
  /\ float (text "+iNfInItY") = Some (FInf false)
  /\ float (text "-inf") = Some (FInf true)
  /\ float (text "-NaN") = Some FNan
  /\ List.map float
       [text "abc"; text ""; text "."; text "1e"; text "1__0"; text "_1";
        text "1_"; text "0x10"; text "1 2"; text "infin"; text "--1"]
     = repeat None 11.
Proof. repeat split; vm_compute; reflexivity. Qed.

(** The least decimals that do not round to zero lie just above
    [2^-1075 = 2.4703282292062327208...e-324]. *)
Example float_underflow_examples :
  rounds_to_zero 24703282292062327 (-340) = true
  /\ rounds_to_zero 24703282292062328 (-340) = false
  /\ option_map float_le0 (float (text "1e-400")) = Some true
  /\ option_map float_le0 (float (text "5e-324")) = Some false
  /\ option_map float_le0 (float (text "1e400")) = Some false.
Proof. repeat split; vm_compute; reflexivity. Qed.

(** ** Further theorems at sample data *)


Lemma digit_prices_witness :
  Forall (fun d => (d < 10)%N) [1; 9; 0]%N
  /\ [1; 9; 0]%N <> []
  /\ ProductCreateSerializer.validate_price (digits_text [1; 9; 0]%N)
     = Valid (text "190")
  /\ ProductCreateSerializer.validate_price (45%N :: digits_text [1; 9; 0]%N)
     = Invalid [Msg "Цена должна быть положительным числом"].
Proof.
  assert (Hall : Forall (fun d => (d < 10)%N) [1; 9; 0]%N)
    by (repeat constructor).
  assert (Hne : [1; 9; 0]%N <> []) by discriminate.
  split; [exact Hall|]. split; [exact Hne|].
  destruct (@digit_prices Sample.platform [1; 9; 0]%N Hall Hne) as (Hp & Hn & _).
  split; [exact Hp | exact Hn].
Defined.

Lemma created_row_witness :
  status (snd (@ProductCreateView.create Sample.platform Sample.start Sample2.create_request))
  = HTTP_201_CREATED
  /\ exists t d p pk_category pk_type,
       Payload.title (request_data Sample2.create_request) = Given t
       /\ Payload.description (request_data Sample2.create_request) = Given d
       /\ Payload.price (request_data Sample2.create_request) = Given p
       /\ Payload.category (request_data Sample2.create_request) = Given pk_category
       /\ Payload.types_product (request_data Sample2.create_request) = Given pk_type
       /\ products (db (fst (@ProductCreateView.create Sample.platform Sample.start Sample2.create_request)))
          = products (db Sample.start)
            ++ [ Product.mk (product_seq (db Sample.start)) (strip t) (strip d)
                   pk_category pk_type (strip p) (uuid4 Sample2.create_request)
                   (now Sample2.create_request)
                   (match Payload.is_active (request_data Sample2.create_request) with
                    | Given b => b
                    | _ => false
                    end) ].
Proof.
  split; [vm_compute; reflexivity|].
  destruct (@created_row Sample.platform Sample.start Sample2.create_request
              ltac:(vm_compute; reflexivity))
    as (t & d & p & pkc & pkt & Ht & Hd & Hp & Hc & Hty & Hrow & _).
  exists t, d, p, pkc, pkt. auto 10.
Defined.

Lemma serve_keeps_store_consistent_witness :
  let requests :=
    [ Sample.get "product-list" 0; Sample2.create_request;
      Sample.post (Sample.payload "19.99" Sample.three_uploads) 8 "u2";
      Sample.post (Sample.payload "19.99" []) 9 "u2";
      Sample.get "category-list" 10 ] in
  store_consistent (db Sample.start) = true
  /\ store_consistent (db (fst (serve Sample.start requests))) = true
  /\ List.map status (snd (serve Sample.start requests)) = [200; 201; 500; 500; 200].
Proof.
  cbv zeta. split; [vm_compute; reflexivity|].
  split; [|vm_compute; reflexivity].
  exact (@serve_keeps_store_consistent Sample.platform _ Sample.start
           ltac:(vm_compute; reflexivity)).
Defined.

Lemma store_written_only_by_create_witness :
  let request := Sample.get "product-list" 3 in
  method request = GET
  /\ db (fst (urlpatterns Sample.start request)) = db Sample.start.
Proof.
  cbv zeta. split; [reflexivity|].
  exact (@store_written_only_by_create Sample.platform Sample.start
           (Sample.get "product-list" 3) (or_introl eq_refl)).
Defined.


Lemma list_response_recomputed_witness :
  let request := Sample.get "product-list" 0 in
  let request2 := Sample.get "product-list" 300 in
  let between := [Sample2.create_request] in
  let st1 := fst (urlpatterns Sample.start request) in
  let db2 := db (fst (serve st1 between)) in
  let st2 := {| db := db2; cache := cache (fst (serve st1 between)) |} in
  cache_get (now request) (page_key request) (cache Sample.start) = ONone
  /\ now request + page_timeout (path request) <= now request2
  /\ List.map Product.id (products db2) = [1%Z]
  /\ cache_get (now request2) "product_list" (cache st2) = ONone
  /\ listed_ids (data (snd (urlpatterns Sample.start request))) = []
  /\ listed_ids (data (snd (urlpatterns st2 request2))) = [1%Z].
Proof.
  cbv zeta.
  destruct (@list_response_recomputed Sample.platform Sample.start
              (Sample.get "product-list" 0) (Sample.get "product-list" 300)
              [Sample2.create_request]
              (db (fst (@serve Sample.platform
                          (fst (@urlpatterns Sample.platform Sample.start
                                  (Sample.get "product-list" 0)))
                          [Sample2.create_request])))
              (or_intror (or_intror (or_introl eq_refl)))
              eq_refl eq_refl eq_refl eq_refl
              ltac:(vm_compute; reflexivity)
              ltac:(repeat (constructor; [intros _ _; vm_compute; lia|]);
                    constructor)
              ltac:(vm_compute; lia)) as [Hresp Hinner].
  split; [vm_compute; reflexivity|]. split; [vm_compute; lia|].
  split; [vm_compute; reflexivity|].
  split.
  - apply Hinner; [reflexivity | vm_compute; reflexivity|].
    repeat (constructor; [discriminate|]). constructor.
  - split; [vm_compute; reflexivity|].
    rewrite Hresp. vm_compute. reflexivity.
Defined.

Lemma product_list_lists_products_witness :
  let st := fst (@ProductCreateView.create Sample.platform Sample.start Sample2.create_request) in
  let request := Sample.get "product-list" 8 in
  cache_get (now request) "product_list" (cache st) = ONone
  /\ store_consistent (db st) = true
  /\ listed_ids (data (snd (ProductAPIView.list st request)))
     = List.map Product.id (products (db st)).
Proof.
  cbv zeta. split; [vm_compute; reflexivity|]. split; [vm_compute; reflexivity|].
  destruct (@product_list_lists_products Sample.platform
              (fst (@ProductCreateView.create Sample.platform Sample.start Sample2.create_request))
              (Sample.get "product-list" 8) ltac:(vm_compute; reflexivity))
    as [_ Hall].
  exact (proj1 (Hall ltac:(vm_compute; reflexivity))).
Defined.

Lemma product_list_after_create_witness :
  let request2 := Sample.get "product-list" 8 in
  status (snd (@ProductCreateView.create Sample.platform Sample.start Sample2.create_request))
  = HTTP_201_CREATED
  /\ method request2 = GET
  /\ cache_get (now request2) (page_key request2) (cache Sample.start) = ONone
  /\ In (product_seq (db Sample.start))
        (listed_ids
           (data (snd (ProductAPIView.as_view
                         (fst (@ProductCreateView.create Sample.platform Sample.start Sample2.create_request)) request2)))).
Proof.
  cbv zeta. split; [vm_compute; reflexivity|]. split; [reflexivity|].
  split; [vm_compute; reflexivity|].
  exact (@product_list_after_create Sample.platform Sample.start
           Sample2.create_request (Sample.get "product-list" 8)
           ltac:(vm_compute; reflexivity) eq_refl ltac:(vm_compute; reflexivity)).
Defined.

Lemma first_image_among_images_witness :
  let db' :=
    db (fst (@ProductCreateView.create Sample.platform Sample.start Sample2.create_request)) in
  match ProductAPIView.get_queryset db' with
  | [obj] =>
      ProductSerializer.images_all db' obj = images_of db' (Product.id (row obj))
      /\ field "images" (ProductSerializer.to_representation None db' obj)
         = Some (OList (List.map (ProductImageSerializer.to_representation None)
                          (images_of db' (Product.id (row obj)))))
  | _ => False
  end.
Proof.
  cbv zeta.
  destruct (ProductAPIView.get_queryset
              (db (fst (@ProductCreateView.create Sample.platform Sample.start
                          Sample2.create_request))))
    as [|obj [|other rest]] eqn:Hq;
    try (vm_compute in Hq; discriminate Hq).
  apply get_queryset_loaded_images in Hq.
  split; [exact Hq|].
  exact (proj1 (@first_image_among_images Sample.platform None _ obj Hq)).
Defined.

Lemma create_appends_to_list_witness :
  db_wf (db Sample.start) = true
  /\ status (snd (@ProductCreateView.create Sample.platform Sample.start Sample2.create_request))
     = HTTP_201_CREATED
  /\ exists items product,
       data (ProductAPIView.super_list Sample.start (Sample.get "product-list" 8))
       = OList items
       /\ data (ProductAPIView.super_list
                  (fst (@ProductCreateView.create Sample.platform Sample.start Sample2.create_request))
                  (Sample.get "product-list" 8))
          = OList (items
                   ++ [ProductSerializer.to_representation
                         (Some (Sample.get "product-list" 8))
                         (db (fst (@ProductCreateView.create Sample.platform Sample.start Sample2.create_request)))
                         product]).
Proof.
  split; [vm_compute; reflexivity|]. split; [vm_compute; reflexivity|].
  destruct (@create_appends_to_list Sample.platform Sample.start
              Sample2.create_request (Sample.get "product-list" 8)
              ltac:(vm_compute; reflexivity) ltac:(vm_compute; reflexivity))
    as (items & product & Hold & _ & _ & _ & Hnew).
  exists items, product. split; [exact Hold | exact Hnew].
Defined.

Lemma created_images_in_order_witness :
  let st := Sample.start in
  let request := Sample2.same_name_request in
  let names :=
    saved_prefix (stored_files (db st)) (submitted_images (request_data request)) in
  db_wf (db st) = true
  /\ status (snd (ProductCreateView.create st request)) = HTTP_201_CREATED
  /\ names = [text "a.png"; text "_a.png"]
  /\ images_of (db (fst (ProductCreateView.create st request)))
       (product_seq (db st))
     = image_rows (image_seq (db st)) (product_seq (db st)) names.
Proof.
  cbv zeta.
  split; [vm_compute; reflexivity|]. split; [vm_compute; reflexivity|].
  split; [vm_compute; reflexivity|].
  destruct (@created_images_in_order Sample.platform Sample.start
              Sample2.same_name_request
              ltac:(vm_compute; reflexivity) ltac:(vm_compute; reflexivity))
    as (_ & _ & _ & _ & Himgs & _).
  exact Himgs.
Defined.

End AtSample.
